(** * BHMM: the hidden Markov model class and the discrete initial model

    A shallow embedding of [bhmm/hmm_class.py] (class [HMM]) and of
    [bhmm/init/discrete.py] (function [initial_model_discrete]).

    Conventions of the embedding.
    - [np.float64] values are idealised as exact rationals ([Q]); complex
      values as pairs of rationals.  Division by zero, which numpy answers
      with [nan]/[inf] and a warning, is [Qdiv]'s [0]; every statement that
      depends on a division carries the corresponding non-zero fact.
    - Python exceptions are values of [exn]; a computation that may raise
      returns [result A = exn + A].
    - The functions of pyemma and numpy.random that the code calls are not
      part of the package: they are the fields of the records [msmana.t]
      and [msm.t], the matrix inverse [inv] and the sampler [choice], over
      which the statements quantify. *)

From Stdlib Require Import Reals Qreals Lra.
From Stdlib Require Import String Bool Arith ZArith QArith Qabs Qround List Lia.
From Stdlib Require Import Permutation Sorted Lqa.
Import ListNotations.

Local Open Scope Z_scope.

(** ** Exceptions and the error monad *)

Inductive exn : Type :=
| AssertionError (msg : string)
| ValueError (msg : string)
| IndexError (msg : string)
| RuntimeError (msg : string)
| TypeError (msg : string)
| ZeroDivisionError (msg : string)
| LinAlgError (msg : string).

Definition result (A : Type) : Type := (exn + A)%type.

Definition ret {A : Type} (a : A) : result A := inr a.
Definition raise {A : Type} (e : exn) : result A := inl e.

Definition bind {A B : Type} (m : result A) (k : A -> result B) : result B :=
  match m with
  | inl e => inl e
  | inr a => k a
  end.

Declare Scope py_scope.
Delimit Scope py_scope with py.
Notation "x <- m ;; k" := (bind m (fun x => k))
  (at level 61, m at next level, right associativity) : py_scope.
Notation "m ;;; k" := (bind m (fun _ => k))
  (at level 61, right associativity) : py_scope.
Local Open Scope py_scope.

(** [assert cond, msg] *)
Definition py_assert (cond : bool) (msg : string) : result unit :=
  if cond then ret tt else raise (AssertionError msg).

Definition is_ok {A : Type} (m : result A) : bool :=
  match m with inr _ => true | inl _ => false end.

(** ** Arrays and Python objects *)

Definition vector : Type := list Q.
Definition matrix : Type := list (list Q).

(** A complex number, real part first. *)
Definition complex : Type := (Q * Q)%type.
Definition cmatrix : Type := list (list complex).

(** What [np.array] can produce from the objects below: a 0-d array of a
    number, a 0-d array holding an arbitrary object, a 1-d and a 2-d array. *)
Inductive ndarray : Type :=
| Arr0 (x : Q)
| Arr0Obj
| Arr1 (v : vector)
| Arr2 (m : matrix).

(** The Python values that reach the constructor of [HMM]. *)
Inductive pyobj : Type :=
| PyInt (n : Z)
| PyFloat (x : Q)
| PyArray (a : ndarray)
| PyDiscreteOutputModel (B : matrix)
| PyObject (name : string).

Definition np_array (o : pyobj) : ndarray :=
  match o with
  | PyInt n => Arr0 (inject_Z n)
  | PyFloat x => Arr0 x
  | PyArray a => a
  | PyDiscreteOutputModel _ => Arr0Obj
  | PyObject _ => Arr0Obj
  end.

Definition shape (a : ndarray) : list nat :=
  match a with
  | Arr0 _ => []
  | Arr0Obj => []
  | Arr1 v => [length v]
  | Arr2 m => [length m; length (hd [] m)]
  end.

(** [a.shape[0]] *)
Definition shape0 (a : ndarray) : result nat :=
  match shape a with
  | [] => raise (IndexError "tuple index out of range")
  | n :: _ => ret n
  end.

(** numpy's treatment of one integer index into an axis of size [n]:
    negative indices count from the end, anything outside [-n, n) raises. *)
Definition norm_index (n : nat) (i : Z) : result nat :=
  if (- Z.of_nat n <=? i) && (i <? Z.of_nat n)
  then ret (Z.to_nat (i mod Z.of_nat n))
  else raise (IndexError "index is out of bounds for axis").

(** ** The HMM object *)

Record HMM : Type := mkHMM {
  _Tij : ndarray;
  _nstates : nat;
  _lag : pyobj;
  output_model : pyobj;
  hidden_state_trajectories : option (list (list Z));
  _Pi : vector;
  _stationary : bool;
  _reversible : bool;
  _R : cmatrix;
  _D : cmatrix;
  _L : cmatrix;
  _eigenvalues : list complex
}.

(** [model.hidden_state_trajectories = S] *)
Definition set_hidden_state_trajectories (self : HMM) (S : list (list Z)) : HMM :=
  {| _Tij := _Tij self; _nstates := _nstates self; _lag := _lag self;
     output_model := output_model self;
     hidden_state_trajectories := Some S;
     _Pi := _Pi self; _stationary := _stationary self;
     _reversible := _reversible self;
     _R := _R self; _D := _D self; _L := _L self;
     _eigenvalues := _eigenvalues self |}.

(** ** [HMM.count_matrix] *)

(** The count matrix holds [float64] values that are only ever incremented
    by one from zero: they are integers, modelled in [Z]. *)
Definition zmatrix : Type := list (list Z).

Definition np_zeros (r c : nat) : zmatrix := repeat (repeat 0 c) r.

Fixpoint list_update {A : Type} (l : list A) (i : nat) (f : A -> A) : list A :=
  match l, i with
  | [], _ => []
  | x :: t, O => f x :: t
  | x :: t, S i' => x :: list_update t i' f
  end.

(** [C[i,j] += 1] for indices already normalised. *)
Definition incr (C : zmatrix) (i j : nat) : zmatrix :=
  list_update C i (fun row => list_update row j (fun x => x + 1)).

(** One iteration of the inner loop: [C[S[t],S[t+1]] += 1]. *)
Definition count_step (n : nat) (S : list Z) (C : zmatrix) (t : nat) : result zmatrix :=
  i <- norm_index n (nth t S 0) ;;
  j <- norm_index n (nth (t + 1) S 0) ;;
  ret (incr C i j).

(** [for t in range(len(S)-1): ...] *)
Definition count_trajectory (n : nat) (C : zmatrix) (S : list Z) : result zmatrix :=
  fold_left (fun acc t => C' <- acc ;; count_step n S C' t)
            (seq 0 (length S - 1)) (ret C).

Definition count_matrix (self : HMM) : result zmatrix :=
  match hidden_state_trajectories self with
  | None => raise (RuntimeError "HMM model does not have a hidden state trajectory.")
  | Some trajs =>
      fold_left (fun acc S => C <- acc ;; count_trajectory (_nstates self) C S)
                trajs
                (ret (np_zeros (_nstates self) (_nstates self)))
  end.

(** ** Rational vectors and matrices *)

Local Open Scope Q_scope.

Definition qsum (v : vector) : Q := fold_right Qplus 0 v.

(** [np.all(v >= 0)] *)
Definition all_nonneg (v : vector) : bool := forallb (fun x => Qle_bool 0 x) v.

(** [v / s] *)
Definition vdiv (v : vector) (s : Q) : vector := map (fun x => x / s) v.

(** [np.allclose(a, b)] with numpy's default tolerances: every pair satisfies
    [|a - b| <= atol + rtol * |b|], [rtol = 1e-5], [atol = 1e-8].  Operands of
    different lengths are broadcast when one of them has a single element and
    rejected otherwise. *)
Definition rtol : Q := 1 # 100000.
Definition atol : Q := 1 # 100000000.

Definition isclose (a b : Q) : bool :=
  Qle_bool (Qabs (a - b)) (atol + rtol * Qabs b).

Fixpoint all_close (a b : vector) : bool :=
  match a, b with
  | x :: a', y :: b' => isclose x y && all_close a' b'
  | _, _ => true
  end.

Definition np_allclose (a b : vector) : result bool :=
  if (length a =? length b)%nat then ret (all_close a b)
  else match a, b with
       | [x], _ => ret (forallb (fun y => isclose x y) b)
       | _, [y] => ret (forallb (fun x => isclose x y) a)
       | _, _ => raise (ValueError "operands could not be broadcast together")
       end.

(** [z.real], kept in the complex representation with a zero imaginary part. *)
Definition creal (z : complex) : complex := (fst z, 0).

(** [M.real] *)
Definition real (M : cmatrix) : cmatrix := map (map creal) M.

(** [np.diag(D)] of a 2-d array: the entries [D[k,k]]. *)
Fixpoint np_diag_from (k : nat) (D : cmatrix) : list complex :=
  match D with
  | [] => []
  | row :: rest =>
      match nth_error row k with
      | Some z => z :: np_diag_from (S k) rest
      | None => []
      end
  end.

Definition np_diag (D : cmatrix) : list complex := np_diag_from 0 D.

(** ** The Markov-model analysis functions of pyemma used by the class *)

Module msmana.
Record t : Type := mk {
  is_transition_matrix : ndarray -> result bool;
  is_reversible : pyobj -> result bool;
  stationary_distribution : ndarray -> result vector;
  (** returns [(R, D, L)] *)
  rdl_decomposition : ndarray -> string -> result (cmatrix * cmatrix * cmatrix)
}.
End msmana.

(** ** [HMM.__init__] *)

Section Constructor.
Variable ana : msmana.t.

(** Lines 76-78: validation and normalisation of a supplied [Pi]. *)
Definition normalize_Pi (Pi : option vector) : result (option vector) :=
  match Pi with
  | None => ret None
  | Some p =>
      py_assert (all_nonneg p)
                "Given initial distribution contains negative elements." ;;;
      ret (Some (vdiv p (qsum p)))
  end.

(** Lines 80-93: the initial / stationary distribution. *)
Definition select_Pi (Tij_ : ndarray) (Pi : option vector) (stationary : bool)
  : result vector :=
  if stationary then
    pT <- msmana.stationary_distribution ana Tij_ ;;
    match Pi with
    | None => ret pT
    | Some p =>
        c <- np_allclose p pT ;;
        py_assert c "Stationary HMM requested, but given distribution is not the stationary distribution of the given transition matrix." ;;;
        ret p
    end
  else
    match Pi with
    | None => msmana.stationary_distribution ana Tij_
    | Some p => ret p
    end.

(** Lines 95-98: the reversibility requirement, checked on the argument
    [Tij] itself. *)
Definition check_reversible (Tij : pyobj) (reversible : bool) : result unit :=
  if reversible then
    r <- msmana.is_reversible ana Tij ;;
    py_assert r "Reversible HMM requested, but given transition matrix is not reversible."
  else ret tt.

(** Lines 100-108: the eigendecomposition. *)
Definition decompose (Tij_ : ndarray) (reversible : bool)
  : result (cmatrix * cmatrix * cmatrix) :=
  if reversible then
    RDL <- msmana.rdl_decomposition ana Tij_ "reversible" ;;
    let '(R, D, L) := RDL in
    ret (real R, real D, real L)
  else
    msmana.rdl_decomposition ana Tij_ "standard".

(** [HMM(Tij, output_model, lag=1, Pi=None, stationary=True, reversible=True)] *)
Definition HMM__init__ (Tij output_model lag : pyobj) (Pi : option vector)
           (stationary reversible : bool) : result HMM :=
  let Tij_ := np_array Tij in
  ok <- msmana.is_transition_matrix ana Tij_ ;;
  py_assert ok "Given transition matrix is not a stochastic matrix" ;;;
  nstates <- shape0 Tij_ ;;
  Pi' <- normalize_Pi Pi ;;
  Pi_ <- select_Pi Tij_ Pi' stationary ;;
  check_reversible Tij reversible ;;;
  RDL <- decompose Tij_ reversible ;;
  let '(R, D, L) := RDL in
  ret {| _Tij := Tij_; _nstates := nstates; _lag := lag;
         output_model := output_model;
         hidden_state_trajectories := None;
         _Pi := Pi_; _stationary := stationary; _reversible := reversible;
         _R := R; _D := D; _L := L;
         _eigenvalues := np_diag D |}.
End Constructor.

(** ** Properties of the class *)

Definition is_reversible (self : HMM) : bool := _reversible self.
Definition is_stationary (self : HMM) : bool := _stationary self.
Definition nstates (self : HMM) : nat := _nstates self.
Definition initial_distribution (self : HMM) : vector := _Pi self.
Definition transition_matrix (self : HMM) : ndarray := _Tij self.
Definition eigenvalues (self : HMM) : list complex := _eigenvalues self.
Definition eigenvectors_left (self : HMM) : cmatrix := _L self.
Definition eigenvectors_right (self : HMM) : cmatrix := _R self.

Definition stationary_distribution (self : HMM) : result vector :=
  if _stationary self then ret (_Pi self)
  else raise (ValueError "HMM is not stationary").

(** ** [HMM.timescales] *)

Section Timescales.
(** pyemma's [timescales_from_eigenvalues(ev, tau)]. *)
Variable timescales_from_eigenvalues : list complex -> pyobj -> result (list R).

Definition timescales (self : HMM) : result (list R) :=
  ts <- timescales_from_eigenvalues (_eigenvalues self) (_lag self) ;;
  ret (skipn 1 ts).
End Timescales.

(** The number a lag-time object stands for, when it is a number. *)
Definition number_of (o : pyobj) : option Q :=
  match o with
  | PyInt n => Some (inject_Z n)
  | PyFloat x => Some x
  | _ => None
  end.

(** [|z|] *)
Definition cabs (z : complex) : R :=
  sqrt (Q2R (fst z) * Q2R (fst z) + Q2R (snd z) * Q2R (snd z)).

(** The relaxation time of one eigenvalue, [-tau / ln |lambda|]. *)
Definition relaxation_time (tau : Q) (lambda : complex) : R :=
  (- Q2R tau / ln (cabs lambda))%R.

(** Modelled from the spec: pyemma's [timescales_from_eigenvalues], which is
    not part of the package.  Following the docstring of [HMM.timescales] and
    section 4.2 of the specification, it maps every eigenvalue to
    [-tau / ln |lambda|]; a lag time that is not a number is rejected. *)
Definition timescales_from_eigenvalues_model (ev : list complex) (tau : pyobj)
  : result (list R) :=
  match number_of tau with
  | Some q => ret (map (relaxation_time q) ev)
  | None => raise (TypeError "unsupported operand type(s)")
  end.

(** ** [HMM.generate_synthetic_state_trajectory] *)

Local Open Scope Z_scope.

Section Synthesis.
(** The state of the random generator and
    [np.random.choice(range(n), size=1, p=p)]: the sampler may reject its
    arguments, otherwise it returns the drawn element and the next
    generator state. *)
Variable G : Type.
Variable choice : G -> nat -> vector -> result (Z * G).

(** [np.zeros([length], dtype=dtype)] *)
Definition np_zeros1 (length : Z) : result (list Z) :=
  if length <? 0 then raise (ValueError "negative dimensions are not allowed")
  else ret (repeat 0 (Z.to_nat length)).

(** [states[t] = v] for a non-negative position [t]. *)
Definition store (states : list Z) (t : nat) (v : Z) : result (list Z) :=
  if (t <? List.length states)%nat then ret (list_update states t (fun _ => v))
  else raise (IndexError "index is out of bounds for axis 0").

(** [self._Tij[s, :]] *)
Definition Tij_row (self : HMM) (s : Z) : result vector :=
  match _Tij self with
  | Arr2 m => i <- norm_index (List.length m) s ;; ret (nth i m [])
  | _ => raise (IndexError "too many indices for array")
  end.

(** One iteration of the loop over [range(1, length)]. *)
Definition synth_step (self : HMM) (st : list Z * G) (t : nat) : result (list Z * G) :=
  let '(states, g) := st in
  p <- Tij_row self (nth (t - 1) states 0) ;;
  sg <- choice g (_nstates self) p ;;
  states' <- store states t (fst sg) ;;
  ret (states', snd sg).

Definition generate_synthetic_state_trajectory
           (self : HMM) (length : Z) (initial_Pi : option vector) (g : G)
  : result (list Z * G) :=
  states <- np_zeros1 length ;;
  (* the right-hand side is evaluated before the store into [states[0]] *)
  sg <- choice g (_nstates self)
          (match initial_Pi with Some p => p | None => _Pi self end) ;;
  states <- store states 0 (fst sg) ;;
  fold_left (fun acc t => st <- acc ;; synth_step self st t)
            (seq 1 (Z.to_nat length - 1)) (ret (states, snd sg)).
End Synthesis.

(** ** Dense matrix operations of numpy used by the initial model *)

Local Open Scope Q_scope.

Definition ncols (M : matrix) : nat := List.length (hd [] M).

(** [M.T] *)
Definition transpose (M : matrix) : matrix :=
  map (fun j => map (fun row => nth j row 0) M) (seq 0 (ncols M)).

Definition dotp (u v : vector) : Q :=
  qsum (map (fun xy => fst xy * snd xy) (combine u v)).

(** [np.dot(A, B)] for 2-d arrays. *)
Definition np_dot (A B : matrix) : result matrix :=
  if (ncols A =? List.length B)%nat
  then ret (map (fun row => map (dotp row) (transpose B)) A)
  else raise (ValueError "shapes not aligned").

(** [np.diag(v)] of a 1-d array: the diagonal matrix. *)
Definition np_diag_matrix (v : vector) : matrix :=
  map (fun i => map (fun j => if (i =? j)%nat then nth i v 0 else 0)
                    (seq 0 (List.length v)))
      (seq 0 (List.length v)).

(** [np.maximum(x, y)] on scalars. *)
Definition qmaximum (x y : Q) : Q := if Qle_bool y x then x else y.

(** [np.maximum(X, eps)] *)
Definition np_maximum (X : matrix) (eps : Q) : matrix :=
  map (map (fun x => qmaximum x eps)) X.

(** [X / X.sum(axis=1)[:, None]] *)
Definition row_normalize (X : matrix) : matrix :=
  map (fun row => vdiv row (qsum row)) X.

(** [eps * np.ones((r, c))] *)
Definition np_full (r c : Z) (eps : Q) : result matrix :=
  if ((r <? 0) || (c <? 0))%Z
  then raise (ValueError "negative dimensions are not allowed")
  else ret (repeat (repeat eps (Z.to_nat c)) (Z.to_nat r)).

(** The entry of [V] that numpy's broadcasting places at position [(i, k)]:
    an axis of length one is repeated. *)
Definition broadcast_get (V : matrix) (i k : nat) : Q :=
  nth (if (ncols V =? 1)%nat then 0%nat else k)
      (nth (if (List.length V =? 1)%nat then 0%nat else i) V [])
      0.

(** Whether a value of shape [(length V, ncols V)] broadcasts to [(r, k)]. *)
Definition broadcasts_to (V : matrix) (r k : nat) : bool :=
  ((List.length V =? r) || (List.length V =? 1))%nat
  && ((ncols V =? k) || (ncols V =? 1))%nat.

Fixpoint map_result {A B : Type} (f : A -> result B) (l : list A) : result (list B) :=
  match l with
  | [] => ret []
  | a :: l' => b <- f a ;; bs <- map_result f l' ;; ret (b :: bs)
  end.

Fixpoint mapi_from {A B : Type} (i : nat) (f : nat -> A -> B) (l : list A) : list B :=
  match l with
  | [] => []
  | a :: l' => f i a :: mapi_from (S i) f l'
  end.

(** The writes of one row of [B[:, idx] = V]: column [idx[k]] receives
    [V[i, k]], in the order of [idx], so that a later duplicate wins. *)
Definition write_column (V : matrix) (i : nat) (acc : vector) (kj : nat * nat) : vector :=
  list_update acc (snd kj) (fun _ => broadcast_get V i (fst kj)).

Definition assign_row (V : matrix) (js : list nat) (i : nat) (row : vector) : vector :=
  fold_left (write_column V i) (combine (seq 0 (List.length js)) js) row.

(** [B[:, idx] = V[:, :]] for [B] with [c] columns. *)
Definition assign_columns (c : nat) (B : matrix) (idx : list Z) (V : matrix)
  : result matrix :=
  if broadcasts_to V (List.length B) (List.length idx) then
    js <- map_result (norm_index c) idx ;;
    ret (mapi_from 0 (assign_row V js) B)
  else raise (ValueError "shape mismatch: value array could not be broadcast to indexing result").

(** ** The estimation functions of pyemma used by the initial model *)

Module msm.
(** The estimated Markov model. *)
Record MSM : Type := mkMSM {
  nstates : Z;
  active_set : list Z;
  transition_matrix : matrix
}.

(** What [MSM.pcca(nstates)] makes available: the attributes of the
    returned object and [MSM.metastable_distributions]. *)
Record PCCA : Type := mkPCCA {
  memberships : matrix;
  coarse_grained_stationary_probability : vector;
  metastable_distributions : matrix
}.

Record t : Type := mk {
  (** [estimate_markov_model(observations, lag, reversible=..., connectivity=...)] *)
  estimate_markov_model : list (list Z) -> pyobj -> bool -> string -> result MSM;
  pcca : MSM -> Z -> result PCCA
}.
End msm.

(** ** [initial_model_discrete] *)

Section InitialModel.
Variable ana : msmana.t.
Variable est : msm.t.
(** [np.linalg.inv] *)
Variable inv : matrix -> result matrix.

(** Line 56: [eps = 0.01 * (1.0/MSM.nstates)]. *)
Definition default_eps (n : Z) : result Q :=
  if (n =? 0)%Z then raise (ZeroDivisionError "float division by zero")
  else ret ((1 # 100) * (1 / inject_Z n)).

(** Lines 57-59: the output matrix before renormalisation. *)
Definition expand_B (nstates n : Z) (eps : Q) (active_set : list Z) (B_conn : matrix)
  : result matrix :=
  B <- np_full nstates n eps ;;
  assign_columns (Z.to_nat n) B active_set B_conn.

(** Lines 64-70: the coarse-grained matrix before flooring. *)
Definition coarse_X (M T : matrix) (pi_coarse : vector) : result matrix :=
  MtM <- np_dot (transpose M) M ;;
  W <- inv MtM ;;
  MtT <- np_dot (transpose M) T ;;
  A <- np_dot MtT M ;;
  P_coarse <- np_dot W A ;;
  np_dot (np_diag_matrix pi_coarse) P_coarse.

(** Lines 76-82: the verbose report reads [B[0,i]] and [B[1,i]] for every
    column [i]; nothing else of it is observable. *)
Definition report (verbose : bool) (B : matrix) : result unit :=
  if verbose && negb (ncols B =? 0)%nat && (List.length B <? 2)%nat
  then raise (IndexError "index 1 is out of bounds for axis 0")
  else ret tt.

(** Lines 37-82: everything up to the construction of the model; returns
    [(A, B)].  The argument [reversible] only triggers a warning. *)
Definition initial_matrices (observations : list (list Z)) (nstates : Z)
           (lag : pyobj) (reversible verbose : bool) : result (matrix * matrix) :=
  MSM <- msm.estimate_markov_model est observations lag true "largest" ;;
  pcca <- msm.pcca est MSM nstates ;;
  let B_conn := msm.metastable_distributions pcca in
  eps <- default_eps (msm.nstates MSM) ;;
  B <- expand_B nstates (msm.nstates MSM) eps (msm.active_set MSM) B_conn ;;
  let B := row_normalize B in
  X <- coarse_X (msm.memberships pcca) (msm.transition_matrix MSM)
                (msm.coarse_grained_stationary_probability pcca) ;;
  let X := np_maximum X eps in
  let A := row_normalize X in
  report verbose B ;;;
  ret (A, B).

(** Lines 84-88.  The call is [HMM(nstates, A, output_model)]: the three
    positional arguments bind to [Tij], [output_model] and [lag].  The class
    [DiscreteOutputModel] is not among the sources; the object built from
    [B] is kept opaque. *)
Definition initial_model_discrete (observations : list (list Z)) (nstates : Z)
           (lag : pyobj) (reversible verbose : bool) : result HMM :=
  AB <- initial_matrices observations nstates lag reversible verbose ;;
  let '(A, B) := AB in
  let output_model := PyDiscreteOutputModel B in
  HMM__init__ ana (PyInt nstates) (PyArray (Arr2 A)) output_model None true true.
End InitialModel.

(** ** Concrete models used in the examples

    An analysis module that answers for one known transition matrix: the
    stochasticity and detailed-balance tests are computed exactly, the
    stationary distribution and the eigendecomposition are the given ones. *)

Definition row_stochastic (m : matrix) : bool :=
  forallb (fun row => (List.length row =? List.length m)%nat
                      && all_nonneg row && Qeq_bool (qsum row) 1) m.

Definition entry (m : matrix) (i j : nat) : Q := nth j (nth i m []) 0.

Definition detailed_balance (p : vector) (m : matrix) : bool :=
  forallb (fun i =>
    forallb (fun j => Qeq_bool (nth i p 0 * entry m i j) (nth j p 0 * entry m j i))
            (seq 0 (List.length m)))
    (seq 0 (List.length m)).

Definition table_analysis (p : vector) (rdl : cmatrix * cmatrix * cmatrix) : msmana.t :=
  {| msmana.is_transition_matrix := fun a =>
       match a with
       | Arr2 m => ret (row_stochastic m)
       | _ => raise (ValueError "given array has wrong number of dimensions")
       end;
     msmana.is_reversible := fun o =>
       match np_array o with
       | Arr2 m => ret (detailed_balance p m)
       | _ => raise (ValueError "given array has wrong number of dimensions")
       end;
     msmana.stationary_distribution := fun _ => ret p;
     msmana.rdl_decomposition := fun _ _ => ret rdl |}.

(** Complex arithmetic, to check the decompositions below. *)
Definition cadd (x y : complex) : complex := (fst x + fst y, snd x + snd y).
Definition cmul (x y : complex) : complex :=
  (fst x * fst y - snd x * snd y, fst x * snd y + snd x * fst y).
Definition ceqb (x y : complex) : bool :=
  Qeq_bool (fst x) (fst y) && Qeq_bool (snd x) (snd y).
Definition of_real (x : Q) : complex := (x, 0).

Definition cmat_mul (A B : cmatrix) : cmatrix :=
  map (fun row =>
         map (fun j =>
                fold_right cadd (0, 0)
                  (map (fun kb => cmul (fst kb) (nth j (snd kb) (0, 0))) (combine row B)))
             (seq 0 (List.length (hd [] B))))
      A.

Fixpoint cmat_eqb (A B : cmatrix) : bool :=
  match A, B with
  | [], [] => true
  | r :: A', s :: B' =>
      (List.length r =? List.length s)%nat
      && forallb (fun xy => ceqb (fst xy) (snd xy)) (combine r s)
      && cmat_eqb A' B'
  | _, _ => false
  end.

(** [vT = v P] *)
Definition vec_mat (v : vector) (P : matrix) : vector :=
  map (dotp v) (transpose P).

(** The two-state matrix of the class docstring. *)
Definition T2 : matrix := [[4 # 5; 1 # 5]; [1 # 2; 1 # 2]].
Definition pi2 : vector := [5 # 7; 2 # 7].
Definition R2 : cmatrix := [[(1, 0); (2, 0)]; [(1, 0); (- (5), 0)]].
Definition D2 : cmatrix := [[(1, 0); (0, 0)]; [(0, 0); (3 # 10, 0)]].
Definition L2 : cmatrix := [[(5 # 7, 0); (2 # 7, 0)]; [(1 # 7, 0); (- (1 # 7), 0)]].
Definition analysis2 : msmana.t := table_analysis pi2 (R2, D2, L2).

(** A three-state matrix that is stochastic but not reversible; its
    eigenvalues are [1], [(-1+i)/2] and [(-1-i)/2]. *)
Definition T3 : matrix := [[0; 1; 0]; [0; 0; 1]; [1 # 2; 1 # 2; 0]].
Definition pi3 : vector := [1 # 5; 2 # 5; 2 # 5].
Definition R3 : cmatrix :=
  [[(1, 0); (1, 0); (1, 0)];
   [(1, 0); (- (1 # 2), 1 # 2); (- (1 # 2), - (1 # 2))];
   [(1, 0); (0, - (1 # 2)); (0, 1 # 2)]].
Definition D3 : cmatrix :=
  [[(1, 0); (0, 0); (0, 0)];
   [(0, 0); (- (1 # 2), 1 # 2); (0, 0)];
   [(0, 0); (0, 0); (- (1 # 2), - (1 # 2))]].
Definition L3 : cmatrix :=
  [[(1 # 5, 0); (2 # 5, 0); (2 # 5, 0)];
   [(2 # 5, - (1 # 5)); (- (1 # 5), - (2 # 5)); (- (1 # 5), 3 # 5)];
   [(2 # 5, 1 # 5); (- (1 # 5), 2 # 5); (- (1 # 5), - (3 # 5))]].
Definition analysis3 : msmana.t := table_analysis pi3 (R3, D3, L3).

Definition identity_c (n : nat) : cmatrix :=
  map (fun i => map (fun j => if (i =? j)%nat then (1, 0) else (0, 0)) (seq 0 n)) (seq 0 n).

Definition gaussian_model : pyobj := PyObject "GaussianOutputModel".

(** The model built from [T2] with the defaults. *)
Definition hmm2 : HMM :=
  {| _Tij := Arr2 T2; _nstates := 2; _lag := PyInt 1;
     output_model := gaussian_model;
     hidden_state_trajectories := None;
     _Pi := pi2; _stationary := true; _reversible := true;
     _R := real R2; _D := real D2; _L := real L2;
     _eigenvalues := [(1, 0); (3 # 10, 0)] |}.

(** A sampler that validates its arguments the way [np.random.choice] does
    before drawing (the probabilities must be as many as the population
    and sum to one) and then returns the first element with positive
    probability; the generator state is a counter of draws. *)
Definition first_positive (p : vector) : Z :=
  (fix go (k : Z) (l : vector) : Z :=
     match l with
     | [] => 0%Z
     | x :: l' => if Qle_bool x 0 then go (k + 1)%Z l' else k
     end) 0%Z p.

Definition strict_choice (g : nat) (n : nat) (p : vector) : result (Z * nat) :=
  if negb (List.length p =? n)%nat
  then raise (ValueError "a and p must have same size")
  else if negb (Qeq_bool (qsum p) 1)
  then raise (ValueError "probabilities do not sum to 1")
  else ret (first_positive p, S g).

(** The errors that the trajectory generator raises on account of the
    requested length: the allocation of a negative number of entries and the
    store into an array that is too short. *)
Definition invalid_length_error (e : exn) : Prop :=
  e = ValueError "negative dimensions are not allowed"
  \/ e = IndexError "index is out of bounds for axis 0".

(** An estimation module that answers with a fixed two-symbol model whose
    two metastable sets are the two symbols themselves. *)
Definition msm2 : msm.MSM :=
  {| msm.nstates := 2; msm.active_set := [0%Z; 1%Z];
     msm.transition_matrix := [[9 # 10; 1 # 10]; [1 # 10; 9 # 10]] |}.

Definition pcca2 : msm.PCCA :=
  {| msm.memberships := [[1; 0]; [0; 1]];
     msm.coarse_grained_stationary_probability := [1 # 2; 1 # 2];
     msm.metastable_distributions := [[1; 0]; [0; 1]] |}.

Definition estimation2 : msm.t :=
  {| msm.estimate_markov_model := fun _ _ _ _ => ret msm2;
     msm.pcca := fun _ _ => ret pcca2 |}.

(** The inverse of a 2x2 matrix, by the adjugate. *)
Definition inv2 (M : matrix) : result matrix :=
  match M with
  | [[a; b]; [c; d]] =>
      if Qeq_bool (a * d - b * c) 0 then raise (LinAlgError "Singular matrix")
      else ret [[d / (a * d - b * c); - b / (a * d - b * c)];
                [- c / (a * d - b * c); a / (a * d - b * c)]]
  | _ => raise (LinAlgError "Last 2 dimensions of the array must be square")
  end.

Definition observations2 : list (list Z) :=
  [[0; 0; 0; 1; 1; 1; 0; 0; 1; 1]]%Z.

(** ** Notions used in the statements *)

(** Entry [(i, j)] of a count matrix. *)
Definition zentry (C : zmatrix) (i j : nat) : Z := nth j (nth i C []) 0%Z.

(** A state that [count_matrix] can use as an index of an [n]-state model. *)
Definition valid_state (n : nat) (s : Z) : Prop :=
  (- Z.of_nat n <= s < Z.of_nat n)%Z.

Definition valid_trajectories (n : nat) (trajs : list (list Z)) : Prop :=
  Forall (Forall (valid_state n)) trajs.

(** The hidden state that an index denotes. *)
Definition state_of (n : nat) (s : Z) : nat := Z.to_nat (s mod Z.of_nat n).

(** The number of positions [t] of [S] with [S[t] = i] and [S[t+1] = j]. *)
Fixpoint transitions (n : nat) (i j : nat) (S : list Z) : Z :=
  match S with
  | a :: (b :: _) as rest =>
      ((if (state_of n a =? i)%nat && (state_of n b =? j)%nat then 1 else 0)
       + transitions n i j rest)%Z
  | _ => 0%Z
  end.

Definition total_transitions (n : nat) (i j : nat) (trajs : list (list Z)) : Z :=
  fold_right (fun S acc => (transitions n i j S + acc)%Z) 0%Z trajs.

(** An entry with a non-zero imaginary part. *)
Definition has_imaginary (z : complex) : bool := negb (Qeq_bool (snd z) 0).

(** Equality of rational matrices up to the representation of fractions. *)
Fixpoint vector_eqb (u v : vector) : bool :=
  match u, v with
  | [], [] => true
  | x :: u', y :: v' => Qeq_bool x y && vector_eqb u' v'
  | _, _ => false
  end.

Fixpoint matrix_eqb (A B : matrix) : bool :=
  match A, B with
  | [], [] => true
  | r :: A', s :: B' => vector_eqb r s && matrix_eqb A' B'
  | _, _ => false
  end.

(** A free, non-reversible two-state model built from an explicit initial
    vector of three entries: the constructor does not compare the length of
    [Pi] with the matrix. *)
Definition hmm_free : HMM :=
  {| _Tij := Arr2 T2; _nstates := 2; _lag := PyInt 1;
     output_model := gaussian_model;
     hidden_state_trajectories := None;
     _Pi := [1; 0; 0]; _stationary := false; _reversible := false;
     _R := R2; _D := D2; _L := L2;
     _eigenvalues := [(1, 0); (3 # 10, 0)] |}.

(** The three-state model, built as a non-reversible one. *)
Definition hmm3 : HMM :=
  {| _Tij := Arr2 T3; _nstates := 3; _lag := PyInt 1;
     output_model := gaussian_model;
     hidden_state_trajectories := None;
     _Pi := pi3; _stationary := true; _reversible := false;
     _R := R3; _D := D3; _L := L3;
     _eigenvalues := [(1, 0); (- (1 # 2), 1 # 2); (- (1 # 2), - (1 # 2))] |}.

(** The loop of [count_matrix] over one trajectory, by recursion on the
    trajectory instead of its positions (shown equal to [count_trajectory]
    in [count_trajectory_unfold]). *)
Fixpoint count_trajectory_rec (n : nat) (C : zmatrix) (S : list Z) : result zmatrix :=
  match S with
  | a :: (b :: _) as rest =>
      i <- norm_index n a ;;
      j <- norm_index n b ;;
      count_trajectory_rec n (incr C i j) rest
  | _ => ret C
  end.

(** An [n] by [n] array. *)
Definition square (n : nat) {A : Type} (C : list (list A)) : Prop :=
  List.length C = n /\ Forall (fun row => List.length row = n) C.

(** The two trajectories of the count-matrix example. *)
Definition example_trajectories : list (list Z) := [[0; 1; 0]; [1; 1; 0]]%Z.

(** ** [HMM.collect_observations_in_state] *)

Section Collect.
(** The type of one observation. *)
Variable Obs : Type.

(** [np.where(s_t == state_index)[0]] for an integer array [s_t]: the
    positions that hold [state_index], in increasing order. *)
Definition np_where_eq (s_t : list Z) (state_index : Z) : list nat :=
  filter (fun i => (nth i s_t 0 =? state_index)%Z) (seq 0 (List.length s_t)).

(** [o_t[indices]] for non-negative indices. *)
Definition take (o_t : list Obs) (indices : list nat) : result (list Obs) :=
  map_result (fun i => match nth_error o_t i with
                       | Some x => ret x
                       | None => raise (IndexError "index is out of bounds for axis 0")
                       end) indices.

(** One iteration of the loop over [zip(hidden_state_trajectories, observations)]. *)
Definition collect_step (state_index : Z) (acc : result (list Obs))
           (so : list Z * list Obs) : result (list Obs) :=
  collected <- acc ;;
  selected <- take (snd so) (np_where_eq (fst so) state_index) ;;
  ret (collected ++ selected).

Definition collect_observations_in_state
           (self : HMM) (observations : list (list Obs)) (state_index : Z)
  : result (list Obs) :=
  match hidden_state_trajectories self with
  | None | Some [] =>
      raise (RuntimeError "HMM model does not have a hidden state trajectory.")
  | Some trajs =>
      match observations with
      | [] => raise (IndexError "list index out of range")
      | _ :: _ =>
          fold_left (collect_step state_index) (combine trajs observations) (ret [])
      end
  end.
End Collect.

Arguments np_where_eq s_t state_index : assert.
Arguments take {Obs} o_t indices.
Arguments collect_step {Obs} state_index acc so.
Arguments collect_observations_in_state {Obs} self observations state_index.

(** ** [HMM.generate_synthetic_observation_trajectory] and
       [HMM.generate_synthetic_observation_trajectories] *)

Section ObservationSynthesis.
Variable G : Type.
Variable choice : G -> nat -> vector -> result (Z * G).
(** The type of an observation trajectory and
    [output_model.generate_observation_trajectory(s_t, dtype=dtype)]. *)
Variable ObsTraj : Type.
Variable generate_observation_trajectory :
  pyobj -> list Z -> option string -> G -> result (ObsTraj * G).

Definition generate_synthetic_observation_trajectory
           (self : HMM) (length : Z) (initial_Pi : option vector)
           (dtype : option string) (g : G) : result ((ObsTraj * list Z) * G) :=
  sg <- generate_synthetic_state_trajectory G choice self length initial_Pi g ;;
  og <- generate_observation_trajectory (output_model self) (fst sg) dtype (snd sg) ;;
  ret ((fst og, fst sg), snd og).

(** One iteration of the loop over [range(ntrajectories)]. *)
Definition trajectories_step (self : HMM) (length : Z) (initial_Pi : option vector)
           (dtype : option string)
           (acc : result ((list ObsTraj * list (list Z)) * G)) (trajectory_index : nat)
  : result ((list ObsTraj * list (list Z)) * G) :=
  st <- acc ;;
  r <- generate_synthetic_observation_trajectory self length initial_Pi dtype (snd st) ;;
  ret ((fst (fst st) ++ [fst (fst r)], snd (fst st) ++ [snd (fst r)]), snd r).

Definition generate_synthetic_observation_trajectories
           (self : HMM) (ntrajectories length : Z) (initial_Pi : option vector)
           (dtype : option string) (g : G)
  : result ((list ObsTraj * list (list Z)) * G) :=
  fold_left (trajectories_step self length initial_Pi dtype)
            (seq 0 (Z.to_nat ntrajectories)) (ret (([], []), g)).
End ObservationSynthesis.

(** ** [empirical_confidence_interval] of [bhmm/util/analysis.py] *)

(** [np.sort] *)
Fixpoint insert_sorted (x : Q) (l : list Q) : list Q :=
  match l with
  | [] => [x]
  | y :: l' => if Qle_bool x y then x :: l else y :: insert_sorted x l'
  end.

Definition np_sort (l : list Q) : list Q := fold_right insert_sorted [] l.

(** [int(np.round(q))]: rounding to the nearest integer, halves to the even
    neighbour. *)
Definition np_round (q : Q) : Z :=
  let f := Qfloor q in
  match Qcompare (q - inject_Z f) (1 # 2) with
  | Lt => f
  | Gt => (f + 1)%Z
  | Eq => if Z.even f then f else (f + 1)%Z
  end.

(** [a[i]] for a 1-d array and one integer index. *)
Definition getitem (a : list Q) (i : Z) : result Q :=
  j <- norm_index (List.length a) i ;;
  ret (nth j a 0).

Definition empirical_confidence_interval (sample : list Q) (interval : Q)
  : result (Q * Q) :=
  let sample := np_sort sample in
  let N := Z.of_nat (List.length sample) in
  let low_index := (np_round (inject_Z (N - 1) * ((1 # 2) - interval / 2)) + 1)%Z in
  let high_index := (np_round (inject_Z (N - 1) * ((1 # 2) + interval / 2)) + 1)%Z in
  low <- getitem sample low_index ;;
  high <- getitem sample high_index ;;
  ret (low, high).

(** ** Further notions used in the statements *)

Section Walk.
Variable G : Type.
Variable choice : G -> nat -> vector -> result (Z * G).

(** The Markov chain that the trajectory generator realises: [fuel] further
    states after the state [prev], each drawn from the row of its
    predecessor. *)
Fixpoint walk (self : HMM) (fuel : nat) (prev : Z) (g : G) : result (list Z * G) :=
  match fuel with
  | O => ret ([], g)
  | S fuel' =>
      p <- Tij_row self prev ;;
      sg <- choice g (_nstates self) p ;;
      rest <- walk self fuel' (fst sg) (snd sg) ;;
      ret (fst sg :: fst rest, snd rest)
  end.

(** A first state drawn from the initial distribution (or its override),
    followed by a walk. *)
Definition chain (self : HMM) (length : Z) (initial_Pi : option vector) (g : G)
  : result (list Z * G) :=
  sg <- choice g (_nstates self)
          (match initial_Pi with Some p => p | None => _Pi self end) ;;
  rest <- walk self (Z.to_nat length - 1) (fst sg) (snd sg) ;;
  ret (fst sg :: fst rest, snd rest).

(** A sampler that only returns elements of [range(n)]. *)
Definition sampler_in_range (n : nat) : Prop :=
  forall g p s g', choice g n p = inr (s, g') -> (0 <= s < Z.of_nat n)%Z.

End Walk.

(** A state in [range(n)]. *)
Definition state_in_range (n : nat) (s : Z) : Prop := (0 <= s < Z.of_nat n)%Z.

(** The sum of the entries of a count matrix. *)
Definition zsum (l : list Z) : Z := fold_right Z.add 0%Z l.
Definition ztotal (C : zmatrix) : Z := zsum (map zsum C).

(** The number of transitions in a set of trajectories. *)
Definition steps (S : list Z) : Z := Z.of_nat (List.length S - 1).
Definition total_steps (trajs : list (list Z)) : Z := zsum (map steps trajs).

(** A trajectory that [count_matrix] can process: shorter than two entries,
    or made of valid indices only. *)
Definition countable (n : nat) (S : list Z) : Prop :=
  (2 <= List.length S)%nat -> Forall (valid_state n) S.

(** The observations of one trajectory that belong to a state: the entries
    of [o_t] paired with an entry of [s_t] equal to [state_index]. *)
Definition observations_of {Obs : Type} (state_index : Z) (so : list Z * list Obs)
  : list Obs :=
  map snd (filter (fun x => (fst x =? state_index)%Z) (combine (fst so) (snd so))).

(** Every trajectory has at least as many observations as states. *)
Definition covered {Obs : Type} (trajs : list (list Z)) (observations : list (list Obs))
  : Prop :=
  Forall (fun so => (List.length (fst so) <= List.length (snd so))%nat)
         (combine trajs observations).

(** A sampler that always draws state 0, and an output model that emits the
    hidden state itself as observation. *)
Definition zero_choice (g : nat) (n : nat) (p : vector) : result (Z * nat) :=
  ret (0%Z, S g).

Definition echo_observations (om : pyobj) (s_t : list Z) (dtype : option string)
           (g : nat) : result (list Z * nat) :=
  ret (s_t, g).

(** The estimated model of a data set in which symbol 1 is disconnected:
    the active set is [{0, 2}]. *)
Definition msm_gap : msm.MSM :=
  {| msm.nstates := 2; msm.active_set := [0%Z; 2%Z];
     msm.transition_matrix := [[9 # 10; 1 # 10]; [1 # 10; 9 # 10]] |}.

Definition estimation_gap : msm.t :=
  {| msm.estimate_markov_model := fun _ _ _ _ => ret msm_gap;
     msm.pcca := fun _ _ => ret pcca2 |}.

(** An estimation that lumps the two symbols into a single hidden state. *)
Definition pcca1 : msm.PCCA :=
  {| msm.memberships := [[1]; [1]];
     msm.coarse_grained_stationary_probability := [1];
     msm.metastable_distributions := [[1 # 2; 1 # 2]] |}.

Definition estimation1 : msm.t :=
  {| msm.estimate_markov_model := fun _ _ _ _ => ret msm2;
     msm.pcca := fun _ _ => ret pcca1 |}.

(** The inverse of a 1x1 or 2x2 matrix. *)
Definition inv12 (M : matrix) : result matrix :=
  match M with
  | [[a]] => if Qeq_bool a 0 then raise (LinAlgError "Singular matrix")
             else ret [[1 / a]]
  | _ => inv2 M
  end.

(** An analysis module like [table_analysis] whose stationary-distribution
    solver always fails. *)
Definition analysis_without_solver : msmana.t :=
  {| msmana.is_transition_matrix := msmana.is_transition_matrix analysis2;
     msmana.is_reversible := msmana.is_reversible analysis2;
     msmana.stationary_distribution := fun _ =>
       raise (ValueError "stationary distribution did not converge");
     msmana.rdl_decomposition := msmana.rdl_decomposition analysis2 |}.

(** A number without imaginary part. *)
Definition is_real (z : complex) : Prop := snd z = 0.

(** * Verification *)

(** Sanity of the tables: the stationary vectors are stationary and the
    triples are eigendecompositions, [L R = 1] and [R D L = T]. *)
Example pi2_stationary :
  vector_eqb (vec_mat pi2 T2) pi2 = true /\ Qeq_bool (qsum pi2) 1 = true.
Proof. split; vm_compute; reflexivity. Qed.

Example rdl2_decomposes :
  cmat_eqb (cmat_mul L2 R2) (identity_c 2) = true
  /\ cmat_eqb (cmat_mul (cmat_mul R2 D2) L2) (map (map of_real) T2) = true.
Proof. split; vm_compute; reflexivity. Qed.

Example pi3_stationary :
  vector_eqb (vec_mat pi3 T3) pi3 = true /\ Qeq_bool (qsum pi3) 1 = true.
Proof. split; vm_compute; reflexivity. Qed.

Example rdl3_decomposes :
  cmat_eqb (cmat_mul L3 R3) (identity_c 3) = true
  /\ cmat_eqb (cmat_mul (cmat_mul R3 D3) L3) (map (map of_real) T3) = true.
Proof. split; vm_compute; reflexivity. Qed.

Example T3_not_reversible :
  row_stochastic T3 = true /\ detailed_balance pi3 T3 = false.
Proof. split; vm_compute; reflexivity. Qed.

(** ** The error monad *)

Lemma bind_ok_inv {A B : Type} (m : result A) (k : A -> result B) (b : B) :
  bind m k = inr b -> exists a, m = inr a /\ k a = inr b.
Proof.
  destruct m as [e | a]; simpl; intros H.
  - discriminate.
  - exists a. split; [reflexivity | exact H].
Qed.

Lemma bind_err_inv {A B : Type} (m : result A) (k : A -> result B) (e : exn) :
  bind m k = inl e -> m = inl e \/ exists a, m = inr a /\ k a = inl e.
Proof.
  destruct m as [e' | a]; simpl; intros H.
  - left. injection H as ->. reflexivity.
  - right. exists a. split; [reflexivity | exact H].
Qed.

Lemma py_assert_ok_inv (c : bool) (msg : string) (u : unit) :
  py_assert c msg = inr u -> c = true.
Proof. destruct c; simpl; [reflexivity | discriminate]. Qed.

Ltac inv_bind H :=
  let a := fresh "a" in
  let Ha := fresh "Ha" in
  apply bind_ok_inv in H; destruct H as [a [Ha H]].

(** ** The constructor *)

Section ConstructorFacts.
Variable ana : msmana.t.

(** What a successful construction went through, step by step. *)
Lemma HMM_init_inv Tij om lag Pi stationary reversible h :
  HMM__init__ ana Tij om lag Pi stationary reversible = inr h ->
  exists n Pi' Pi_ R D L,
    msmana.is_transition_matrix ana (np_array Tij) = inr true
    /\ shape0 (np_array Tij) = inr n
    /\ normalize_Pi Pi = inr Pi'
    /\ select_Pi ana (np_array Tij) Pi' stationary = inr Pi_
    /\ check_reversible ana Tij reversible = inr tt
    /\ decompose ana (np_array Tij) reversible = inr (R, D, L)
    /\ h = {| _Tij := np_array Tij; _nstates := n; _lag := lag;
              output_model := om; hidden_state_trajectories := None;
              _Pi := Pi_; _stationary := stationary; _reversible := reversible;
              _R := R; _D := D; _L := L; _eigenvalues := np_diag D |}.
Proof.
  unfold HMM__init__. intros H.
  inv_bind H. rename a into ok, Ha into Hok.
  inv_bind H. apply py_assert_ok_inv in Ha. subst ok.
  inv_bind H. rename a0 into n, Ha into Hn.
  inv_bind H. rename a0 into Pi', Ha into HPi'.
  inv_bind H. rename a0 into Pi_, Ha into HPi_.
  inv_bind H. destruct a0. rename Ha into Hrev.
  inv_bind H. destruct a0 as [[R D] L]. rename Ha into Hdec.
  exists n, Pi', Pi_, R, D, L.
  injection H as <-. repeat split; assumption.
Qed.

(** Conversely, when every step passes the model is built. *)
Lemma HMM_init_intro Tij om lag Pi stationary reversible n Pi' Pi_ R D L :
  msmana.is_transition_matrix ana (np_array Tij) = inr true ->
  shape0 (np_array Tij) = inr n ->
  normalize_Pi Pi = inr Pi' ->
  select_Pi ana (np_array Tij) Pi' stationary = inr Pi_ ->
  check_reversible ana Tij reversible = inr tt ->
  decompose ana (np_array Tij) reversible = inr (R, D, L) ->
  HMM__init__ ana Tij om lag Pi stationary reversible
  = inr {| _Tij := np_array Tij; _nstates := n; _lag := lag;
           output_model := om; hidden_state_trajectories := None;
           _Pi := Pi_; _stationary := stationary; _reversible := reversible;
           _R := R; _D := D; _L := L; _eigenvalues := np_diag D |}.
Proof.
  intros Hok Hn HPi' HPi_ Hrev Hdec.
  unfold HMM__init__.
  rewrite Hok. simpl. rewrite Hn. simpl. rewrite HPi'. simpl.
  rewrite HPi_. simpl. rewrite Hrev. simpl. rewrite Hdec. simpl.
  reflexivity.
Qed.

(** A scalar is never accepted as a transition matrix: whatever the
    stochasticity test answers, the number of states cannot be read off
    a 0-d array. *)
Lemma HMM_init_scalar_fails n om lag Pi stationary reversible :
  is_ok (HMM__init__ ana (PyInt n) om lag Pi stationary reversible) = false.
Proof.
  unfold HMM__init__. simpl np_array.
  destruct (msmana.is_transition_matrix ana (Arr0 (inject_Z n))) as [e | [|]];
    reflexivity.
Qed.
End ConstructorFacts.

(** The concrete models are what the constructor returns. *)
Example hmm2_constructed :
  HMM__init__ analysis2 (PyArray (Arr2 T2)) gaussian_model (PyInt 1) None true true
  = inr hmm2.
Proof. vm_compute. reflexivity. Qed.

Example hmm_free_constructed :
  HMM__init__ analysis2 (PyArray (Arr2 T2)) gaussian_model (PyInt 1)
              (Some [1; 0; 0]) false false
  = inr hmm_free.
Proof. vm_compute. reflexivity. Qed.

Example hmm3_constructed :
  HMM__init__ analysis3 (PyArray (Arr2 T3)) gaussian_model (PyInt 1) None true false
  = inr hmm3.
Proof. vm_compute. reflexivity. Qed.

(** ** The stationary distribution of a model *)

(** C7: a model built as stationary answers [stationary_distribution] with
    its initial distribution, the very field [_Pi] that
    [initial_distribution] returns; a model built as free answers with the
    error [ValueError('HMM is not stationary')] and no vector. *)
Theorem stationary_distribution_contract
        ana Tij om lag Pi (stationary reversible : bool) h :
  HMM__init__ ana Tij om lag Pi stationary reversible = inr h ->
  is_stationary h = stationary
  /\ stationary_distribution h
     = if stationary then inr (initial_distribution h)
       else inl (ValueError "HMM is not stationary").
Proof.
  intros H. apply HMM_init_inv in H.
  destruct H as (n & Pi' & Pi_ & R & D & L & _ & _ & _ & _ & _ & _ & ->).
  unfold is_stationary, stationary_distribution, initial_distribution. simpl.
  split; [reflexivity | destruct stationary; reflexivity].
Qed.

Lemma stationary_distribution_contract_witness :
  (is_stationary hmm2 = true
   /\ stationary_distribution hmm2 = inr (initial_distribution hmm2))
  /\ (is_stationary hmm_free = false
      /\ stationary_distribution hmm_free = inl (ValueError "HMM is not stationary")).
Proof.
  split.
  - exact (stationary_distribution_contract analysis2 _ _ _ _ true true hmm2
             hmm2_constructed).
  - exact (stationary_distribution_contract analysis2 _ _ _ _ false false hmm_free
             hmm_free_constructed).
Defined.

(** Assigning trajectories afterwards does not change the answer. *)
Lemma stationary_distribution_after_assignment h S :
  stationary_distribution (set_hidden_state_trajectories h S)
  = stationary_distribution h.
Proof. reflexivity. Qed.

(** ** The initial distribution chosen by the constructor *)

Lemma normalize_Pi_some_inv p q :
  normalize_Pi (Some p) = inr q ->
  all_nonneg p = true /\ q = Some (vdiv p (qsum p)).
Proof.
  unfold normalize_Pi. intros H. inv_bind H.
  apply py_assert_ok_inv in Ha. injection H as <-. split; [assumption | reflexivity].
Qed.

Lemma normalize_Pi_none_inv q : normalize_Pi None = inr q -> q = None.
Proof. unfold normalize_Pi. intros H. injection H as <-. reflexivity. Qed.

(** C9: a free model built without an initial distribution is not an
    error: every model so built has the stationary distribution of its
    transition matrix as initial distribution, and it is built whenever the
    checks that do not concern the initial distribution pass. *)
Theorem free_model_defaults_to_stationary ana (T : matrix) om lag (reversible : bool) :
  (forall h,
      HMM__init__ ana (PyArray (Arr2 T)) om lag None false reversible = inr h ->
      msmana.stationary_distribution ana (Arr2 T) = inr (initial_distribution h)
      /\ is_stationary h = false)
  /\ (forall pT RDL,
         msmana.is_transition_matrix ana (Arr2 T) = inr true ->
         msmana.stationary_distribution ana (Arr2 T) = inr pT ->
         check_reversible ana (PyArray (Arr2 T)) reversible = inr tt ->
         decompose ana (Arr2 T) reversible = inr RDL ->
         exists h,
           HMM__init__ ana (PyArray (Arr2 T)) om lag None false reversible = inr h
           /\ initial_distribution h = pT
           /\ is_stationary h = false).
Proof.
  split.
  - intros h H. apply HMM_init_inv in H.
    destruct H as (n & Pi' & Pi_ & R & D & L & _ & _ & HPi' & HPi_ & _ & _ & ->).
    apply normalize_Pi_none_inv in HPi'. subst Pi'.
    simpl in HPi_. split; [exact HPi_ | reflexivity].
  - intros pT [[R D] L] Hok HpT Hrev Hdec.
    eexists. split.
    + apply (HMM_init_intro ana (PyArray (Arr2 T)) om lag None false reversible
               (List.length T) None pT R D L); try assumption; reflexivity.
    + split; reflexivity.
Qed.

Lemma free_model_defaults_to_stationary_witness :
  exists h,
    HMM__init__ analysis3 (PyArray (Arr2 T3)) gaussian_model (PyInt 1) None false false
    = inr h
    /\ initial_distribution h = pi3
    /\ is_stationary h = false.
Proof.
  apply (proj2 (free_model_defaults_to_stationary
                  analysis3 T3 gaussian_model (PyInt 1) false)
               pi3 (R3, D3, L3)); reflexivity.
Defined.

(** C6: construction of a stationary model from a matrix accepted as
    stochastic.  Without a supplied initial distribution the model adopts the
    stationary distribution [pT] of the matrix.  With a supplied one,
    construction fails unless the renormalised vector is [np.allclose] to
    [pT]; when it is, the model carries the renormalised vector.  The model
    is built in these cases whenever the remaining steps of the constructor
    (sign check of the vector, reversibility check, eigendecomposition) pass. *)
Theorem stationary_model_initial_distribution
        ana (T : matrix) om lag (reversible : bool) (pT : vector) :
  msmana.is_transition_matrix ana (Arr2 T) = inr true ->
  msmana.stationary_distribution ana (Arr2 T) = inr pT ->
  let construct := fun Pi =>
    HMM__init__ ana (PyArray (Arr2 T)) om lag Pi true reversible in
  (forall h, construct None = inr h -> initial_distribution h = pT)
  /\ (forall p, np_allclose (vdiv p (qsum p)) pT <> inr true ->
                is_ok (construct (Some p)) = false)
  /\ (forall p, all_nonneg p = true ->
                np_allclose (vdiv p (qsum p)) pT = inr false ->
                construct (Some p)
                = inl (AssertionError "Stationary HMM requested, but given distribution is not the stationary distribution of the given transition matrix."))
  /\ (forall p h, construct (Some p) = inr h ->
                  initial_distribution h = vdiv p (qsum p))
  /\ (forall RDL,
         check_reversible ana (PyArray (Arr2 T)) reversible = inr tt ->
         decompose ana (Arr2 T) reversible = inr RDL ->
         (exists h, construct None = inr h /\ initial_distribution h = pT)
         /\ (forall p, all_nonneg p = true ->
                       np_allclose (vdiv p (qsum p)) pT = inr true ->
                       exists h, construct (Some p) = inr h
                                 /\ initial_distribution h = vdiv p (qsum p))).
Proof.
  intros Hok HpT construct. subst construct. cbv beta.
  repeat split.
  - intros h H. apply HMM_init_inv in H.
    destruct H as (n & Pi' & Pi_ & R & D & L & _ & _ & HPi' & HPi_ & _ & _ & ->).
    apply normalize_Pi_none_inv in HPi'. subst Pi'.
    simpl in HPi_. rewrite HpT in HPi_. simpl in HPi_.
    injection HPi_ as <-. reflexivity.
  - intros p Hne.
    destruct (HMM__init__ ana (PyArray (Arr2 T)) om lag (Some p) true reversible)
      as [e | h] eqn:H; [reflexivity | exfalso].
    apply HMM_init_inv in H.
    destruct H as (n & Pi' & Pi_ & R & D & L & _ & _ & HPi' & HPi_ & _ & _ & ->).
    apply normalize_Pi_some_inv in HPi'. destruct HPi' as [_ ->].
    simpl in HPi_. rewrite HpT in HPi_. simpl in HPi_.
    inv_bind HPi_. inv_bind HPi_. apply py_assert_ok_inv in Ha0. subst a.
    apply Hne. exact Ha.
  - intros p Hnn Hclose.
    unfold HMM__init__. simpl np_array. rewrite Hok. simpl.
    rewrite Hnn. simpl. rewrite HpT. simpl. rewrite Hclose. reflexivity.
  - intros p h H. apply HMM_init_inv in H.
    destruct H as (n & Pi' & Pi_ & R & D & L & _ & _ & HPi' & HPi_ & _ & _ & ->).
    apply normalize_Pi_some_inv in HPi'. destruct HPi' as [_ ->].
    simpl in HPi_. rewrite HpT in HPi_. simpl in HPi_.
    inv_bind HPi_. inv_bind HPi_. injection HPi_ as <-. reflexivity.
  - destruct RDL as [[R D] L].
    eexists. split.
    + apply (HMM_init_intro ana (PyArray (Arr2 T)) om lag None true reversible
               (List.length T) None pT R D L); try assumption; try reflexivity.
      simpl. rewrite HpT. reflexivity.
    + reflexivity.
  - destruct RDL as [[R D] L]. intros p Hnn Hclose.
    eexists. split.
    + apply (HMM_init_intro ana (PyArray (Arr2 T)) om lag (Some p) true reversible
               (List.length T) (Some (vdiv p (qsum p))) (vdiv p (qsum p)) R D L);
        try assumption; try reflexivity.
      * unfold normalize_Pi. rewrite Hnn. reflexivity.
      * simpl. rewrite HpT. simpl. rewrite Hclose. reflexivity.
    + reflexivity.
Qed.

(** The matrix [[0.8,0.2],[0.5,0.5]]: the stationary distribution is
    [(5/7, 2/7)]; the supplied vector [(0.5, 0.5)] is rejected and the
    supplied vector [(5, 2)] is accepted after renormalisation. *)
Lemma stationary_model_initial_distribution_witness :
  (exists h,
      HMM__init__ analysis2 (PyArray (Arr2 T2)) gaussian_model (PyInt 1) None true true
      = inr h /\ initial_distribution h = pi2)
  /\ is_ok (HMM__init__ analysis2 (PyArray (Arr2 T2)) gaussian_model (PyInt 1)
                        (Some [1 # 2; 1 # 2]) true true) = false
  /\ (exists h,
         HMM__init__ analysis2 (PyArray (Arr2 T2)) gaussian_model (PyInt 1)
                     (Some [5; 2]) true true = inr h
         /\ initial_distribution h = vdiv [5; 2] (qsum [5; 2])).
Proof.
  pose proof (stationary_model_initial_distribution
                analysis2 T2 gaussian_model (PyInt 1) true pi2
                eq_refl eq_refl) as H.
  cbv zeta in H. destruct H as (_ & Hfail & _ & _ & Hgo).
  destruct (Hgo (real R2, real D2, real L2) eq_refl eq_refl) as [Hnone Hsome].
  split; [exact Hnone | split].
  - apply Hfail. vm_compute. discriminate.
  - apply Hsome; reflexivity.
Defined.

(** ** The eigendecomposition stored by the constructor *)

(** C4, as the code has it: a reversible model stores the decomposition
    computed with the normalisation ['reversible'], each of [R], [D], [L]
    truncated to its real part; a non-reversible model stores the
    decomposition computed with the normalisation ['standard'] exactly as
    returned, imaginary parts included. *)
Theorem eigendecomposition_by_reversibility
        ana Tij om lag Pi (stationary reversible : bool) h :
  HMM__init__ ana Tij om lag Pi stationary reversible = inr h ->
  exists R D L,
    msmana.rdl_decomposition ana (np_array Tij)
                             (if reversible then "reversible" else "standard")
    = inr (R, D, L)
    /\ (if reversible
        then eigenvectors_right h = real R /\ _D h = real D
             /\ eigenvectors_left h = real L /\ eigenvalues h = np_diag (real D)
        else eigenvectors_right h = R /\ _D h = D
             /\ eigenvectors_left h = L /\ eigenvalues h = np_diag D).
Proof.
  intros H. apply HMM_init_inv in H.
  destruct H as (n & Pi' & Pi_ & R & D & L & _ & _ & _ & _ & _ & Hdec & ->).
  unfold decompose in Hdec. destruct reversible.
  - inv_bind Hdec. destruct a as [[R0 D0] L0].
    injection Hdec as <- <- <-.
    exists R0, D0, L0. split; [exact Ha | repeat split].
  - exists R, D, L. split; [exact Hdec | repeat split].
Qed.

Lemma eigendecomposition_by_reversibility_witness :
  (exists R D L,
      msmana.rdl_decomposition analysis2 (Arr2 T2) "reversible" = inr (R, D, L)
      /\ eigenvectors_right hmm2 = real R /\ _D hmm2 = real D
      /\ eigenvectors_left hmm2 = real L /\ eigenvalues hmm2 = np_diag (real D))
  /\ (exists R D L,
         msmana.rdl_decomposition analysis3 (Arr2 T3) "standard" = inr (R, D, L)
         /\ eigenvectors_right hmm3 = R /\ _D hmm3 = D
         /\ eigenvectors_left hmm3 = L /\ eigenvalues hmm3 = np_diag D).
Proof.
  split.
  - exact (eigendecomposition_by_reversibility analysis2 _ _ _ _ true true hmm2
             hmm2_constructed).
  - exact (eigendecomposition_by_reversibility analysis3 _ _ _ _ true false hmm3
             hmm3_constructed).
Defined.

(** C4, as stated, fails: the model built from [T3] with [reversible=false]
    keeps the eigenvalues [(-1+i)/2] and [(-1-i)/2] and the complex
    eigenvectors; none of the three arrays is the real part of what the
    decomposition returned. *)
Lemma nonreversible_model_keeps_imaginary_parts :
  exists h,
    HMM__init__ analysis3 (PyArray (Arr2 T3)) gaussian_model (PyInt 1) None true false
    = inr h
    /\ msmana.rdl_decomposition analysis3 (Arr2 T3) "standard" = inr (R3, D3, L3)
    /\ existsb has_imaginary (eigenvalues h) = true
    /\ eigenvalues h <> np_diag (real D3)
    /\ eigenvectors_right h <> real R3
    /\ _D h <> real D3
    /\ eigenvectors_left h <> real L3.
Proof.
  exists hmm3. split; [exact hmm3_constructed | split; [reflexivity | split]].
  - vm_compute. reflexivity.
  - repeat split; intros H; vm_compute in H; discriminate H.
Qed.

(** ** Relaxation timescales *)

Lemma np_diag_from_length (D : cmatrix) :
  forall k, Forall (fun row => (k + List.length D <= List.length row)%nat) D ->
            List.length (np_diag_from k D) = List.length D.
Proof.
  induction D as [| row rest IH]; intros k HD; simpl.
  - reflexivity.
  - inversion HD as [| ? ? Hrow Hrest]; subst.
    destruct (nth_error row k) as [z |] eqn:Hk.
    + simpl. f_equal. apply IH.
      eapply Forall_impl; [| exact Hrest]. simpl. intros r Hr. simpl in Hr. lia.
    + apply nth_error_None in Hk. simpl in Hrow. lia.
Qed.

Lemma np_diag_square_length (D : cmatrix) n :
  List.length D = n -> Forall (fun row => List.length row = n) D ->
  List.length (np_diag D) = n.
Proof.
  intros Hn Hrows. unfold np_diag. rewrite np_diag_from_length; [exact Hn |].
  eapply Forall_impl; [| exact Hrows]. simpl. intros r Hr. lia.
Qed.

Lemma real_length (D : cmatrix) : List.length (real D) = List.length D.
Proof. unfold real. apply length_map. Qed.

Lemma real_rows (D : cmatrix) n :
  Forall (fun row => List.length row = n) D ->
  Forall (fun row => List.length row = n) (real D).
Proof.
  unfold real. intros H. apply Forall_map.
  eapply Forall_impl; [| exact H]. simpl. intros r Hr. rewrite length_map. exact Hr.
Qed.

Lemma nth_skipn_1 {A : Type} (l : list A) (i : nat) (d : A) :
  nth i (skipn 1 l) d = nth (S i) l d.
Proof. destruct l as [| x l]; simpl; [destruct i; reflexivity | reflexivity]. Qed.

Lemma length_skipn_1 {A : Type} (l : list A) :
  List.length (skipn 1 l) = (List.length l - 1)%nat.
Proof. destruct l; simpl; lia. Qed.

(** C8: when the decomposition has the size of the transition matrix and the
    lag time is the number [tau], [timescales] returns [nstates - 1] values;
    the value at position [i - 1] is [-tau / ln |lambda_i|] for the
    eigenvalue [lambda_i] of index [i = 1, ..., nstates - 1], the leading
    eigenvalue of index 0 being left out. *)
Theorem timescales_of_subdominant_eigenvalues
        ana Tij om lag Pi (stationary reversible : bool) h (tau : Q) :
  HMM__init__ ana Tij om lag Pi stationary reversible = inr h ->
  (forall R D L,
      msmana.rdl_decomposition ana (np_array Tij)
                               (if reversible then "reversible" else "standard")
      = inr (R, D, L) ->
      List.length D = nstates h
      /\ Forall (fun row => List.length row = nstates h) D) ->
  number_of lag = Some tau ->
  exists ts,
    timescales timescales_from_eigenvalues_model h = inr ts
    /\ List.length ts = (nstates h - 1)%nat
    /\ forall i, (1 <= i < nstates h)%nat ->
                 nth (i - 1) ts 0%R
                 = relaxation_time tau (nth i (eigenvalues h) (0, 0)).
Proof.
  intros Hinit Hsize Htau.
  assert (Hlen : List.length (eigenvalues h) = nstates h).
  { pose proof Hinit as Hinv. apply HMM_init_inv in Hinv.
    destruct Hinv as (n & Pi' & Pi_ & R & D & L & _ & _ & _ & _ & _ & Hdec & Hh).
    unfold decompose in Hdec. destruct reversible.
    - inv_bind Hdec. destruct a as [[R0 D0] L0].
      injection Hdec as <- <- <-.
      destruct (Hsize R0 D0 L0 Ha) as [HD Hrows].
      subst h. unfold eigenvalues, nstates in *. simpl in *.
      apply np_diag_square_length;
        [rewrite real_length; exact HD | apply real_rows; exact Hrows].
    - destruct (Hsize R D L Hdec) as [HD Hrows].
      subst h. unfold eigenvalues, nstates in *. simpl in *.
      apply np_diag_square_length; assumption. }
  assert (Hlag : _lag h = lag).
  { apply HMM_init_inv in Hinit.
    destruct Hinit as (n & Pi' & Pi_ & R & D & L & _ & _ & _ & _ & _ & _ & ->).
    reflexivity. }
  exists (skipn 1 (map (relaxation_time tau) (eigenvalues h))).
  split; [| split].
  - unfold timescales, timescales_from_eigenvalues_model.
    rewrite Hlag, Htau. reflexivity.
  - rewrite length_skipn_1, length_map, Hlen. reflexivity.
  - intros i Hi. rewrite nth_skipn_1.
    replace (S (i - 1)) with i by lia.
    rewrite (nth_indep _ 0%R (relaxation_time tau (0, 0)))
      by (rewrite length_map, Hlen; lia).
    apply map_nth.
Qed.

(** The two-state model has the single timescale [-1 / ln 0.3]. *)
Lemma timescales_of_subdominant_eigenvalues_witness :
  exists ts,
    timescales timescales_from_eigenvalues_model hmm2 = inr ts
    /\ List.length ts = 1%nat
    /\ nth 0 ts 0%R = relaxation_time 1 (3 # 10, 0).
Proof.
  destruct (timescales_of_subdominant_eigenvalues
              analysis2 (PyArray (Arr2 T2)) gaussian_model (PyInt 1) None
              true true hmm2 1 hmm2_constructed) as (ts & Hts & Hlen & Hnth).
  - intros R D L H. simpl in H. injection H as <- <- <-.
    split; [reflexivity | repeat constructor].
  - reflexivity.
  - exists ts. split; [exact Hts | split; [exact Hlen |]].
    apply (Hnth 1%nat). simpl. lia.
Defined.

(** ** Synthetic state trajectories *)

Local Open Scope Z_scope.

(** C3, as the code has it: no length is checked.  A negative length fails
    in the allocation of the array; length zero first draws the initial
    state, so that an error of the sampler comes first, and otherwise fails
    in the store into the empty array.  In no case is a trajectory returned. *)
Theorem short_trajectory_fails
        (G : Type) (choice : G -> nat -> vector -> result (Z * G))
        (h : HMM) (length : Z) (initial_Pi : option vector) (g : G) :
  length < 1 ->
  let p := match initial_Pi with Some p => p | None => initial_distribution h end in
  let run := generate_synthetic_state_trajectory G choice h length initial_Pi g in
  is_ok run = false
  /\ (length < 0 -> run = inl (ValueError "negative dimensions are not allowed"))
  /\ (length = 0 ->
      (forall e, choice g (nstates h) p = inl e -> run = inl e)
      /\ (forall sg, choice g (nstates h) p = inr sg ->
                     run = inl (IndexError "index is out of bounds for axis 0"))).
Proof.
  intros Hlen p run. subst p run.
  unfold generate_synthetic_state_trajectory, np_zeros1, initial_distribution, nstates.
  destruct (length <? 0) eqn:Hneg.
  - simpl. split; [reflexivity | split; [reflexivity |]].
    intros ->. discriminate Hneg.
  - apply Z.ltb_ge in Hneg. assert (length = 0) as -> by lia.
    simpl.
    destruct (choice g (_nstates h)
                     match initial_Pi with Some p => p | None => _Pi h end)
      as [e | sg] eqn:Hc; simpl.
    + split; [reflexivity | split; [lia |]].
      intros _. split; [intros e' He'; injection He' as <-; reflexivity |].
      intros sg Hsg. discriminate Hsg.
    + split; [reflexivity | split; [lia |]].
      intros _. split; [intros e He; discriminate He | reflexivity].
Qed.

Lemma short_trajectory_fails_witness :
  generate_synthetic_state_trajectory nat strict_choice hmm2 (-3) None 0%nat
  = inl (ValueError "negative dimensions are not allowed")
  /\ generate_synthetic_state_trajectory nat strict_choice hmm2 0 None 0%nat
     = inl (IndexError "index is out of bounds for axis 0").
Proof.
  split.
  - assert (Hlt : -3 < 1) by lia.
    destruct (short_trajectory_fails nat strict_choice hmm2 (-3) None 0%nat Hlt)
      as (_ & Hneg & _).
    apply Hneg. lia.
  - assert (Hlt : 0 < 1) by lia.
    destruct (short_trajectory_fails nat strict_choice hmm2 0 None 0%nat Hlt)
      as (_ & _ & Hzero).
    destruct (Hzero eq_refl) as [_ Hstore].
    apply (Hstore (0, 1%nat)). reflexivity.
Defined.

(** C3, as stated, fails: on the free model [hmm_free], whose initial vector
    has three entries for two states, length zero is answered with the
    sampler's complaint about the probabilities, which is neither of the
    errors caused by the length. *)
Lemma zero_length_reports_sampler_error :
  HMM__init__ analysis2 (PyArray (Arr2 T2)) gaussian_model (PyInt 1)
              (Some [1%Q; 0%Q; 0%Q]) false false = inr hmm_free
  /\ generate_synthetic_state_trajectory nat strict_choice hmm_free 0 None 0%nat
     = inl (ValueError "a and p must have same size")
  /\ ~ invalid_length_error (ValueError "a and p must have same size").
Proof.
  split; [exact hmm_free_constructed | split; [vm_compute; reflexivity |]].
  intros [H | H]; discriminate H.
Qed.

(** For a length of at least one the generator returns that many states
    with the reference sampler. *)
Example trajectory_of_length_five :
  generate_synthetic_state_trajectory nat strict_choice hmm2 5 None 0%nat
  = inr ([0; 0; 0; 0; 0], 5%nat).
Proof. vm_compute. reflexivity. Qed.

(** ** The model returned by the discrete initialiser *)

(** C1, as the code has it: the call [HMM(nstates, A, output_model)] hands
    the integer [nstates] to the constructor as transition matrix (and [A]
    as output model, the output model as lag time), so that the initialiser
    never returns a model, whatever the external functions answer. *)
Theorem initial_model_discrete_never_returns
        ana est inv observations (nstates : Z) lag (reversible verbose : bool) :
  is_ok (initial_model_discrete ana est inv observations nstates lag
                                reversible verbose) = false.
Proof.
  unfold initial_model_discrete.
  destruct (initial_matrices est inv observations nstates lag reversible verbose)
    as [e | [A B]]; simpl.
  - reflexivity.
  - apply HMM_init_scalar_fails.
Qed.

(** On the two-symbol example the matrices are computed, and the
    construction of the model is what fails. *)
Example initial_model_discrete_example :
  (exists A B,
      initial_matrices estimation2 inv2 observations2 2 (PyInt 1) true false
      = inr (A, B)
      /\ matrix_eqb A [[9 # 10; 1 # 10]; [1 # 10; 9 # 10]]%Q = true
      /\ B = [[1; 0]; [0; 1]]%Q)
  /\ initial_model_discrete analysis2 estimation2 inv2 observations2 2 (PyInt 1)
                            true false
     = inl (ValueError "given array has wrong number of dimensions").
Proof.
  split.
  - eexists. eexists. split; [vm_compute; reflexivity | split; reflexivity].
  - vm_compute. reflexivity.
Qed.

(** ** The count matrix *)

Lemma list_update_length {A : Type} (l : list A) (i : nat) (f : A -> A) :
  List.length (list_update l i f) = List.length l.
Proof.
  revert i. induction l as [| x l IH]; intros [| i]; simpl; try reflexivity.
  f_equal. apply IH.
Qed.

Lemma nth_list_update {A : Type} (l : list A) (i k : nat) (f : A -> A) (d : A) :
  (i < List.length l)%nat ->
  nth k (list_update l i f) d = if (i =? k)%nat then f (nth k l d) else nth k l d.
Proof.
  revert i k. induction l as [| x l IH]; intros i k Hi; simpl in Hi.
  - lia.
  - destruct i as [| i]; destruct k as [| k]; simpl; try reflexivity.
    apply IH. lia.
Qed.

Lemma list_update_Forall {A : Type} (P : A -> Prop) (l : list A) (i : nat) (f : A -> A) :
  (forall x, P x -> P (f x)) -> Forall P l -> Forall P (list_update l i f).
Proof.
  intros Hf. revert i. induction l as [| x l IH]; intros i Hl; simpl.
  - destruct i; constructor.
  - inversion Hl; subst. destruct i; constructor; auto.
Qed.

Lemma nth_repeat_lt {A : Type} (x d : A) (n i : nat) :
  (i < n)%nat -> nth i (repeat x n) d = x.
Proof.
  revert i. induction n as [| n IH]; intros i Hi; [lia |].
  destruct i; simpl; [reflexivity | apply IH; lia].
Qed.

Lemma np_zeros_square n : square n (np_zeros n n).
Proof.
  unfold square, np_zeros. split.
  - apply repeat_length.
  - apply Forall_forall. intros row Hrow. apply repeat_spec in Hrow. subst row.
    apply repeat_length.
Qed.

Lemma zentry_np_zeros n i j : zentry (np_zeros n n) i j = 0.
Proof.
  unfold zentry, np_zeros.
  destruct (Nat.lt_ge_cases i n) as [Hi | Hi].
  - rewrite (nth_repeat_lt _ _ _ _ Hi).
    destruct (Nat.lt_ge_cases j n) as [Hj | Hj].
    + apply nth_repeat_lt. exact Hj.
    + apply nth_overflow. rewrite repeat_length. exact Hj.
  - rewrite (nth_overflow (repeat (repeat 0 n) n)) by (rewrite repeat_length; exact Hi).
    destruct j; reflexivity.
Qed.

Lemma incr_square n C i j : square n C -> square n (incr C i j).
Proof.
  unfold square, incr. intros [Hlen Hrows]. split.
  - rewrite list_update_length. exact Hlen.
  - apply list_update_Forall; [| exact Hrows].
    intros row Hrow. rewrite list_update_length. exact Hrow.
Qed.

Lemma zentry_incr n C i j i' j' :
  square n C -> (i < n)%nat -> (j < n)%nat ->
  zentry (incr C i j) i' j'
  = zentry C i' j' + (if (i =? i')%nat && (j =? j')%nat then 1 else 0).
Proof.
  unfold square, zentry, incr. intros [Hlen Hrows] Hi Hj.
  rewrite nth_list_update by lia.
  destruct (i =? i')%nat eqn:Hii; simpl.
  - apply Nat.eqb_eq in Hii. subst i'.
    assert (Hrow : List.length (nth i C []) = n).
    { rewrite Forall_forall in Hrows. apply Hrows. apply nth_In. lia. }
    rewrite nth_list_update by lia.
    destruct (j =? j')%nat; lia.
  - lia.
Qed.

Lemma norm_index_valid n s :
  valid_state n s -> norm_index n s = inr (state_of n s) /\ (state_of n s < n)%nat.
Proof.
  unfold valid_state, norm_index, state_of. intros Hs.
  assert (Hn : 0 < Z.of_nat n) by lia.
  replace ((- Z.of_nat n <=? s) && (s <? Z.of_nat n)) with true
    by (symmetry; apply andb_true_iff; split; [apply Z.leb_le | apply Z.ltb_lt]; lia).
  split; [reflexivity |].
  pose proof (Z.mod_pos_bound s (Z.of_nat n) Hn). lia.
Qed.

Lemma norm_index_err n s e :
  norm_index n s = inl e -> e = IndexError "index is out of bounds for axis".
Proof.
  unfold norm_index.
  destruct ((- Z.of_nat n <=? s) && (s <? Z.of_nat n)); simpl; intros H.
  - discriminate H.
  - injection H as <-. reflexivity.
Qed.

(** The loop over positions and the recursion on the trajectory agree. *)
Lemma count_loop_err n S l e :
  fold_left (fun acc t => C' <- acc ;; count_step n S C' t) l (inl e) = inl e.
Proof. induction l as [| t l IH]; simpl; [reflexivity | exact IH]. Qed.

Lemma count_loop_shift n a S m :
  forall k acc,
    fold_left (fun acc t => C' <- acc ;; count_step n (a :: S) C' t)
              (seq (Datatypes.S k) m) acc
    = fold_left (fun acc t => C' <- acc ;; count_step n S C' t) (seq k m) acc.
Proof.
  induction m as [| m IH]; intros k acc; simpl; [reflexivity |].
  rewrite IH. reflexivity.
Qed.

Lemma count_trajectory_rec_step n C a b S :
  count_trajectory_rec n C (a :: b :: S)
  = (i <- norm_index n a ;; j <- norm_index n b ;;
     count_trajectory_rec n (incr C i j) (b :: S)).
Proof. reflexivity. Qed.

Lemma count_trajectory_unfold n S :
  forall C, count_trajectory n C S = count_trajectory_rec n C S.
Proof.
  induction S as [| a S IH]; intros C; [reflexivity |].
  destruct S as [| b S']; [reflexivity |].
  rewrite count_trajectory_rec_step.
  unfold count_trajectory.
  replace (List.length (a :: b :: S') - 1)%nat with (Datatypes.S (List.length S'))
    by (simpl; lia).
  cbn [seq fold_left].
  unfold count_step at 2. cbn [bind ret nth Nat.add].
  destruct (norm_index n a) as [e | i]; cbn [bind].
  - apply count_loop_err.
  - destruct (norm_index n b) as [e | j]; cbn [bind].
    + apply count_loop_err.
    + rewrite count_loop_shift.
      specialize (IH (incr C i j)). unfold count_trajectory in IH.
      replace (List.length (b :: S') - 1)%nat with (List.length S') in IH
        by (simpl; lia).
      exact IH.
Qed.

Lemma count_trajectory_rec_spec n S :
  forall C, square n C -> Forall (valid_state n) S ->
    exists C', count_trajectory_rec n C S = inr C'
               /\ square n C'
               /\ forall i j, zentry C' i j = zentry C i j + transitions n i j S.
Proof.
  induction S as [| a S IH]; intros C HC HS.
  - exists C. split; [reflexivity | split; [exact HC |]]. intros; simpl; lia.
  - destruct S as [| b S'].
    + exists C. split; [reflexivity | split; [exact HC |]]. intros; simpl; lia.
    + rewrite count_trajectory_rec_step.
      inversion HS as [| ? ? Ha HS']; subst.
      inversion HS' as [| ? ? Hb _]; subst.
      destruct (norm_index_valid n a Ha) as [-> Hi].
      destruct (norm_index_valid n b Hb) as [-> Hj].
      cbn [bind].
      destruct (IH (incr C (state_of n a) (state_of n b))
                   (incr_square n C _ _ HC) HS') as (C' & HC' & Hsq & Hent).
      exists C'. split; [exact HC' | split; [exact Hsq |]].
      intros i j. rewrite Hent, (zentry_incr n C _ _ i j HC Hi Hj).
      cbn [transitions]. lia.
Qed.

Lemma count_trajectory_rec_err n S :
  forall C e, count_trajectory_rec n C S = inl e ->
              e = IndexError "index is out of bounds for axis".
Proof.
  induction S as [| a S IH]; intros C e H; [discriminate H |].
  destruct S as [| b S']; [discriminate H |].
  rewrite count_trajectory_rec_step in H.
  destruct (norm_index n a) as [ea | i] eqn:Hna; cbn [bind] in H.
  - injection H as <-. eapply norm_index_err. exact Hna.
  - destruct (norm_index n b) as [eb | j] eqn:Hnb; cbn [bind] in H.
    + injection H as <-. eapply norm_index_err. exact Hnb.
    + eapply IH. exact H.
Qed.

Lemma count_fold_stuck n trajs e :
  fold_left (fun acc S => C <- acc ;; count_trajectory n C S) trajs (inl e) = inl e.
Proof. induction trajs as [| S trajs IH]; simpl; [reflexivity | exact IH]. Qed.

Lemma count_fold_spec n trajs :
  forall C, square n C -> valid_trajectories n trajs ->
    exists C',
      fold_left (fun acc S => C <- acc ;; count_trajectory n C S) trajs (ret C) = inr C'
      /\ forall i j, zentry C' i j = zentry C i j + total_transitions n i j trajs.
Proof.
  induction trajs as [| S trajs IH]; intros C HC Hv.
  - exists C. split; [reflexivity |]. intros; unfold total_transitions; simpl; lia.
  - inversion Hv as [| ? ? HS Hrest]; subst.
    destruct (count_trajectory_rec_spec n S C HC HS) as (C1 & HC1 & Hsq & Hent).
    destruct (IH C1 Hsq Hrest) as (C' & HC' & Hent').
    exists C'. split.
    + cbn [fold_left bind ret]. rewrite count_trajectory_unfold, HC1. exact HC'.
    + intros i j. rewrite Hent', Hent. unfold total_transitions.
      cbn [fold_right]. lia.
Qed.

Lemma count_fold_err n trajs :
  forall C e,
    fold_left (fun acc S => C <- acc ;; count_trajectory n C S) trajs (ret C) = inl e ->
    e = IndexError "index is out of bounds for axis".
Proof.
  induction trajs as [| S trajs IH]; intros C e H; [discriminate H |].
  cbn [fold_left bind ret] in H. rewrite count_trajectory_unfold in H.
  destruct (count_trajectory_rec n C S) as [e1 | C1] eqn:H1.
  - rewrite count_fold_stuck in H. injection H as <-.
    eapply count_trajectory_rec_err. exact H1.
  - eapply IH. exact H.
Qed.

(** Every entry of the count matrix is the number of transitions between
    the two states, summed over the trajectories. *)
Lemma count_matrix_counts_transitions h trajs :
  hidden_state_trajectories h = Some trajs ->
  valid_trajectories (nstates h) trajs ->
  exists C, count_matrix h = inr C
            /\ forall i j, zentry C i j = total_transitions (nstates h) i j trajs.
Proof.
  intros Hh Hv. unfold count_matrix. rewrite Hh.
  destruct (count_fold_spec (_nstates h) trajs _ (np_zeros_square _) Hv)
    as (C & HC & Hent).
  exists C. split; [exact HC |].
  intros i j. rewrite Hent, zentry_np_zeros. reflexivity.
Qed.

(** C2, with the matrix that the code computes: on a two-state model with
    the trajectories [[0,1,0],[1,1,0]] the count matrix is [[0,1],[2,1]],
    each entry [C[i,j]] being the number of consecutive pairs [i -> j] over
    both trajectories (0->1 once, 1->0 twice, 1->1 once, 0->0 never). *)
Theorem count_matrix_of_example_trajectories (h : HMM) :
  nstates h = 2%nat ->
  hidden_state_trajectories h = Some example_trajectories ->
  count_matrix h = inr [[0; 1]; [2; 1]]
  /\ forall i j, zentry [[0; 1]; [2; 1]] i j
                 = total_transitions 2 i j example_trajectories.
Proof.
  intros Hn Hh.
  assert (Hv : valid_trajectories (nstates h) example_trajectories).
  { rewrite Hn. unfold valid_trajectories, example_trajectories, valid_state.
    repeat constructor; simpl; lia. }
  destruct (count_matrix_counts_transitions h _ Hh Hv) as (C & HC & Hent).
  assert (HC' : count_matrix h = inr [[0; 1]; [2; 1]]).
  { unfold count_matrix. unfold nstates in Hn. rewrite Hh, Hn. reflexivity. }
  split; [exact HC' |].
  rewrite HC in HC'. injection HC' as <-.
  intros i j. rewrite Hent, Hn. reflexivity.
Qed.

Lemma count_matrix_of_example_trajectories_witness :
  count_matrix (set_hidden_state_trajectories hmm2 example_trajectories)
  = inr [[0; 1]; [2; 1]].
Proof.
  apply (count_matrix_of_example_trajectories
           (set_hidden_state_trajectories hmm2 example_trajectories));
    reflexivity.
Defined.

(** C2, as stated, fails: the count matrix of the example is not
    [[1,1],[1,1]]; there is no transition 0->0 and there are two 1->0. *)
Lemma count_matrix_of_example_is_not_all_ones :
  nstates (set_hidden_state_trajectories hmm2 example_trajectories) = 2%nat
  /\ hidden_state_trajectories (set_hidden_state_trajectories hmm2 example_trajectories)
     = Some [[0; 1; 0]; [1; 1; 0]]
  /\ count_matrix (set_hidden_state_trajectories hmm2 example_trajectories)
     <> inr [[1; 1]; [1; 1]].
Proof.
  split; [reflexivity | split; [reflexivity |]].
  intros H. vm_compute in H. discriminate H.
Qed.

(** C10: [count_matrix] answers with its [RuntimeError] exactly when no
    trajectories were assigned.  An assigned empty list gives the zero
    matrix, and assigned trajectories over the states of the model always
    give a matrix, so that on such a model the call fails if and only if the
    trajectories are absent. *)
Theorem count_matrix_fails_iff_unassigned (h : HMM) :
  (count_matrix h
   = inl (RuntimeError "HMM model does not have a hidden state trajectory.")
   <-> hidden_state_trajectories h = None)
  /\ (hidden_state_trajectories h = Some []
      -> count_matrix h = inr (np_zeros (nstates h) (nstates h)))
  /\ ((forall trajs, hidden_state_trajectories h = Some trajs ->
                     valid_trajectories (nstates h) trajs)
      -> (is_ok (count_matrix h) = false <-> hidden_state_trajectories h = None)).
Proof.
  split; [| split].
  - split.
    + intros H. unfold count_matrix in H.
      destruct (hidden_state_trajectories h) as [trajs |]; [| reflexivity].
      apply count_fold_err in H. discriminate H.
    + intros H. unfold count_matrix. rewrite H. reflexivity.
  - intros H. unfold count_matrix. rewrite H. reflexivity.
  - intros Hv. split.
    + intros Hfail.
      destruct (hidden_state_trajectories h) as [trajs |] eqn:Hh; [| reflexivity].
      destruct (count_matrix_counts_transitions h trajs Hh (Hv trajs eq_refl))
        as (C & HC & _).
      rewrite HC in Hfail. discriminate Hfail.
    + intros H. unfold count_matrix. rewrite H. reflexivity.
Qed.

Lemma count_matrix_fails_iff_unassigned_witness :
  count_matrix hmm2
  = inl (RuntimeError "HMM model does not have a hidden state trajectory.")
  /\ count_matrix (set_hidden_state_trajectories hmm2 []) = inr [[0; 0]; [0; 0]]
  /\ is_ok (count_matrix (set_hidden_state_trajectories hmm2 example_trajectories))
     = true.
Proof.
  split; [| split].
  - destruct (count_matrix_fails_iff_unassigned hmm2) as ([_ Hnone] & _ & _).
    exact (Hnone eq_refl).
  - destruct (count_matrix_fails_iff_unassigned
                (set_hidden_state_trajectories hmm2 [])) as (_ & Hempty & _).
    exact (Hempty eq_refl).
  - destruct (count_matrix_fails_iff_unassigned
                (set_hidden_state_trajectories hmm2 example_trajectories))
      as (_ & _ & Hiff).
    destruct (is_ok (count_matrix
                       (set_hidden_state_trajectories hmm2 example_trajectories)))
      eqn:Hok; [reflexivity | exfalso].
    assert (Hv : forall trajs,
               hidden_state_trajectories
                 (set_hidden_state_trajectories hmm2 example_trajectories)
               = Some trajs ->
               valid_trajectories
                 (nstates (set_hidden_state_trajectories hmm2 example_trajectories))
                 trajs).
    { intros trajs Ht. simpl in Ht. injection Ht as <-.
      unfold valid_trajectories, example_trajectories, valid_state.
      repeat constructor; simpl; lia. }
    destruct (Hiff Hv) as [Habs _]. discriminate (Habs eq_refl).
Defined.

(** ** Row normalisation and the floor *)

Local Open Scope Q_scope.

Lemma qsum_vdiv (v : vector) (s : Q) : qsum (vdiv v s) == qsum v / s.
Proof.
  induction v as [| x v IH]; simpl.
  - unfold Qdiv. ring.
  - rewrite IH. unfold Qdiv. ring.
Qed.

(** A row with a non-zero sum sums to one after normalisation. *)
Lemma normalized_row_sums_to_one (v : vector) :
  ~ qsum v == 0 -> qsum (vdiv v (qsum v)) == 1.
Proof.
  intros Hs. rewrite qsum_vdiv. unfold Qdiv. apply Qmult_inv_r. exact Hs.
Qed.

Lemma qmaximum_ge (x eps : Q) : eps <= qmaximum x eps.
Proof.
  unfold qmaximum. destruct (Qle_bool eps x) eqn:H.
  - apply Qle_bool_iff. exact H.
  - apply Qle_refl.
Qed.

Lemma qsum_pos (v : vector) :
  v <> [] -> Forall (fun x => 0 < x) v -> 0 < qsum v.
Proof.
  intros Hne Hpos. induction Hpos as [| x v Hx Hv IH]; [congruence |].
  simpl. destruct v as [| y v].
  - simpl. rewrite Qplus_0_r. exact Hx.
  - assert (0 < qsum (y :: v)) by (apply IH; discriminate).
    rewrite <- (Qplus_0_r 0). apply Qplus_lt_le_compat; [exact Hx |].
    apply Qlt_le_weak. assumption.
Qed.

Lemma vdiv_pos (v : vector) (s : Q) :
  0 < s -> Forall (fun x => 0 < x) v -> Forall (fun x => 0 < x) (vdiv v s).
Proof.
  intros Hs Hv. unfold vdiv. apply Forall_map.
  eapply Forall_impl; [| exact Hv]. simpl. intros x Hx.
  unfold Qdiv. apply Qmult_lt_0_compat; [exact Hx |].
  apply Qinv_lt_0_compat. exact Hs.
Qed.

(** Flooring at a positive [eps] and normalising gives rows of positive
    entries that sum to one, whatever the signs in [X]. *)
Lemma floored_rows_are_stochastic (X : matrix) (eps : Q) :
  0 < eps ->
  Forall (fun row => Forall (fun x => 0 < x) row /\ (row <> [] -> qsum row == 1))
         (row_normalize (np_maximum X eps)).
Proof.
  intros Heps. unfold row_normalize, np_maximum.
  apply Forall_map. apply Forall_map. apply Forall_forall. intros row _.
  set (frow := map (fun x => qmaximum x eps) row).
  assert (Hpos : Forall (fun x => 0 < x) frow).
  { unfold frow. apply Forall_map. apply Forall_forall. intros x _.
    eapply Qlt_le_trans; [exact Heps | apply qmaximum_ge]. }
  destruct row as [| x row].
  - split; [constructor | intros H; exfalso; apply H; reflexivity].
  - assert (Hs : 0 < qsum frow) by (apply qsum_pos; [discriminate | exact Hpos]).
    split.
    + apply vdiv_pos; assumption.
    + intros _. apply normalized_row_sums_to_one.
      intros H0. rewrite H0 in Hs. apply (Qlt_irrefl 0). exact Hs.
Qed.

Lemma default_eps_inv (n : Z) (eps : Q) :
  default_eps n = inr eps ->
  n <> 0%Z /\ eps = (1 # 100) * (1 / inject_Z n).
Proof.
  unfold default_eps. destruct (n =? 0)%Z eqn:Hn; intros H.
  - discriminate H.
  - injection H as <-. split; [| reflexivity].
    apply Z.eqb_neq. exact Hn.
Qed.

Lemma default_eps_pos (n : Z) : (0 < n)%Z -> 0 < (1 # 100) * (1 / inject_Z n).
Proof.
  intros Hn. apply Qmult_lt_0_compat; [reflexivity |].
  unfold Qdiv. apply Qmult_lt_0_compat; [reflexivity |].
  apply Qinv_lt_0_compat. replace 0 with (inject_Z 0) by reflexivity.
  rewrite <- Zlt_Qlt. exact Hn.
Qed.

Lemma np_full_inv (r c : Z) (eps : Q) (B : matrix) :
  np_full r c eps = inr B ->
  (0 <= r)%Z /\ (0 <= c)%Z /\ B = repeat (repeat eps (Z.to_nat c)) (Z.to_nat r).
Proof.
  unfold np_full. destruct ((r <? 0) || (c <? 0))%Z eqn:H; intros HB.
  - discriminate HB.
  - injection HB as <-. apply orb_false_iff in H. destruct H as [Hr Hc].
    apply Z.ltb_ge in Hr. apply Z.ltb_ge in Hc. repeat split; assumption.
Qed.

(** ** The assignment [B[:, active_set] = B_conn] *)

Lemma norm_index_ok_inv n s i :
  norm_index n s = inr i -> i = state_of n s /\ (i < n)%nat.
Proof.
  unfold norm_index.
  destruct ((- Z.of_nat n <=? s)%Z && (s <? Z.of_nat n)%Z) eqn:H; intros Hi.
  - injection Hi as <-. split; [reflexivity |].
    apply andb_true_iff in H. destruct H as [H1 H2].
    apply Z.leb_le in H1. apply Z.ltb_lt in H2.
    assert (Hv : valid_state n s) by (unfold valid_state; lia).
    apply (norm_index_valid n s Hv).
  - discriminate Hi.
Qed.

Lemma map_result_norm_index c idx :
  forall js, map_result (norm_index c) idx = inr js ->
             js = map (state_of c) idx /\ Forall (fun j => (j < c)%nat) js.
Proof.
  induction idx as [| a idx IH]; intros js H; simpl in H.
  - injection H as <-. split; [reflexivity | constructor].
  - inv_bind H. inv_bind H. injection H as <-.
    apply norm_index_ok_inv in Ha. destruct Ha as [-> Hlt].
    destruct (IH a1 Ha0) as [-> Hall].
    split; [reflexivity | constructor; assumption].
Qed.

Lemma nth_list_update_neq {A : Type} (l : list A) (i k : nat) (f : A -> A) (d : A) :
  i <> k -> nth k (list_update l i f) d = nth k l d.
Proof.
  revert i k. induction l as [| x l IH]; intros i k Hik; simpl.
  - reflexivity.
  - destruct i as [| i]; destruct k as [| k]; simpl; try reflexivity.
    + congruence.
    + apply IH. congruence.
Qed.

Section AssignRow.
Variable V : matrix.
Variable i : nat.

Lemma write_fold_length kjs :
  forall row, List.length (fold_left (write_column V i) kjs row) = List.length row.
Proof.
  induction kjs as [| kj kjs IH]; intros row; simpl; [reflexivity |].
  rewrite IH. unfold write_column. apply list_update_length.
Qed.

Lemma write_fold_other kjs j :
  ~ In j (map snd kjs) ->
  forall row, nth j (fold_left (write_column V i) kjs row) 0 = nth j row 0.
Proof.
  induction kjs as [| kj kjs IH]; intros Hj row; simpl; [reflexivity |].
  simpl in Hj. rewrite IH by tauto.
  unfold write_column. apply nth_list_update_neq. tauto.
Qed.

Lemma write_fold_written kjs j :
  In j (map snd kjs) ->
  forall row, Forall (fun kj => (snd kj < List.length row)%nat) kjs ->
    exists k, In (k, j) kjs
              /\ nth j (fold_left (write_column V i) kjs row) 0 = broadcast_get V i k.
Proof.
  induction kjs as [| [k0 j0] kjs IH]; intros Hj row Hb; simpl in Hj; [tauto |].
  inversion Hb as [| ? ? Hb0 Hbs]; subst. simpl in Hb0.
  destruct (in_dec Nat.eq_dec j (map snd kjs)) as [Hin | Hout].
  - destruct (IH Hin (write_column V i row (k0, j0))) as (k & Hk & Hv).
    + unfold write_column. simpl.
      eapply Forall_impl; [| exact Hbs]. simpl. intros kj Hkj.
      rewrite list_update_length. exact Hkj.
    + exists k. split; [right; exact Hk | exact Hv].
  - destruct Hj as [Hj | Hj]; [| contradiction]. subst j0.
    exists k0. split; [left; reflexivity |].
    simpl. rewrite write_fold_other by exact Hout.
    unfold write_column. simpl. rewrite nth_list_update by exact Hb0.
    rewrite Nat.eqb_refl. reflexivity.
Qed.
End AssignRow.

Lemma in_combine_seq {A : Type} (l : list A) :
  forall a m k x, In (k, x) (combine (seq a m) l) ->
                  (a <= k)%nat /\ nth_error l (k - a) = Some x.
Proof.
  induction l as [| y l IH]; intros a m k x H.
  - destruct (seq a m); simpl in H; contradiction.
  - destruct m as [| m]; simpl in H; [contradiction |].
    destruct H as [H | H].
    + injection H as <- <-. rewrite Nat.sub_diag. split; [lia | reflexivity].
    + apply IH in H. destruct H as [Hle Hn].
      split; [lia |].
      replace (k - a)%nat with (S (k - S a)) by lia. exact Hn.
Qed.

Lemma map_snd_combine_seq {A : Type} (l : list A) :
  forall a, map snd (combine (seq a (List.length l)) l) = l.
Proof.
  induction l as [| y l IH]; intros a; simpl; [reflexivity |].
  f_equal. apply IH.
Qed.

Lemma mapi_from_length {A B : Type} (f : nat -> A -> B) (l : list A) :
  forall a, List.length (mapi_from a f l) = List.length l.
Proof. induction l as [| x l IH]; intros a; simpl; [reflexivity | f_equal; apply IH]. Qed.

Lemma nth_mapi_from {A B : Type} (f : nat -> A -> B) (l : list A) (d : A) (d' : B) :
  forall a i, (i < List.length l)%nat ->
              nth i (mapi_from a f l) d' = f (a + i)%nat (nth i l d).
Proof.
  induction l as [| x l IH]; intros a i Hi; simpl in Hi; [lia |].
  destruct i as [| i]; simpl.
  - rewrite Nat.add_0_r. reflexivity.
  - rewrite IH by lia. f_equal. lia.
Qed.

Lemma nth_assigned_row V js (B : matrix) i :
  (i < List.length B)%nat ->
  nth i (mapi_from 0 (assign_row V js) B) [] = assign_row V js i (nth i B []).
Proof. intros Hi. apply (nth_mapi_from (assign_row V js) B [] [] 0%nat i Hi). Qed.

(** What the assignment leaves in [B]: the shape is kept, a column that is
    not among the indices keeps its entries, a column among the indices
    holds the entries of one column [k] of the (broadcast) value with
    [idx[k]] that column. *)
Lemma assign_columns_spec c B idx V B0 :
  assign_columns c B idx V = inr B0 ->
  Forall (fun row => List.length row = c) B ->
  let js := map (state_of c) idx in
  map_result (norm_index c) idx = inr js
  /\ List.length B0 = List.length B
  /\ Forall (fun row => List.length row = c) B0
  /\ (forall i j, (i < List.length B)%nat -> ~ In j js ->
                  entry B0 i j = entry B i j)
  /\ (forall i j, (i < List.length B)%nat -> In j js ->
                  exists k, nth_error js k = Some j
                            /\ entry B0 i j = broadcast_get V i k).
Proof.
  intros H HB js. unfold assign_columns in H.
  destruct (broadcasts_to V (List.length B) (List.length idx)); [| discriminate H].
  inv_bind H. injection H as <-.
  destruct (map_result_norm_index c idx a Ha) as [Hjs Hlt].
  subst js. rewrite <- Hjs. clear Hjs.
  split; [exact Ha | split; [apply mapi_from_length | split; [| split]]].
  - apply Forall_forall. intros row Hrow.
    destruct (In_nth _ _ [] Hrow) as (i & Hi & <-).
    rewrite mapi_from_length in Hi.
    rewrite nth_assigned_row by exact Hi.
    unfold assign_row. rewrite write_fold_length.
    rewrite Forall_forall in HB. apply HB. apply nth_In. exact Hi.
  - intros i j Hi Hj. unfold entry.
    rewrite nth_assigned_row by exact Hi.
    unfold assign_row. apply write_fold_other.
    rewrite map_snd_combine_seq. exact Hj.
  - intros i j Hi Hj. unfold entry.
    rewrite nth_assigned_row by exact Hi.
    assert (Hrow : List.length (nth i B []) = c).
    { rewrite Forall_forall in HB. apply HB. apply nth_In. exact Hi. }
    destruct (write_fold_written V i
                (combine (seq 0 (List.length a)) a) j) with (row := nth i B [])
      as (k & Hk & Hv).
    + rewrite map_snd_combine_seq. exact Hj.
    + apply Forall_forall. intros [k0 j0] Hin. simpl.
      apply in_combine_r in Hin. rewrite Forall_forall in Hlt.
      rewrite Hrow. apply Hlt. exact Hin.
    + exists k. apply in_combine_seq in Hk. destruct Hk as [_ Hk].
      rewrite Nat.sub_0_r in Hk. split; [exact Hk |].
      unfold assign_row. exact Hv.
Qed.

(** ** The matrices of the discrete initialiser *)

Lemma nth_row_normalize (X : matrix) (i : nat) :
  nth i (row_normalize X) [] = vdiv (nth i X []) (qsum (nth i X [])).
Proof.
  unfold row_normalize.
  exact (map_nth (fun row => vdiv row (qsum row)) X [] i).
Qed.

Lemma row_normalize_shape (X : matrix) (c : nat) :
  Forall (fun row => List.length row = c) X ->
  List.length (row_normalize X) = List.length X
  /\ Forall (fun row => List.length row = c) (row_normalize X).
Proof.
  intros HX. unfold row_normalize. split; [apply length_map |].
  apply Forall_map. eapply Forall_impl; [| exact HX]. simpl.
  intros row Hrow. unfold vdiv. rewrite length_map. exact Hrow.
Qed.

Lemma entry_repeat (eps : Q) (r c i j : nat) :
  (i < r)%nat -> (j < c)%nat -> entry (repeat (repeat eps c) r) i j = eps.
Proof.
  intros Hi Hj. unfold entry.
  rewrite (nth_repeat_lt _ _ _ _ Hi). apply nth_repeat_lt. exact Hj.
Qed.

Lemma repeat_rows (eps : Q) (r c : nat) :
  Forall (fun row => List.length row = c) (repeat (repeat eps c) r).
Proof.
  apply Forall_forall. intros row Hrow. apply repeat_spec in Hrow. subst row.
  apply repeat_length.
Qed.

(** C5, as the code has it, in exact arithmetic.  Whenever the matrices are
    computed: [B] has one row per hidden state; before renormalisation a
    column that is not in the active set holds the floor
    [eps = 0.01 / MSM.nstates > 0], while a column of the active set holds
    the entries of the metastable distributions as they are, without a
    floor; every row of [B] whose sum is not zero sums to one; every entry
    of [A] is positive and every non-empty row of [A] sums to one, whatever
    the signs of the projected matrix. *)
Theorem initial_matrices_after_repair
        est inv observations (nstates : Z) lag (reversible verbose : bool)
        (A B : matrix) :
  initial_matrices est inv observations nstates lag reversible verbose = inr (A, B) ->
  exists MSM pcca B0,
    msm.estimate_markov_model est observations lag true "largest" = inr MSM
    /\ msm.pcca est MSM nstates = inr pcca
    /\ let n := msm.nstates MSM in
       let eps := (1 # 100) * (1 / inject_Z n) in
       let B_conn := msm.metastable_distributions pcca in
       let js := map (state_of (Z.to_nat n)) (msm.active_set MSM) in
       0 < eps
       /\ expand_B nstates n eps (msm.active_set MSM) B_conn = inr B0
       /\ B = row_normalize B0
       /\ List.length B = Z.to_nat nstates
       /\ (forall i j, (i < Z.to_nat nstates)%nat -> (j < Z.to_nat n)%nat ->
                       ~ In j js -> entry B0 i j = eps)
       /\ (forall i j, (i < Z.to_nat nstates)%nat -> In j js ->
                       exists k, nth_error js k = Some j
                                 /\ entry B0 i j = broadcast_get B_conn i k)
       /\ (forall i, (i < Z.to_nat nstates)%nat ->
                     ~ qsum (nth i B0 []) == 0 -> qsum (nth i B []) == 1)
       /\ Forall (fun row => Forall (fun x => 0 < x) row
                             /\ (row <> [] -> qsum row == 1)) A.
Proof.
  unfold initial_matrices. intros H.
  inv_bind H. rename a into MSM, Ha into HMSM.
  inv_bind H. rename a into pcca, Ha into Hpcca.
  inv_bind H. rename a into eps, Ha into Heps.
  inv_bind H. rename a into B0, Ha into HB0.
  inv_bind H. rename a into X, Ha into HX.
  inv_bind H. clear Ha a. injection H as <- <-.
  exists MSM, pcca, B0.
  split; [exact HMSM | split; [exact Hpcca |]].
  apply default_eps_inv in Heps. destruct Heps as [Hn0 ->].
  cbv zeta.
  pose proof HB0 as Hexp. unfold expand_B in Hexp.
  inv_bind Hexp. rename a into Bfull, Ha into Hfull.
  apply np_full_inv in Hfull. destruct Hfull as (Hr & Hc & ->).
  assert (Hpos : 0 < (1 # 100) * (1 / inject_Z (msm.nstates MSM)))
    by (apply default_eps_pos; lia).
  destruct (assign_columns_spec _ _ _ _ _ Hexp (repeat_rows _ _ _))
    as (_ & Hlen & Hrows & Hother & Hwritten).
  rewrite repeat_length in Hlen, Hother, Hwritten.
  destruct (row_normalize_shape B0 _ Hrows) as [HlenB HrowsB].
  split; [exact Hpos | split; [exact HB0 | split; [reflexivity |]]].
  split; [rewrite HlenB; exact Hlen |].
  split; [| split; [exact Hwritten | split]].
  - intros i j Hi Hj Hout. rewrite (Hother i j Hi Hout).
    apply entry_repeat; assumption.
  - intros i _ Hs. rewrite nth_row_normalize.
    apply normalized_row_sums_to_one. exact Hs.
  - apply floored_rows_are_stochastic. exact Hpos.
Qed.

Lemma initial_matrices_after_repair_witness :
  exists A B,
    initial_matrices estimation2 inv2 observations2 2 (PyInt 1) true false = inr (A, B)
    /\ List.length B = 2%nat
    /\ Forall (fun row => Forall (fun x => 0 < x) row
                          /\ (row <> [] -> qsum row == 1)) A.
Proof.
  destruct (initial_matrices estimation2 inv2 observations2 2 (PyInt 1) true false)
    as [e | [A B]] eqn:H.
  - exfalso. vm_compute in H. discriminate H.
  - exists A, B. split; [reflexivity |].
    destruct (initial_matrices_after_repair _ _ _ _ _ _ _ A B H)
      as (MSM & pcca & B0 & _ & _ & HAB).
    cbv zeta in HAB.
    destruct HAB as (_ & _ & _ & HlenB & _ & _ & _ & HA).
    split; [exact HlenB | exact HA].
Defined.

(** C5, as stated, fails: on the two-symbol example both symbols are in the
    active set, the floor is overwritten everywhere, and the emission matrix
    is the identity, with exact zeros, before and after renormalisation. *)
Lemma emission_matrix_keeps_zero_entries :
  exists A B,
    initial_matrices estimation2 inv2 observations2 2 (PyInt 1) true false = inr (A, B)
    /\ expand_B 2 2 ((1 # 100) * (1 / inject_Z 2)) [0; 1]%Z [[1; 0]; [0; 1]]
       = inr [[1; 0]; [0; 1]]
    /\ ~ (1 # 100) * (1 / inject_Z 2) <= entry [[1; 0]; [0; 1]] 0 1
    /\ B = [[1; 0]; [0; 1]]
    /\ entry B 0 1 == 0.
Proof.
  eexists. eexists. split; [vm_compute; reflexivity |].
  split; [reflexivity | split; [| split; reflexivity]].
  intros H. vm_compute in H. apply H. reflexivity.
Qed.


(** * Further properties of the modelled code *)

(** ** Validation in the constructor *)




(** X1: the checks of the constructor are made in a fixed order and the
    first one that fails decides the error.  A matrix that is rejected as not
    stochastic gives the matrix error whatever else is wrong; with an
    accepted matrix a negative entry in [Pi] gives the error about negative
    elements whatever [stationary] and [reversible] are; the reversibility
    error is only reached when the initial distribution has been settled. *)
Theorem constructor_validation_order ana Tij om lag Pi (stationary reversible : bool) :
  (msmana.is_transition_matrix ana (np_array Tij) = inr false ->
   HMM__init__ ana Tij om lag Pi stationary reversible
   = inl (AssertionError "Given transition matrix is not a stochastic matrix"))
  /\ (forall n p,
         msmana.is_transition_matrix ana (np_array Tij) = inr true ->
         shape0 (np_array Tij) = inr n ->
         Pi = Some p -> all_nonneg p = false ->
         HMM__init__ ana Tij om lag Pi stationary reversible
         = inl (AssertionError "Given initial distribution contains negative elements."))
  /\ (forall n Pi' Pi_,
         msmana.is_transition_matrix ana (np_array Tij) = inr true ->
         shape0 (np_array Tij) = inr n ->
         normalize_Pi Pi = inr Pi' ->
         select_Pi ana (np_array Tij) Pi' stationary = inr Pi_ ->
         reversible = true ->
         msmana.is_reversible ana Tij = inr false ->
         HMM__init__ ana Tij om lag Pi stationary reversible
         = inl (AssertionError "Reversible HMM requested, but given transition matrix is not reversible.")).
Proof.
  split; [| split].
  - intros H. unfold HMM__init__. rewrite H. reflexivity.
  - intros n p Hok Hn -> Hneg. unfold HMM__init__.
    rewrite Hok. cbn [bind py_assert ret]. rewrite Hn. cbn [bind].
    unfold normalize_Pi. rewrite Hneg. reflexivity.
  - intros n Pi' Pi_ Hok Hn HPi' HPi_ -> Hrev. unfold HMM__init__.
    rewrite Hok. cbn [bind py_assert ret]. rewrite Hn. cbn [bind].
    rewrite HPi'. cbn [bind]. rewrite HPi_. cbn [bind].
    unfold check_reversible. rewrite Hrev. reflexivity.
Qed.

Lemma constructor_validation_order_witness :
  HMM__init__ analysis2 (PyArray (Arr2 [[1; 1]; [0; 1]])) gaussian_model (PyInt 1)
              (Some [- (1); 2]) true true
  = inl (AssertionError "Given transition matrix is not a stochastic matrix")
  /\ HMM__init__ analysis3 (PyArray (Arr2 T3)) gaussian_model (PyInt 1)
                 (Some [- (1); 2; 2]) true true
     = inl (AssertionError "Given initial distribution contains negative elements.")
  /\ HMM__init__ analysis3 (PyArray (Arr2 T3)) gaussian_model (PyInt 1)
                 None true true
     = inl (AssertionError "Reversible HMM requested, but given transition matrix is not reversible.").
Proof.
  split; [| split].
  - apply (proj1 (constructor_validation_order analysis2
                    (PyArray (Arr2 [[1; 1]; [0; 1]])) gaussian_model (PyInt 1)
                    (Some [- (1); 2]) true true)).
    reflexivity.
  - apply (proj1 (proj2 (constructor_validation_order analysis3
                           (PyArray (Arr2 T3)) gaussian_model (PyInt 1)
                           (Some [- (1); 2; 2]) true true))
                 3%nat [- (1); 2; 2]); reflexivity.
  - apply (proj2 (proj2 (constructor_validation_order analysis3
                           (PyArray (Arr2 T3)) gaussian_model (PyInt 1)
                           None true true))
                 3%nat None pi3); reflexivity.
Defined.



(** X3: a free model with a supplied initial vector is built from any
    non-negative vector: the stationary distribution of the matrix is
    neither compared with it nor computed.  The model answers
    [initial_distribution] with the normalised vector and refuses
    [stationary_distribution]. *)
Theorem free_model_keeps_supplied_Pi
        ana (T : matrix) om lag (p : vector) (reversible : bool) RDL :
  msmana.is_transition_matrix ana (Arr2 T) = inr true ->
  all_nonneg p = true ->
  check_reversible ana (PyArray (Arr2 T)) reversible = inr tt ->
  decompose ana (Arr2 T) reversible = inr RDL ->
  exists h,
    HMM__init__ ana (PyArray (Arr2 T)) om lag (Some p) false reversible = inr h
    /\ initial_distribution h = vdiv p (qsum p)
    /\ stationary_distribution h = inl (ValueError "HMM is not stationary").
Proof.
  intros Hok Hnn Hrev Hdec. destruct RDL as [[R D] L].
  eexists. split; [| split].
  - apply (HMM_init_intro ana (PyArray (Arr2 T)) om lag (Some p) false reversible
             (List.length T) (Some (vdiv p (qsum p))) (vdiv p (qsum p)) R D L);
      try assumption; try reflexivity.
    unfold normalize_Pi. rewrite Hnn. reflexivity.
  - reflexivity.
  - reflexivity.
Qed.

(** The vector [(1, 3)] is not the stationary distribution of [T2] and the
    solver fails; the free model is built all the same. *)
Lemma free_model_keeps_supplied_Pi_witness :
  exists h,
    HMM__init__ analysis_without_solver (PyArray (Arr2 T2)) gaussian_model (PyInt 1)
                (Some [1; 3]) false true = inr h
    /\ initial_distribution h = vdiv [1; 3] (qsum [1; 3])
    /\ stationary_distribution h = inl (ValueError "HMM is not stationary").
Proof.
  apply (free_model_keeps_supplied_Pi analysis_without_solver T2 gaussian_model
           (PyInt 1) [1; 3] true (real R2, real D2, real L2)); reflexivity.
Defined.

Lemma np_diag_from_real (D : cmatrix) :
  forall k, Forall is_real (np_diag_from k (real D)).
Proof.
  induction D as [| row rest IH]; intros k; simpl; [constructor |].
  rewrite nth_error_map.
  destruct (nth_error row k) as [z |]; simpl; [| constructor].
  constructor; [reflexivity | apply IH].
Qed.

Lemma real_is_real (M : cmatrix) : Forall (Forall is_real) (real M).
Proof.
  unfold real. apply Forall_map. apply Forall_forall. intros row _.
  apply Forall_map. apply Forall_forall. intros z _. reflexivity.
Qed.

(** X4: the stored eigenvalues are always the diagonal of the stored [D],
    and in a model built as reversible nothing stored has an imaginary part:
    every entry of [R], [D], [L] and every eigenvalue is real. *)
Theorem reversible_model_is_real_valued
        ana Tij om lag Pi (stationary reversible : bool) h :
  HMM__init__ ana Tij om lag Pi stationary reversible = inr h ->
  eigenvalues h = np_diag (_D h)
  /\ (reversible = true ->
      Forall (Forall is_real) (eigenvectors_right h)
      /\ Forall (Forall is_real) (_D h)
      /\ Forall (Forall is_real) (eigenvectors_left h)
      /\ Forall is_real (eigenvalues h)).
Proof.
  intros H. apply HMM_init_inv in H.
  destruct H as (n & Pi' & Pi_ & R & D & L & _ & _ & _ & _ & _ & Hdec & ->).
  unfold eigenvalues, eigenvectors_right, eigenvectors_left. simpl.
  split; [reflexivity |].
  intros ->. unfold decompose in Hdec.
  inv_bind Hdec. destruct a as [[R0 D0] L0]. injection Hdec as <- <- <-.
  repeat split; try apply real_is_real.
  unfold np_diag. apply np_diag_from_real.
Qed.

Lemma reversible_model_is_real_valued_witness :
  eigenvalues hmm2 = np_diag (_D hmm2)
  /\ Forall is_real (eigenvalues hmm2).
Proof.
  destruct (reversible_model_is_real_valued analysis2 _ _ _ _ true true hmm2
              hmm2_constructed) as [Hdiag Hreal].
  split; [exact Hdiag |].
  destruct (Hreal eq_refl) as (_ & _ & _ & Hev). exact Hev.
Defined.

(** X5: a model as the constructor returns it has no hidden state
    trajectories: [count_matrix] and [collect_observations_in_state] fail
    with their [RuntimeError] until trajectories are assigned.  Its number of
    states is the number of rows of the matrix, and after the assignment of
    trajectories over these states [count_matrix] returns. *)
Theorem fresh_model_has_no_trajectories
        ana Tij om lag Pi (stationary reversible : bool) h :
  HMM__init__ ana Tij om lag Pi stationary reversible = inr h ->
  hidden_state_trajectories h = None
  /\ shape0 (np_array Tij) = inr (nstates h)
  /\ count_matrix h
     = inl (RuntimeError "HMM model does not have a hidden state trajectory.")
  /\ (forall (Obs : Type) (observations : list (list Obs)) state_index,
         collect_observations_in_state h observations state_index
         = inl (RuntimeError "HMM model does not have a hidden state trajectory."))
  /\ (forall trajs,
         valid_trajectories (nstates h) trajs ->
         nstates (set_hidden_state_trajectories h trajs) = nstates h
         /\ is_ok (count_matrix (set_hidden_state_trajectories h trajs)) = true).
Proof.
  intros H. apply HMM_init_inv in H.
  destruct H as (n & Pi' & Pi_ & R & D & L & _ & Hn & _ & _ & _ & _ & ->).
  split; [reflexivity | split; [exact Hn | split; [reflexivity | split]]].
  - intros Obs observations state_index. reflexivity.
  - intros trajs Hv. split; [reflexivity |].
    match goal with
    | |- is_ok (count_matrix ?m) = true =>
        destruct (count_matrix_counts_transitions m trajs eq_refl Hv) as (C & HC & _);
        rewrite HC; reflexivity
    end.
Qed.

Lemma fresh_model_has_no_trajectories_witness :
  count_matrix hmm2
  = inl (RuntimeError "HMM model does not have a hidden state trajectory.")
  /\ is_ok (count_matrix (set_hidden_state_trajectories hmm2 [[0; 1; 1]; [1]]%Z)) = true.
Proof.
  destruct (fresh_model_has_no_trajectories analysis2 _ _ _ _ true true hmm2
              hmm2_constructed) as (_ & _ & Hcount & _ & Hset).
  split; [exact Hcount |].
  apply Hset. unfold valid_trajectories, valid_state.
  repeat constructor; simpl; lia.
Defined.

(** ** More on the count matrix *)

Local Open Scope Z_scope.

Lemma zsum_list_update_incr (row : list Z) (j : nat) :
  (j < List.length row)%nat ->
  zsum (list_update row j (fun x => x + 1)) = zsum row + 1.
Proof.
  revert j. induction row as [| x row IH]; intros j Hj; simpl in Hj; [lia |].
  destruct j as [| j]; simpl.
  - lia.
  - rewrite IH by lia. lia.
Qed.

Lemma ztotal_list_update (C : zmatrix) (i : nat) (f : list Z -> list Z) :
  (i < List.length C)%nat ->
  ztotal (list_update C i f) = ztotal C - zsum (nth i C []) + zsum (f (nth i C [])).
Proof.
  unfold ztotal. revert i. induction C as [| row C IH]; intros i Hi; simpl in Hi; [lia |].
  destruct i as [| i]; simpl.
  - lia.
  - rewrite IH by lia. lia.
Qed.

Lemma ztotal_incr n C i j :
  square n C -> (i < n)%nat -> (j < n)%nat -> ztotal (incr C i j) = ztotal C + 1.
Proof.
  intros [Hlen Hrows] Hi Hj. unfold incr.
  rewrite ztotal_list_update by lia.
  rewrite zsum_list_update_incr; [lia |].
  rewrite Forall_forall in Hrows. rewrite (Hrows (nth i C [])); [exact Hj |].
  apply nth_In. lia.
Qed.

Lemma ztotal_np_zeros n : ztotal (np_zeros n n) = 0.
Proof.
  unfold ztotal, np_zeros.
  assert (Hrow : forall c, zsum (repeat 0 c) = 0)
    by (induction c as [| c IH]; simpl; [reflexivity | exact IH]).
  generalize n at 2. intros r. induction r as [| r IH]; simpl; [reflexivity |].
  rewrite Hrow, IH. reflexivity.
Qed.

Lemma count_trajectory_rec_total n S :
  forall C C', square n C -> Forall (valid_state n) S ->
    count_trajectory_rec n C S = inr C' ->
    ztotal C' = ztotal C + steps S.
Proof.
  unfold steps.
  induction S as [| a S IH]; intros C C' HC HS H.
  - injection H as <-. simpl. lia.
  - destruct S as [| b S'].
    + injection H as <-. simpl. lia.
    + rewrite count_trajectory_rec_step in H.
      inversion HS as [| ? ? Ha HS']; subst.
      inversion HS' as [| ? ? Hb _]; subst.
      destruct (norm_index_valid n a Ha) as [Ea Hi].
      destruct (norm_index_valid n b Hb) as [Eb Hj].
      rewrite Ea, Eb in H. cbn [bind] in H.
      rewrite (IH _ _ (incr_square n C _ _ HC) HS' H).
      rewrite (ztotal_incr n C _ _ HC Hi Hj).
      simpl List.length. lia.
Qed.

(** The loop over the trajectories: shape, entries and total of the result. *)
Lemma count_fold_full n trajs :
  forall C, square n C -> valid_trajectories n trajs ->
    exists C',
      fold_left (fun acc S => C <- acc ;; count_trajectory n C S) trajs (ret C) = inr C'
      /\ square n C'
      /\ (forall i j, zentry C' i j = zentry C i j + total_transitions n i j trajs)
      /\ ztotal C' = ztotal C + total_steps trajs.
Proof.
  induction trajs as [| S trajs IH]; intros C HC Hv.
  - exists C. split; [reflexivity | split; [exact HC | split]].
    + intros; unfold total_transitions; simpl; lia.
    + unfold total_steps. simpl. lia.
  - inversion Hv as [| ? ? HS Hrest]; subst.
    destruct (count_trajectory_rec_spec n S C HC HS) as (C1 & HC1 & Hsq & Hent).
    destruct (IH C1 Hsq Hrest) as (C' & HC' & Hsq' & Hent' & Htot').
    exists C'. split; [| split; [exact Hsq' | split]].
    + cbn [fold_left bind ret]. rewrite count_trajectory_unfold, HC1. exact HC'.
    + intros i j. rewrite Hent', Hent. unfold total_transitions.
      cbn [fold_right]. lia.
    + rewrite Htot', (count_trajectory_rec_total n S C C1 HC HS HC1).
      change (total_steps (S :: trajs)) with (steps S + total_steps trajs). lia.
Qed.

Lemma count_matrix_full h trajs :
  hidden_state_trajectories h = Some trajs ->
  valid_trajectories (nstates h) trajs ->
  exists C, count_matrix h = inr C
            /\ square (nstates h) C
            /\ (forall i j, zentry C i j = total_transitions (nstates h) i j trajs)
            /\ ztotal C = total_steps trajs.
Proof.
  intros Hh Hv. unfold count_matrix. rewrite Hh.
  destruct (count_fold_full (_nstates h) trajs _ (np_zeros_square _) Hv)
    as (C & HC & Hsq & Hent & Htot).
  exists C. split; [exact HC | split; [exact Hsq | split]].
  - intros i j. rewrite Hent, zentry_np_zeros. reflexivity.
  - rewrite Htot, ztotal_np_zeros. reflexivity.
Qed.

(** X6: for trajectories over the states of the model, [count_matrix]
    returns an [nstates] by [nstates] matrix whose entry [(i, j)] is the
    number of positions [t] with [S[t] = i] and [S[t+1] = j], summed over the
    trajectories; an index [-k] counts as the state [nstates - k]. *)
Theorem count_matrix_entries_are_transition_counts h trajs :
  hidden_state_trajectories h = Some trajs ->
  valid_trajectories (nstates h) trajs ->
  exists C, count_matrix h = inr C
            /\ square (nstates h) C
            /\ forall i j, zentry C i j = total_transitions (nstates h) i j trajs.
Proof.
  intros Hh Hv.
  destruct (count_matrix_full h trajs Hh Hv) as (C & HC & Hsq & Hent & _).
  exists C. split; [exact HC | split; [exact Hsq | exact Hent]].
Qed.

(** On three states, [-1] is the state 2. *)
Lemma count_matrix_entries_are_transition_counts_witness :
  exists C,
    count_matrix (set_hidden_state_trajectories hmm3 [[0; -1; 2; 0]; [2]])
    = inr C
    /\ zentry C 0 2 = 1 /\ zentry C 2 2 = 1 /\ zentry C 2 0 = 1 /\ zentry C 0 0 = 0.
Proof.
  destruct (count_matrix_entries_are_transition_counts
              (set_hidden_state_trajectories hmm3 [[0; -1; 2; 0]; [2]])
              [[0; -1; 2; 0]; [2]] eq_refl) as (C & HC & _ & Hent).
  - unfold valid_trajectories, valid_state. repeat constructor; simpl; lia.
  - exists C. split; [exact HC |].
    rewrite !Hent. repeat split; reflexivity.
Defined.

(** X7: the entries of the count matrix add up to the number of
    transitions in the data: one less than its length for every trajectory
    that is not empty. *)
Theorem count_matrix_total_is_number_of_steps h trajs :
  hidden_state_trajectories h = Some trajs ->
  valid_trajectories (nstates h) trajs ->
  exists C, count_matrix h = inr C /\ ztotal C = total_steps trajs.
Proof.
  intros Hh Hv.
  destruct (count_matrix_full h trajs Hh Hv) as (C & HC & _ & _ & Htot).
  exists C. split; [exact HC | exact Htot].
Qed.

Lemma count_matrix_total_is_number_of_steps_witness :
  exists C,
    count_matrix (set_hidden_state_trajectories hmm2 [[0; 1; 0]; []; [1]; [1; 1; 0; 0]])
    = inr C
    /\ ztotal C = 5.
Proof.
  destruct (count_matrix_total_is_number_of_steps
              (set_hidden_state_trajectories hmm2 [[0; 1; 0]; []; [1]; [1; 1; 0; 0]])
              [[0; 1; 0]; []; [1]; [1; 1; 0; 0]] eq_refl) as (C & HC & Htot).
  - unfold valid_trajectories, valid_state. repeat constructor; simpl; lia.
  - exists C. split; [exact HC | exact Htot].
Defined.

Lemma norm_index_ok_valid n s i : norm_index n s = inr i -> valid_state n s.
Proof.
  unfold norm_index, valid_state.
  destruct ((- Z.of_nat n <=? s) && (s <? Z.of_nat n)) eqn:H; intros Hi.
  - apply andb_true_iff in H. destruct H as [H1 H2].
    apply Z.leb_le in H1. apply Z.ltb_lt in H2. lia.
  - discriminate Hi.
Qed.

Lemma count_trajectory_rec_ok_iff n S :
  forall C, is_ok (count_trajectory_rec n C S) = true <-> countable n S.
Proof.
  unfold countable.
  induction S as [| a S IH]; intros C.
  - simpl. split; [intros _ H; lia | reflexivity].
  - destruct S as [| b S'].
    + simpl. split; [intros _ H; lia | reflexivity].
    + rewrite count_trajectory_rec_step. split.
      * intros Hok _.
        destruct (norm_index n a) as [ea | i] eqn:Ha; [discriminate Hok |].
        destruct (norm_index n b) as [eb | j] eqn:Hb; [discriminate Hok |].
        cbn [bind] in Hok.
        pose proof (proj1 (IH _) Hok) as Hrest.
        apply norm_index_ok_valid in Ha. apply norm_index_ok_valid in Hb.
        constructor; [exact Ha |].
        destruct S' as [| c S'']; [constructor; [exact Hb | constructor] |].
        apply Hrest. simpl. lia.
      * intros Hv.
        assert (Hall : Forall (valid_state n) (a :: b :: S')) by (apply Hv; simpl; lia).
        inversion Hall as [| ? ? Ha Hrest]; subst.
        inversion Hrest as [| ? ? Hb _]; subst.
        destruct (norm_index_valid n a Ha) as [-> _].
        destruct (norm_index_valid n b Hb) as [-> _].
        cbn [bind]. apply IH. intros _. exact Hrest.
Qed.

Lemma count_fold_ok_iff n trajs :
  forall C,
    is_ok (fold_left (fun acc S => C <- acc ;; count_trajectory n C S) trajs (ret C))
    = true
    <-> Forall (countable n) trajs.
Proof.
  induction trajs as [| S trajs IH]; intros C.
  - simpl. split; [constructor | reflexivity].
  - cbn [fold_left bind ret]. rewrite count_trajectory_unfold.
    destruct (count_trajectory_rec n C S) as [e | C1] eqn:H1.
    + rewrite count_fold_stuck. split; [discriminate |].
      intros Hall. inversion Hall as [| ? ? HS _]; subst.
      apply (count_trajectory_rec_ok_iff n S C) in HS.
      rewrite H1 in HS. discriminate HS.
    + rewrite IH. split.
      * intros Hrest. constructor; [| exact Hrest].
        apply (count_trajectory_rec_ok_iff n S C). rewrite H1. reflexivity.
      * intros Hall. inversion Hall; subst. assumption.
Qed.

(** X8: [count_matrix] returns a matrix exactly when trajectories are
    assigned and every trajectory with at least two entries consists of
    indices within [-nstates, nstates); a state out of this range in a
    trajectory of one entry goes unnoticed.  When it fails, the error is its
    [RuntimeError] or the [IndexError] of the array access. *)
Theorem count_matrix_returns_iff_countable (h : HMM) :
  (is_ok (count_matrix h) = true
   <-> exists trajs, hidden_state_trajectories h = Some trajs
                     /\ Forall (countable (nstates h)) trajs)
  /\ (forall e, count_matrix h = inl e ->
                e = RuntimeError "HMM model does not have a hidden state trajectory."
                \/ e = IndexError "index is out of bounds for axis").
Proof.
  unfold count_matrix, nstates. split.
  - destruct (hidden_state_trajectories h) as [trajs |].
    + rewrite count_fold_ok_iff. split.
      * intros H. exists trajs. split; [reflexivity | exact H].
      * intros (trajs' & Heq & H). injection Heq as <-. exact H.
    + split; [discriminate |]. intros (trajs' & Heq & _). discriminate Heq.
  - intros e H. destruct (hidden_state_trajectories h) as [trajs |].
    + right. eapply count_fold_err. exact H.
    + left. injection H as <-. reflexivity.
Qed.

(** State 7 is no state of a two-state model: alone in a trajectory it is
    accepted, next to another state it is not. *)
Lemma count_matrix_returns_iff_countable_witness :
  is_ok (count_matrix (set_hidden_state_trajectories hmm2 [[0; 1]; [7]])) = true
  /\ is_ok (count_matrix (set_hidden_state_trajectories hmm2 [[0; 1]; [7; 0]])) = false.
Proof.
  split.
  - apply (proj1 (count_matrix_returns_iff_countable
                    (set_hidden_state_trajectories hmm2 [[0; 1]; [7]]))).
    exists [[0; 1]; [7]]. split; [reflexivity |].
    unfold countable, valid_state.
    constructor; [intros _; repeat constructor; simpl; lia |].
    constructor; [simpl; intros H; lia | constructor].
  - destruct (is_ok (count_matrix
                       (set_hidden_state_trajectories hmm2 [[0; 1]; [7; 0]])))
      eqn:Hok; [exfalso | reflexivity].
    apply (proj1 (count_matrix_returns_iff_countable
                    (set_hidden_state_trajectories hmm2 [[0; 1]; [7; 0]]))) in Hok.
    destruct Hok as (trajs & Heq & Hall). simpl in Heq. injection Heq as <-.
    inversion Hall as [| ? ? _ Hrest]; subst.
    inversion Hrest as [| ? ? H7 _]; subst.
    unfold countable in H7.
    assert (Hv : Forall (valid_state (nstates
                           (set_hidden_state_trajectories hmm2 [[0; 1]; [7; 0]])))
                        [7; 0]) by (apply H7; simpl; lia).
    inversion Hv as [| ? ? Hbad _]; subst.
    unfold valid_state in Hbad. simpl in Hbad. lia.
Defined.

Lemma total_transitions_app n i j t1 t2 :
  total_transitions n i j (t1 ++ t2)
  = total_transitions n i j t1 + total_transitions n i j t2.
Proof.
  unfold total_transitions. induction t1 as [| S t1 IH]; simpl; [reflexivity |].
  rewrite IH. lia.
Qed.

Lemma total_transitions_perm n i j t1 t2 :
  Permutation t1 t2 -> total_transitions n i j t1 = total_transitions n i j t2.
Proof.
  unfold total_transitions. intros H.
  induction H as [| S t1 t2 _ IH | S S' t | t1 t2 t3 _ IH1 _ IH2]; simpl.
  - reflexivity.
  - rewrite IH. reflexivity.
  - lia.
  - rewrite IH1. exact IH2.
Qed.

Lemma square_ext n (C C' : zmatrix) :
  square n C -> square n C' ->
  (forall i j, zentry C i j = zentry C' i j) -> C = C'.
Proof.
  intros [Hlen Hrows] [Hlen' Hrows'] Hent.
  apply (nth_ext C C' [] []); [congruence |].
  intros i Hi.
  rewrite Forall_forall in Hrows, Hrows'.
  assert (Hr : List.length (nth i C []) = n) by (apply Hrows, nth_In; exact Hi).
  assert (Hr' : List.length (nth i C' []) = n) by (apply Hrows', nth_In; lia).
  apply (nth_ext _ _ 0 0); [congruence |].
  intros j _. apply (Hent i j).
Qed.

(** X9: the order of the trajectories does not matter: assigning the same
    trajectories in another order gives the same count matrix. *)
Theorem count_matrix_ignores_order (h : HMM) (trajs trajs' : list (list Z)) :
  Permutation trajs trajs' ->
  valid_trajectories (nstates h) trajs ->
  is_ok (count_matrix (set_hidden_state_trajectories h trajs)) = true
  /\ count_matrix (set_hidden_state_trajectories h trajs)
     = count_matrix (set_hidden_state_trajectories h trajs').
Proof.
  intros Hperm Hv.
  assert (Hv' : valid_trajectories (nstates h) trajs').
  { unfold valid_trajectories in *. eapply Permutation_Forall; eassumption. }
  destruct (count_matrix_full (set_hidden_state_trajectories h trajs) trajs eq_refl Hv)
    as (C & HC & Hsq & Hent & _).
  destruct (count_matrix_full (set_hidden_state_trajectories h trajs') trajs' eq_refl Hv')
    as (C' & HC' & Hsq' & Hent' & _).
  rewrite HC, HC'. split; [reflexivity |]. f_equal.
  apply (square_ext (nstates h)); [exact Hsq | exact Hsq' |].
  intros i j. rewrite Hent, Hent'.
  apply total_transitions_perm. exact Hperm.
Qed.

Lemma count_matrix_ignores_order_witness :
  count_matrix (set_hidden_state_trajectories hmm2 [[0; 1; 1]; [1; 0]; [0]])
  = count_matrix (set_hidden_state_trajectories hmm2 [[0]; [0; 1; 1]; [1; 0]]).
Proof.
  apply (count_matrix_ignores_order hmm2 [[0; 1; 1]; [1; 0]; [0]]
                                    [[0]; [0; 1; 1]; [1; 0]]).
  - apply Permutation_sym. apply (Permutation_cons_app [[0; 1; 1]; [1; 0]] []).
    rewrite app_nil_r. apply Permutation_refl.
  - unfold valid_trajectories, valid_state. repeat constructor; simpl; lia.
Defined.

(** X10: counting is additive in the data: the count matrix of two sets of
    trajectories taken together is the entrywise sum of their count
    matrices. *)
Theorem count_matrix_is_additive (h : HMM) (trajs1 trajs2 : list (list Z)) :
  valid_trajectories (nstates h) trajs1 ->
  valid_trajectories (nstates h) trajs2 ->
  exists C1 C2 C,
    count_matrix (set_hidden_state_trajectories h trajs1) = inr C1
    /\ count_matrix (set_hidden_state_trajectories h trajs2) = inr C2
    /\ count_matrix (set_hidden_state_trajectories h (trajs1 ++ trajs2)) = inr C
    /\ forall i j, zentry C i j = zentry C1 i j + zentry C2 i j.
Proof.
  intros Hv1 Hv2.
  assert (Hv : valid_trajectories (nstates h) (trajs1 ++ trajs2)).
  { unfold valid_trajectories in *. apply Forall_app. split; assumption. }
  destruct (count_matrix_full (set_hidden_state_trajectories h trajs1) trajs1 eq_refl Hv1)
    as (C1 & HC1 & _ & Hent1 & _).
  destruct (count_matrix_full (set_hidden_state_trajectories h trajs2) trajs2 eq_refl Hv2)
    as (C2 & HC2 & _ & Hent2 & _).
  destruct (count_matrix_full (set_hidden_state_trajectories h (trajs1 ++ trajs2))
                              (trajs1 ++ trajs2) eq_refl Hv)
    as (C & HC & _ & Hent & _).
  exists C1, C2, C. repeat split; try assumption.
  intros i j. rewrite Hent, Hent1, Hent2.
  apply total_transitions_app.
Qed.

Lemma count_matrix_is_additive_witness :
  exists C1 C2 C,
    count_matrix (set_hidden_state_trajectories hmm2 [[0; 1; 0]]) = inr C1
    /\ count_matrix (set_hidden_state_trajectories hmm2 [[1; 1; 0]]) = inr C2
    /\ count_matrix (set_hidden_state_trajectories hmm2 ([[0; 1; 0]] ++ [[1; 1; 0]]))
       = inr C
    /\ forall i j, zentry C i j = zentry C1 i j + zentry C2 i j.
Proof.
  apply (count_matrix_is_additive hmm2 [[0; 1; 0]] [[1; 1; 0]]);
    unfold valid_trajectories, valid_state; repeat constructor; simpl; lia.
Defined.

(** ** Synthetic state trajectories of positive length *)

Lemma nth_pred_length_app {A : Type} (done l : list A) (d : A) :
  done <> [] -> nth (List.length done - 1) (done ++ l) d = last done d.
Proof.
  induction done as [| x done IH]; intros Hne; [congruence |].
  destruct done as [| y done'].
  - reflexivity.
  - replace (List.length (x :: y :: done') - 1)%nat
      with (Datatypes.S (List.length (y :: done') - 1)) by (simpl; lia).
    change ((x :: y :: done') ++ l) with (x :: ((y :: done') ++ l)).
    cbn [nth]. rewrite IH by discriminate. reflexivity.
Qed.

Lemma list_update_app_here {A : Type} (done l : list A) (x v : A) :
  list_update (done ++ x :: l) (List.length done) (fun _ => v) = done ++ v :: l.
Proof. induction done as [| y done IH]; simpl; [reflexivity | rewrite IH; reflexivity]. Qed.

Section SynthesisFacts.
Variable G : Type.
Variable choice : G -> nat -> vector -> result (Z * G).
Variable self : HMM.

Lemma synth_loop_stuck l e :
  fold_left (fun acc t => st <- acc ;; synth_step G choice self st t) l (inl e) = inl e.
Proof. induction l as [| t l IH]; simpl; [reflexivity | exact IH]. Qed.

(** The loop over the positions, started after [done] has been filled in,
    is the walk from the last state of [done]. *)
Lemma synth_loop_is_walk k :
  forall done g,
    done <> [] ->
    fold_left (fun acc t => st <- acc ;; synth_step G choice self st t)
              (seq (List.length done) k) (ret (done ++ repeat 0 k, g))
    = (rest <- walk G choice self k (last done 0) g ;;
       ret (done ++ fst rest, snd rest)).
Proof.
  induction k as [| k IH]; intros done g Hne.
  - simpl. reflexivity.
  - cbn [seq fold_left bind ret walk].
    unfold synth_step at 2.
    rewrite nth_pred_length_app by exact Hne.
    destruct (Tij_row self (last done 0)) as [e | p]; cbn [bind].
    + apply synth_loop_stuck.
    + destruct (choice g (_nstates self) p) as [e | [s g']]; cbn [bind fst snd].
      * apply synth_loop_stuck.
      * unfold store.
        replace (List.length done <? List.length (done ++ repeat 0%Z (Datatypes.S k)))%nat
          with true
          by (symmetry; apply Nat.ltb_lt; rewrite length_app, repeat_length; lia).
        cbn [bind ret repeat]. rewrite list_update_app_here.
        replace (done ++ s :: repeat 0 k) with ((done ++ [s]) ++ repeat 0 k)
          by (rewrite <- app_assoc; reflexivity).
        replace (Datatypes.S (List.length done)) with (List.length (done ++ [s]))
          by (rewrite length_app; simpl; lia).
        rewrite IH by (intros H; apply app_eq_nil in H; destruct H; discriminate).
        rewrite last_last.
        destruct (walk G choice self k s g') as [e | [rest g'']]; cbn [bind fst snd ret].
        -- reflexivity.
        -- rewrite <- app_assoc. reflexivity.
Qed.

Lemma generate_is_chain (length : Z) (initial_Pi : option vector) (g : G) :
  1 <= length ->
  generate_synthetic_state_trajectory G choice self length initial_Pi g
  = chain G choice self length initial_Pi g.
Proof.
  intros Hlen. unfold generate_synthetic_state_trajectory, chain, np_zeros1.
  replace (length <? 0) with false by (symmetry; apply Z.ltb_ge; lia).
  cbn [bind ret].
  destruct (choice g (_nstates self)
                   match initial_Pi with Some p => p | None => _Pi self end)
    as [e | [s g']]; cbn [bind fst snd]; [reflexivity |].
  destruct (Z.to_nat length) as [| k] eqn:Hk; [lia |].
  cbn [repeat store list_update List.length Nat.ltb Nat.leb bind ret].
  replace (Datatypes.S k - 1)%nat with k by lia.
  exact (synth_loop_is_walk k [s] g' ltac:(discriminate)).
Qed.

Lemma walk_length k :
  forall prev g traj g',
    walk G choice self k prev g = inr (traj, g') -> List.length traj = k.
Proof.
  induction k as [| k IH]; intros prev g traj g' H; simpl in H.
  - injection H as <- _. reflexivity.
  - inv_bind H. inv_bind H. inv_bind H. destruct a1 as [rest g''].
    injection H as <- _. simpl. f_equal. eapply IH. exact Ha1.
Qed.

Lemma walk_in_range k :
  sampler_in_range G choice (_nstates self) ->
  forall prev g traj g',
    walk G choice self k prev g = inr (traj, g') ->
    Forall (state_in_range (_nstates self)) traj.
Proof.
  intros Hrange. induction k as [| k IH]; intros prev g traj g' H; simpl in H.
  - injection H as <- _. constructor.
  - inv_bind H. inv_bind H. inv_bind H. destruct a0 as [s g1]. destruct a1 as [rest g2].
    injection H as <- _. simpl. constructor.
    + eapply Hrange. exact Ha0.
    + eapply IH. exact Ha1.
Qed.

End SynthesisFacts.

Lemma generate_ok_positive
      (G : Type) (choice : G -> nat -> vector -> result (Z * G))
      (h : HMM) (length : Z) (initial_Pi : option vector) (g : G) r :
  generate_synthetic_state_trajectory G choice h length initial_Pi g = inr r ->
  1 <= length.
Proof.
  intros H. destruct (Z.lt_ge_cases length 1) as [Hlt | Hge]; [exfalso | exact Hge].
  unfold generate_synthetic_state_trajectory, np_zeros1 in H.
  destruct (length <? 0) eqn:Hneg; [discriminate H |].
  apply Z.ltb_ge in Hneg. assert (length = 0) as -> by lia.
  cbn [bind ret Z.to_nat repeat] in H.
  destruct (choice g (_nstates h)
                   match initial_Pi with Some p => p | None => _Pi h end)
    as [e | sg]; discriminate H.
Qed.

(** X11: for a length of at least one the generator realises a Markov
    chain.  One state is drawn from the initial distribution of the model, or
    from [initial_Pi] when it is given; every further state is drawn from the
    row of the transition matrix that its predecessor selects; the random
    generator is threaded through the draws in this order; an error of the
    sampler or of the row access ends the generation with that error.  In
    particular a trajectory of length one is a single draw and reads no row
    of the transition matrix. *)
Theorem trajectory_is_markov_chain
        (G : Type) (choice : G -> nat -> vector -> result (Z * G))
        (h : HMM) (length : Z) (initial_Pi : option vector) (g : G) :
  1 <= length ->
  generate_synthetic_state_trajectory G choice h length initial_Pi g
  = chain G choice h length initial_Pi g
  /\ (length = 1 ->
      generate_synthetic_state_trajectory G choice h length initial_Pi g
      = (sg <- choice g (nstates h)
                 (match initial_Pi with
                  | Some p => p
                  | None => initial_distribution h
                  end) ;;
         ret ([fst sg], snd sg))).
Proof.
  intros Hlen. split; [apply generate_is_chain; exact Hlen |].
  intros ->. rewrite generate_is_chain by lia.
  unfold chain, nstates, initial_distribution. simpl.
  destruct (choice g (_nstates h)
                   match initial_Pi with Some p => p | None => _Pi h end)
    as [e | sg]; reflexivity.
Qed.

Lemma trajectory_is_markov_chain_witness :
  generate_synthetic_state_trajectory nat strict_choice hmm2 3 (Some [0; 1]%Q) 0%nat
  = chain nat strict_choice hmm2 3 (Some [0; 1]%Q) 0%nat
  /\ chain nat strict_choice hmm2 3 (Some [0; 1]%Q) 0%nat = inr ([1; 0; 0], 3%nat).
Proof.
  split.
  - apply (trajectory_is_markov_chain nat strict_choice hmm2 3 (Some [0; 1]%Q) 0%nat).
    lia.
  - vm_compute. reflexivity.
Defined.

(** X12: whatever the sampler, a returned trajectory has exactly the
    requested number of states, which is at least one; with a sampler that
    draws from [range(nstates)] every state of the trajectory is a state of
    the model. *)
Theorem returned_trajectory_has_requested_length
        (G : Type) (choice : G -> nat -> vector -> result (Z * G))
        (h : HMM) (length : Z) (initial_Pi : option vector) (g : G) traj g' :
  generate_synthetic_state_trajectory G choice h length initial_Pi g = inr (traj, g') ->
  1 <= length
  /\ Z.of_nat (List.length traj) = length
  /\ (sampler_in_range G choice (nstates h) ->
      Forall (state_in_range (nstates h)) traj).
Proof.
  intros H. pose proof (generate_ok_positive _ _ _ _ _ _ _ H) as Hlen.
  rewrite generate_is_chain in H by exact Hlen.
  unfold chain in H. inv_bind H. inv_bind H. destruct a as [s g1]. destruct a0 as [rest g2].
  injection H as <- <-. simpl in Ha0.
  split; [exact Hlen | split].
  - simpl List.length. rewrite (walk_length _ _ _ _ _ _ _ _ Ha0). lia.
  - intros Hrange. constructor.
    + eapply Hrange. exact Ha.
    + eapply walk_in_range; eassumption.
Qed.

Lemma returned_trajectory_has_requested_length_witness :
  1 <= 5 /\ Z.of_nat (List.length [0; 0; 0; 0; 0]) = 5.
Proof.
  destruct (returned_trajectory_has_requested_length
              nat strict_choice hmm2 5 None 0%nat [0; 0; 0; 0; 0] 5%nat
              trajectory_of_length_five) as (H1 & H2 & _).
  split; assumption.
Defined.



(** X14: a generated trajectory can be handed back to the model: with a
    sampler that draws from [range(nstates)], assigning the returned
    trajectory as the hidden state trajectory makes [count_matrix] return a
    matrix whose entries add up to [length - 1]. *)
Theorem generated_trajectory_can_be_counted
        (G : Type) (choice : G -> nat -> vector -> result (Z * G))
        (h : HMM) (length : Z) (initial_Pi : option vector) (g : G) traj g' :
  sampler_in_range G choice (nstates h) ->
  generate_synthetic_state_trajectory G choice h length initial_Pi g = inr (traj, g') ->
  exists C,
    count_matrix (set_hidden_state_trajectories h [traj]) = inr C
    /\ ztotal C = length - 1.
Proof.
  intros Hrange H.
  pose proof (generate_ok_positive _ _ _ _ _ _ _ H) as Hlen.
  rewrite generate_is_chain in H by exact Hlen.
  unfold chain in H. inv_bind H. inv_bind H. destruct a as [s g1]. destruct a0 as [rest g2].
  injection H as <- <-. simpl in Ha0.
  assert (Hin : Forall (state_in_range (nstates h)) (s :: rest)).
  { constructor; [eapply Hrange; exact Ha | eapply walk_in_range; eassumption]. }
  assert (Hv : valid_trajectories (nstates (set_hidden_state_trajectories h [s :: rest]))
                                  [s :: rest]).
  { constructor; [| constructor].
    eapply Forall_impl; [| exact Hin]. intros x Hx.
    unfold valid_state, state_in_range in *. simpl. unfold nstates in Hx. lia. }
  destruct (count_matrix_full (set_hidden_state_trajectories h [s :: rest])
                              [s :: rest] eq_refl Hv) as (C & HC & _ & _ & Htot).
  exists C. split; [exact HC |].
  rewrite Htot. unfold total_steps, steps. simpl map. simpl zsum.
  simpl List.length. rewrite (walk_length _ _ _ _ _ _ _ _ Ha0). lia.
Qed.

Lemma generated_trajectory_can_be_counted_witness :
  exists C,
    count_matrix (set_hidden_state_trajectories hmm2 [[0; 0; 0; 0; 0]]) = inr C
    /\ ztotal C = 5 - 1.
Proof.
  apply (generated_trajectory_can_be_counted nat zero_choice hmm2 5 None 0%nat
                                             [0; 0; 0; 0; 0] 5%nat).
  - intros g p s g' H. injection H as <- _. simpl. lia.
  - vm_compute. reflexivity.
Defined.

(** ** Synthetic observation trajectories *)

Section ObservationFacts.
Variable G : Type.
Variable choice : G -> nat -> vector -> result (Z * G).
Variable ObsTraj : Type.
Variable emit : pyobj -> list Z -> option string -> G -> result (ObsTraj * G).
Variable self : HMM.
Variable length : Z.
Variable initial_Pi : option vector.
Variable dtype : option string.

Lemma trajectories_loop_stuck l e :
  fold_left (trajectories_step G choice ObsTraj emit self length initial_Pi dtype)
            l (inl e) = inl e.
Proof. induction l as [| t l IH]; simpl; [reflexivity | exact IH]. Qed.

Lemma observation_trajectory_inv g o_t s_t g' :
  generate_synthetic_observation_trajectory G choice ObsTraj emit self length
                                            initial_Pi dtype g
  = inr ((o_t, s_t), g') ->
  exists g1,
    generate_synthetic_state_trajectory G choice self length initial_Pi g = inr (s_t, g1)
    /\ emit (output_model self) s_t dtype g1 = inr (o_t, g').
Proof.
  unfold generate_synthetic_observation_trajectory. intros H.
  inv_bind H. inv_bind H. destruct a as [s g1]. destruct a0 as [o g2].
  injection H as <- <- <-. exists g1. split; assumption.
Qed.

Lemma trajectories_loop_spec l :
  forall O0 S0 g0 O S g',
    fold_left (trajectories_step G choice ObsTraj emit self length initial_Pi dtype)
              l (ret ((O0, S0), g0)) = inr ((O, S), g') ->
    List.length O = (List.length O0 + List.length l)%nat
    /\ List.length S = (List.length S0 + List.length l)%nat
    /\ (Forall (fun s_t => Z.of_nat (List.length s_t) = length) S0 ->
        Forall (fun s_t => Z.of_nat (List.length s_t) = length) S)
    /\ (l <> [] -> 1 <= length).
Proof.
  induction l as [| t l IH]; intros O0 S0 g0 O S g' H.
  - injection H as <- <- <-. simpl.
    repeat split; try lia; [intros H; exact H | intros H; congruence].
  - cbn [fold_left] in H. unfold trajectories_step at 2 in H. cbn [bind ret snd fst] in H.
    destruct (generate_synthetic_observation_trajectory
                G choice ObsTraj emit self length initial_Pi dtype g0)
      as [e | [[o_t s_t] g1]] eqn:Hgen; cbn [bind fst snd] in H.
    + rewrite trajectories_loop_stuck in H. discriminate H.
    + destruct (observation_trajectory_inv _ _ _ _ Hgen) as (g2 & Hs & _).
      destruct (IH _ _ _ _ _ _ H) as (HO & HS & Hall & _).
      rewrite length_app in HO, HS. simpl in HO, HS.
      pose proof (generate_ok_positive _ _ _ _ _ _ _ Hs) as Hpos.
      split; [simpl; lia | split; [simpl; lia | split; [| intros _; exact Hpos]]].
      intros H0. apply Hall. apply Forall_app. split; [exact H0 |].
      constructor; [| constructor].
      rewrite generate_is_chain in Hs by exact Hpos.
      unfold chain in Hs. inv_bind Hs. inv_bind Hs.
      destruct a as [s ga]. destruct a0 as [rest gb].
      injection Hs as <- _. simpl in Ha0.
      simpl List.length. rewrite (walk_length _ _ _ _ _ _ _ _ Ha0). lia.
Qed.
End ObservationFacts.

(** X15: [generate_synthetic_observation_trajectories] returns as many
    observation trajectories as state trajectories, both [ntrajectories]
    many (none for a negative number); every returned state trajectory has
    [length] states, and when at least one trajectory is returned [length]
    is at least one. *)
Theorem observation_trajectories_are_paired
        (G : Type) (choice : G -> nat -> vector -> result (Z * G))
        (ObsTraj : Type)
        (emit : pyobj -> list Z -> option string -> G -> result (ObsTraj * G))
        (h : HMM) (ntrajectories length : Z) (initial_Pi : option vector)
        (dtype : option string) (g : G) O S g' :
  generate_synthetic_observation_trajectories G choice ObsTraj emit h ntrajectories
                                              length initial_Pi dtype g
  = inr ((O, S), g') ->
  List.length O = Z.to_nat ntrajectories
  /\ List.length S = Z.to_nat ntrajectories
  /\ Forall (fun s_t => Z.of_nat (List.length s_t) = length) S
  /\ (1 <= ntrajectories -> 1 <= length).
Proof.
  unfold generate_synthetic_observation_trajectories. intros H.
  destruct (trajectories_loop_spec G choice ObsTraj emit h length initial_Pi dtype
              _ _ _ _ _ _ _ H) as (HO & HS & Hall & Hpos).
  rewrite length_seq in HO, HS. simpl in HO, HS.
  split; [exact HO | split; [exact HS | split; [apply Hall; constructor |]]].
  intros Hn. apply Hpos.
  destruct (Z.to_nat ntrajectories) as [| k] eqn:Hk; [lia | discriminate].
Qed.

Lemma observation_trajectories_are_paired_witness :
  exists O S g',
    generate_synthetic_observation_trajectories
      nat zero_choice (list Z) echo_observations hmm2 3 2 None None 0%nat
    = inr ((O, S), g')
    /\ List.length O = 3%nat /\ List.length S = 3%nat
    /\ Forall (fun s_t => Z.of_nat (List.length s_t) = 2) S.
Proof.
  destruct (generate_synthetic_observation_trajectories
              nat zero_choice (list Z) echo_observations hmm2 3 2 None None 0%nat)
    as [e | [[O S] g']] eqn:H.
  - exfalso. vm_compute in H. discriminate H.
  - exists O, S, g'. split; [reflexivity |].
    destruct (observation_trajectories_are_paired _ _ _ _ _ _ _ _ _ _ _ _ _ H)
      as (HO & HS & Hall & _).
    split; [exact HO | split; [exact HS | exact Hall]].
Defined.

(** X16: with [ntrajectories <= 0] nothing is generated: two empty lists
    are returned and the random generator is untouched, whatever the length
    (an invalid one included) and whatever the sampler and the output model
    would do.  With [ntrajectories >= 1] and [length < 1] the call fails. *)
Theorem no_trajectories_requested
        (G : Type) (choice : G -> nat -> vector -> result (Z * G))
        (ObsTraj : Type)
        (emit : pyobj -> list Z -> option string -> G -> result (ObsTraj * G))
        (h : HMM) (ntrajectories length : Z) (initial_Pi : option vector)
        (dtype : option string) (g : G) :
  (ntrajectories <= 0 ->
   generate_synthetic_observation_trajectories G choice ObsTraj emit h ntrajectories
                                               length initial_Pi dtype g
   = inr (([], []), g))
  /\ (1 <= ntrajectories -> length < 1 ->
      is_ok (generate_synthetic_observation_trajectories
               G choice ObsTraj emit h ntrajectories length initial_Pi dtype g)
      = false).
Proof.
  split.
  - intros Hn. unfold generate_synthetic_observation_trajectories.
    replace (Z.to_nat ntrajectories) with 0%nat by lia. reflexivity.
  - intros Hn Hlen.
    destruct (generate_synthetic_observation_trajectories
                G choice ObsTraj emit h ntrajectories length initial_Pi dtype g)
      as [e | [[O S] g']] eqn:H; [reflexivity | exfalso].
    unfold generate_synthetic_observation_trajectories in H.
    destruct (trajectories_loop_spec G choice ObsTraj emit h length initial_Pi dtype
                _ _ _ _ _ _ _ H) as (_ & _ & _ & Hpos).
    assert (1 <= length); [| lia].
    apply Hpos. destruct (Z.to_nat ntrajectories) as [| k] eqn:Hk; [lia | discriminate].
Qed.

Lemma no_trajectories_requested_witness :
  generate_synthetic_observation_trajectories
    nat strict_choice (list Z) echo_observations hmm_free 0 (-4) None None 0%nat
  = inr (([], []), 0%nat)
  /\ is_ok (generate_synthetic_observation_trajectories
              nat zero_choice (list Z) echo_observations hmm2 2 0 None None 0%nat)
     = false.
Proof.
  split.
  - apply (proj1 (no_trajectories_requested nat strict_choice (list Z) echo_observations
                    hmm_free 0 (-4) None None 0%nat)). lia.
  - apply (proj2 (no_trajectories_requested nat zero_choice (list Z) echo_observations
                    hmm2 2 0 None None 0%nat)); lia.
Defined.

(** ** Observations of a hidden state *)

Lemma filter_map_comm {A B : Type} (f : B -> bool) (g : A -> B) (l : list A) :
  filter f (map g l) = map g (filter (fun x => f (g x)) l).
Proof.
  induction l as [| x l IH]; simpl; [reflexivity |].
  destruct (f (g x)); simpl; rewrite IH; reflexivity.
Qed.

Lemma map_result_map {A B C : Type} (f : B -> result C) (g : A -> B) (l : list A) :
  map_result f (map g l) = map_result (fun x => f (g x)) l.
Proof.
  induction l as [| x l IH]; simpl; [reflexivity |].
  rewrite IH. reflexivity.
Qed.

Section CollectFacts.
Variable Obs : Type.
Variable state_index : Z.

Lemma take_cons (y : Obs) (o_t : list Obs) (l : list nat) :
  take (y :: o_t) (map S l) = take o_t l.
Proof. unfold take. rewrite map_result_map. reflexivity. Qed.

Lemma np_where_eq_cons (x : Z) (s_t : list Z) :
  np_where_eq (x :: s_t) state_index
  = (if x =? state_index then [0%nat] else []) ++ map S (np_where_eq s_t state_index).
Proof.
  unfold np_where_eq. cbn [List.length seq filter nth].
  rewrite <- seq_shift, filter_map_comm. cbn [nth].
  destruct (x =? state_index); reflexivity.
Qed.

(** With at least as many observations as states, the indexing
    [o_t[np.where(s_t == state_index)[0]]] selects the observations that are
    paired with the state. *)
Lemma take_where (s_t : list Z) :
  forall o_t : list Obs,
    (List.length s_t <= List.length o_t)%nat ->
    take o_t (np_where_eq s_t state_index)
    = inr (observations_of state_index (s_t, o_t)).
Proof.
  unfold observations_of. cbn [fst snd].
  induction s_t as [| x s_t IH]; intros o_t Hlen.
  - reflexivity.
  - destruct o_t as [| y o_t]; simpl in Hlen; [lia |].
    rewrite np_where_eq_cons. cbn [combine filter fst].
    destruct (x =? state_index).
    + cbn [app]. unfold take at 1. cbn [map_result nth_error bind ret].
      fold (take (y :: o_t) (map S (np_where_eq s_t state_index))).
      rewrite take_cons, IH by lia. reflexivity.
    + cbn [app]. rewrite take_cons, IH by lia. reflexivity.
Qed.

Lemma take_err (o_t : list Obs) (l : list nat) e :
  take o_t l = inl e -> e = IndexError "index is out of bounds for axis 0".
Proof.
  unfold take. induction l as [| i l IH]; simpl; intros H; [discriminate H |].
  destruct (nth_error o_t i) as [x |]; cbn [bind] in H.
  - destruct (map_result _ l) as [e' | xs] eqn:Hl; cbn [bind] in H.
    + injection H as <-. apply IH. reflexivity.
    + discriminate H.
  - injection H as <-. reflexivity.
Qed.

Lemma collect_loop_stuck (l : list (list Z * list Obs)) e :
  fold_left (collect_step state_index) l (inl e) = inl e.
Proof. induction l as [| so l IH]; simpl; [reflexivity | exact IH]. Qed.

Lemma collect_loop_err (l : list (list Z * list Obs)) :
  forall acc e,
    fold_left (collect_step state_index) l (ret acc) = inl e ->
    e = IndexError "index is out of bounds for axis 0".
Proof.
  induction l as [| so l IH]; intros acc e H; [discriminate H |].
  cbn [fold_left] in H. unfold collect_step at 2 in H. cbn [bind ret] in H.
  destruct (take (snd so) (np_where_eq (fst so) state_index)) as [e1 | sel] eqn:Ht;
    cbn [bind] in H.
  - rewrite collect_loop_stuck in H. injection H as <-. eapply take_err. exact Ht.
  - eapply IH. exact H.
Qed.

Lemma collect_loop_spec (l : list (list Z * list Obs)) :
  forall acc,
    Forall (fun so => (List.length (fst so) <= List.length (snd so))%nat) l ->
    fold_left (collect_step state_index) l (ret acc)
    = inr (acc ++ flat_map (observations_of state_index) l).
Proof.
  induction l as [| [s_t o_t] l IH]; intros acc Hcov.
  - simpl. rewrite app_nil_r. reflexivity.
  - inversion Hcov as [| ? ? Hso Hrest]; subst. simpl in Hso.
    cbn [fold_left]. unfold collect_step at 2. cbn [bind ret fst snd].
    rewrite take_where by exact Hso. cbn [bind ret].
    rewrite IH by exact Hrest. cbn [flat_map]. rewrite app_assoc. reflexivity.
Qed.
End CollectFacts.

(** X17: [collect_observations_in_state] treats an empty list of
    trajectories like missing trajectories: it raises its [RuntimeError]
    exactly when the trajectories are absent or an empty list, whereas
    [count_matrix] accepts the empty list and returns the zero matrix.  Its
    other errors are index errors. *)
Theorem collect_fails_without_trajectories
        (Obs : Type) (h : HMM) (observations : list (list Obs)) (state_index : Z) :
  (collect_observations_in_state h observations state_index
   = inl (RuntimeError "HMM model does not have a hidden state trajectory.")
   <-> hidden_state_trajectories h = None \/ hidden_state_trajectories h = Some [])
  /\ (hidden_state_trajectories h = Some [] ->
      count_matrix h = inr (np_zeros (nstates h) (nstates h)))
  /\ (forall e,
         collect_observations_in_state h observations state_index = inl e ->
         e = RuntimeError "HMM model does not have a hidden state trajectory."
         \/ e = IndexError "list index out of range"
         \/ e = IndexError "index is out of bounds for axis 0").
Proof.
  unfold collect_observations_in_state, count_matrix, nstates.
  destruct (hidden_state_trajectories h) as [[| S trajs] |].
  - split; [split; [intros _; right; reflexivity | reflexivity] |].
    split; [reflexivity |]. intros e H. left. injection H as <-. reflexivity.
  - split; [| split].
    + split; [| intros [H | H]; discriminate H].
      destruct observations as [| o obs]; [discriminate |].
      intros H. apply collect_loop_err in H. discriminate H.
    + discriminate.
    + intros e H. right. destruct observations as [| o obs].
      * left. injection H as <-. reflexivity.
      * right. eapply collect_loop_err. exact H.
  - split; [split; [intros _; left; reflexivity | reflexivity] |].
    split; [discriminate |]. intros e H. left. injection H as <-. reflexivity.
Qed.

Lemma collect_fails_without_trajectories_witness :
  collect_observations_in_state (set_hidden_state_trajectories hmm2 [])
                                [[1 # 2; 3 # 2]%Q] 0
  = inl (RuntimeError "HMM model does not have a hidden state trajectory.")
  /\ count_matrix (set_hidden_state_trajectories hmm2 []) = inr [[0; 0]; [0; 0]].
Proof.
  destruct (collect_fails_without_trajectories
              Q (set_hidden_state_trajectories hmm2 []) [[1 # 2; 3 # 2]%Q] 0)
    as ([_ Hfail] & Hcount & _).
  split; [apply Hfail; right; reflexivity | exact (Hcount eq_refl)].
Defined.

(** X18: when every trajectory has at least as many observations as
    states, [collect_observations_in_state] returns, trajectory after
    trajectory and in their order, the observations paired with the state
    [state_index].  The state index is compared as it is: a state that
    occurs in no trajectory gives the empty array and no error. *)
Theorem collect_selects_observations_of_state
        (Obs : Type) (h : HMM) (S : list Z) (trajs : list (list Z))
        (o : list Obs) (observations : list (list Obs)) (state_index : Z) :
  hidden_state_trajectories h = Some (S :: trajs) ->
  covered (S :: trajs) (o :: observations) ->
  collect_observations_in_state h (o :: observations) state_index
  = inr (flat_map (observations_of state_index)
                  (combine (S :: trajs) (o :: observations)))
  /\ (Forall (fun s_t => ~ In state_index s_t) (S :: trajs) ->
      collect_observations_in_state h (o :: observations) state_index = inr []).
Proof.
  intros Hh Hcov.
  assert (Hcollect :
            collect_observations_in_state h (o :: observations) state_index
            = inr (flat_map (observations_of state_index)
                            (combine (S :: trajs) (o :: observations)))).
  { unfold collect_observations_in_state. rewrite Hh.
    rewrite (collect_loop_spec Obs state_index _ [] Hcov). reflexivity. }
  split; [exact Hcollect |].
  intros Hnot. rewrite Hcollect. f_equal.
  assert (Hgen : forall l : list (list Z * list Obs),
             Forall (fun so => ~ In state_index (fst so)) l ->
             flat_map (observations_of state_index) l = []).
  { induction l as [| [s_t o_t] l IH]; intros Hl; [reflexivity |].
    inversion Hl as [| ? ? Hso Hrest]; subst. simpl in Hso.
    cbn [flat_map]. rewrite IH by exact Hrest. rewrite app_nil_r.
    unfold observations_of. cbn [fst snd].
    clear - Hso. revert o_t. induction s_t as [| x s_t IHs]; intros o_t; [reflexivity |].
    destruct o_t as [| y o_t]; [reflexivity |].
    cbn [combine filter fst].
    destruct (x =? state_index) eqn:Hx.
    - exfalso. apply Hso. left. apply Z.eqb_eq. exact Hx.
    - apply IHs. intros Hin. apply Hso. right. exact Hin. }
  apply Hgen.
  apply Forall_forall. intros [s_t o_t] Hin. simpl.
  apply in_combine_l in Hin. rewrite Forall_forall in Hnot. apply Hnot. exact Hin.
Qed.

Lemma collect_selects_observations_of_state_witness :
  collect_observations_in_state
    (set_hidden_state_trajectories hmm2 [[0; 1; 0]; [1; 1; 0]])
    [[1 # 10; 2 # 10; 3 # 10]; [4 # 10; 5 # 10; 6 # 10]]%Q 0
  = inr [1 # 10; 3 # 10; 6 # 10]%Q
  /\ collect_observations_in_state
       (set_hidden_state_trajectories hmm2 [[0; 1; 0]; [1; 1; 0]])
       [[1 # 10; 2 # 10; 3 # 10]; [4 # 10; 5 # 10; 6 # 10]]%Q (-1)
     = inr [].
Proof.
  assert (Hcov : covered [[0; 1; 0]; [1; 1; 0]]
                         [[1 # 10; 2 # 10; 3 # 10]; [4 # 10; 5 # 10; 6 # 10]]%Q).
  { unfold covered. repeat constructor. }
  split.
  - apply (proj1 (collect_selects_observations_of_state
                    Q (set_hidden_state_trajectories hmm2 [[0; 1; 0]; [1; 1; 0]])
                    [0; 1; 0] [[1; 1; 0]] _ _ 0 eq_refl Hcov)).
  - apply (proj2 (collect_selects_observations_of_state
                    Q (set_hidden_state_trajectories hmm2 [[0; 1; 0]; [1; 1; 0]])
                    [0; 1; 0] [[1; 1; 0]] _ _ (-1) eq_refl Hcov)).
    repeat constructor; simpl; intros H; repeat destruct H as [H | H]; try lia; exact H.
Defined.

Lemma combine_surplus_r {A B : Type} (l : list A) :
  forall (l1 l2 : list B),
    (List.length l <= List.length l1)%nat -> combine l (l1 ++ l2) = combine l l1.
Proof.
  induction l as [| x l IH]; intros l1 l2 Hlen; [reflexivity |].
  destruct l1 as [| y l1]; simpl in Hlen; [lia |].
  simpl. rewrite IH by lia. reflexivity.
Qed.

Lemma combine_surplus_l {A B : Type} (l1 : list B) :
  forall (l l2 : list A),
    (List.length l1 <= List.length l)%nat -> combine (l ++ l2) l1 = combine l l1.
Proof.
  induction l1 as [| y l1 IH]; intros l l2 Hlen.
  - destruct l, l2; simpl; try reflexivity; destruct (l ++ a0 :: l2); reflexivity.
  - destruct l as [| x l]; simpl in Hlen; [lia |].
    simpl. rewrite IH by lia. reflexivity.
Qed.

(** X19: trajectories and observation sequences are paired in order and
    what has no partner is ignored without notice: observation sequences
    beyond the number of trajectories do not change the result, and neither
    do trajectories beyond the number of observation sequences. *)
Theorem collect_ignores_unpaired_sequences
        (Obs : Type) (h : HMM) (trajs more : list (list Z))
        (observations extra : list (list Obs)) (state_index : Z) :
  trajs <> [] ->
  List.length trajs = List.length observations ->
  collect_observations_in_state (set_hidden_state_trajectories h trajs)
                                (observations ++ extra) state_index
  = collect_observations_in_state (set_hidden_state_trajectories h trajs)
                                  observations state_index
  /\ collect_observations_in_state (set_hidden_state_trajectories h (trajs ++ more))
                                   observations state_index
     = collect_observations_in_state (set_hidden_state_trajectories h trajs)
                                     observations state_index.
Proof.
  intros Hne Hlen.
  destruct trajs as [| S trajs]; [congruence |].
  destruct observations as [| o observations]; [discriminate Hlen |].
  unfold collect_observations_in_state. cbn [set_hidden_state_trajectories
                                              hidden_state_trajectories].
  split.
  - change ((o :: observations) ++ extra) with (o :: (observations ++ extra)).
    cbv iota.
    change (o :: (observations ++ extra)) with ((o :: observations) ++ extra).
    rewrite combine_surplus_r by (rewrite Hlen; apply Nat.le_refl). reflexivity.
  - change ((S :: trajs) ++ more) with (S :: (trajs ++ more)). cbv iota.
    change (S :: (trajs ++ more)) with ((S :: trajs) ++ more).
    rewrite combine_surplus_l by (rewrite Hlen; apply Nat.le_refl). reflexivity.
Qed.

Lemma collect_ignores_unpaired_sequences_witness :
  collect_observations_in_state (set_hidden_state_trajectories hmm2 [[0; 1]])
                                ([[1 # 2; 3 # 2]] ++ [[5 # 2]])%Q 1
  = collect_observations_in_state (set_hidden_state_trajectories hmm2 [[0; 1]])
                                  [[1 # 2; 3 # 2]]%Q 1.
Proof.
  apply (proj1 (collect_ignores_unpaired_sequences
                  Q hmm2 [[0; 1]] [] [[1 # 2; 3 # 2]]%Q [[5 # 2]]%Q 1
                  ltac:(discriminate) eq_refl)).
Defined.

Lemma collect_covered
      (Obs : Type) (h : HMM) (S : list Z) (trajs : list (list Z))
      (o : list Obs) (observations : list (list Obs)) (state_index : Z) :
  hidden_state_trajectories h = Some (S :: trajs) ->
  covered (S :: trajs) (o :: observations) ->
  collect_observations_in_state h (o :: observations) state_index
  = inr (flat_map (observations_of state_index)
                  (combine (S :: trajs) (o :: observations))).
Proof.
  intros Hh Hcov. unfold collect_observations_in_state. rewrite Hh.
  rewrite (collect_loop_spec Obs state_index _ [] Hcov). reflexivity.
Qed.

Lemma list_sum_map_add {A : Type} (f g : A -> nat) (l : list A) :
  list_sum (map (fun x => (f x + g x)%nat) l)
  = (list_sum (map f l) + list_sum (map g l))%nat.
Proof. induction l as [| x l IH]; simpl; [reflexivity | rewrite IH; lia]. Qed.

Lemma indicator_sum (x : Z) (n : nat) :
  list_sum (map (fun k => if x =? Z.of_nat k then 1%nat else 0%nat) (seq 0 n))
  = if (0 <=? x) && (x <? Z.of_nat n) then 1%nat else 0%nat.
Proof.
  induction n as [| n IH].
  - cbn [seq map list_sum]. change (Z.of_nat 0) with 0.
    destruct (Z.leb_spec 0 x) as [H0 | H0]; cbn [andb]; [| reflexivity].
    replace (x <? 0) with false by (symmetry; apply Z.ltb_ge; lia). reflexivity.
  - rewrite seq_S, map_app, list_sum_app, IH. cbn [map list_sum Nat.add].
    destruct (Z.eqb_spec x (Z.of_nat n)) as [-> | Hne].
    + replace (0 <=? Z.of_nat n) with true by (symmetry; apply Z.leb_le; lia).
      replace (Z.of_nat n <? Z.of_nat n) with false by (symmetry; apply Z.ltb_ge; lia).
      replace (Z.of_nat n <? Z.of_nat (Datatypes.S n)) with true
        by (symmetry; apply Z.ltb_lt; lia).
      reflexivity.
    + destruct (0 <=? x); cbn [andb]; [| reflexivity].
      destruct (Z.ltb_spec x (Z.of_nat n)) as [Hlt | Hge].
      * replace (x <? Z.of_nat (Datatypes.S n)) with true
          by (symmetry; apply Z.ltb_lt; lia).
        reflexivity.
      * replace (x <? Z.of_nat (Datatypes.S n)) with false
          by (symmetry; apply Z.ltb_ge; lia).
        reflexivity.
Qed.

(** Over the states of the model, the observations of one trajectory are
    split without loss. *)
Lemma observations_of_all_states {Obs : Type} (n : nat) (s_t : list Z) :
  forall o_t : list Obs,
    List.length s_t = List.length o_t ->
    Forall (state_in_range n) s_t ->
    list_sum (map (fun k => List.length (observations_of (Z.of_nat k) (s_t, o_t)))
                  (seq 0 n))
    = List.length o_t.
Proof.
  unfold observations_of. cbn [fst snd].
  induction s_t as [| x s_t IH]; intros o_t Hlen Hin.
  - destruct o_t; [| discriminate Hlen]. cbn [combine filter map List.length].
    induction (seq 0 n) as [| k l IHl]; simpl; [reflexivity | exact IHl].
  - destruct o_t as [| y o_t]; [discriminate Hlen |].
    inversion Hin as [| ? ? Hx Hrest]; subst.
    cbn [combine filter fst].
    rewrite (map_ext
               (fun k => List.length
                           (map snd (if x =? Z.of_nat k
                                     then (x, y) :: filter (fun p => fst p =? Z.of_nat k)
                                                           (combine s_t o_t)
                                     else filter (fun p => fst p =? Z.of_nat k)
                                                 (combine s_t o_t))))
               (fun k => ((if (x =? Z.of_nat k)%Z then 1 else 0)
                          + List.length
                              (map snd (filter (fun p => (fst p =? Z.of_nat k)%Z)
                                               (combine s_t o_t))))%nat))
      by (intros k; destruct (x =? Z.of_nat k); reflexivity).
    rewrite list_sum_map_add, indicator_sum, IH;
      [| simpl in Hlen; lia | exact Hrest].
    unfold state_in_range in Hx.
    replace ((0 <=? x) && (x <? Z.of_nat n)) with true
      by (symmetry; apply andb_true_iff; split; [apply Z.leb_le | apply Z.ltb_lt]; lia).
    reflexivity.
Qed.

Lemma flat_map_all_states {Obs : Type} (n : nat) (l : list (list Z * list Obs)) :
  Forall (fun so => List.length (fst so) = List.length (snd so)
                    /\ Forall (state_in_range n) (fst so)) l ->
  list_sum (map (fun k => List.length (flat_map (observations_of (Z.of_nat k)) l))
                (seq 0 n))
  = list_sum (map (fun so => List.length (snd so)) l).
Proof.
  induction l as [| [s_t o_t] l IH]; intros Hl.
  - cbn [flat_map List.length map list_sum].
    induction (seq 0 n) as [| k ks IHk]; simpl; [reflexivity | exact IHk].
  - inversion Hl as [| ? ? [Hlen Hin] Hrest]; subst. simpl in Hlen, Hin.
    rewrite (map_ext
               (fun k => List.length (flat_map (observations_of (Z.of_nat k))
                                               ((s_t, o_t) :: l)))
               (fun k => (List.length (observations_of (Z.of_nat k) (s_t, o_t))
                          + List.length (flat_map (observations_of (Z.of_nat k)) l))%nat))
      by (intros k; cbn [flat_map]; apply length_app).
    rewrite list_sum_map_add, IH by exact Hrest.
    rewrite observations_of_all_states by assumption.
    reflexivity.
Qed.

(** X20: collecting state by state loses and duplicates nothing.  When
    every trajectory is as long as its observation sequence and holds states
    of [range(nstates)], the calls for the states [0, ..., nstates-1] all
    return, and the lengths of their results add up to the number of
    observations of the paired sequences. *)
Theorem collect_partitions_observations
        (Obs : Type) (h : HMM) (S : list Z) (trajs : list (list Z))
        (o : list Obs) (observations : list (list Obs)) :
  hidden_state_trajectories h = Some (S :: trajs) ->
  Forall (fun so => List.length (fst so) = List.length (snd so)
                    /\ Forall (state_in_range (nstates h)) (fst so))
         (combine (S :: trajs) (o :: observations)) ->
  exists parts : list (list Obs),
    map (fun k => collect_observations_in_state h (o :: observations) (Z.of_nat k))
        (seq 0 (nstates h))
    = map inr parts
    /\ list_sum (map (@List.length Obs) parts)
       = list_sum (map (fun so => List.length (snd so))
                       (combine (S :: trajs) (o :: observations))).
Proof.
  intros Hh Hall.
  assert (Hcov : covered (S :: trajs) (o :: observations)).
  { unfold covered. eapply Forall_impl; [| exact Hall].
    intros so [Hlen _]. simpl. rewrite Hlen. apply Nat.le_refl. }
  exists (map (fun k => flat_map (observations_of (Z.of_nat k))
                                 (combine (S :: trajs) (o :: observations)))
              (seq 0 (nstates h))).
  split.
  - rewrite map_map. apply map_ext. intros k.
    apply collect_covered; assumption.
  - rewrite map_map. apply flat_map_all_states. exact Hall.
Qed.

Lemma collect_partitions_observations_witness :
  exists parts : list (list Q),
    map (fun k => collect_observations_in_state
                    (set_hidden_state_trajectories hmm2 [[0; 1; 0]; [1; 1]])
                    [[1 # 10; 2 # 10; 3 # 10]; [4 # 10; 5 # 10]]%Q (Z.of_nat k))
        (seq 0 2)
    = map inr parts
    /\ list_sum (map (@List.length Q) parts) = 5%nat.
Proof.
  apply (collect_partitions_observations
           Q (set_hidden_state_trajectories hmm2 [[0; 1; 0]; [1; 1]])
           [0; 1; 0] [[1; 1]] [1 # 10; 2 # 10; 3 # 10]%Q [[4 # 10; 5 # 10]]%Q eq_refl).
  unfold state_in_range.
  repeat constructor; simpl; lia.
Defined.

(** ** More on the matrices of the discrete initialiser *)

Local Open Scope Q_scope.

(** The stages of a successful run of [initial_matrices]. *)
Lemma initial_matrices_inv
      est inv observations (nstates : Z) lag (reversible verbose : bool) (A B : matrix) :
  initial_matrices est inv observations nstates lag reversible verbose = inr (A, B) ->
  exists MSM pcca B0 X,
    msm.estimate_markov_model est observations lag true "largest" = inr MSM
    /\ msm.pcca est MSM nstates = inr pcca
    /\ (0 < msm.nstates MSM)%Z /\ (0 <= nstates)%Z
    /\ assign_columns (Z.to_nat (msm.nstates MSM))
                      (repeat (repeat ((1 # 100) * (1 / inject_Z (msm.nstates MSM)))
                                      (Z.to_nat (msm.nstates MSM)))
                              (Z.to_nat nstates))
                      (msm.active_set MSM) (msm.metastable_distributions pcca)
       = inr B0
    /\ coarse_X inv (msm.memberships pcca) (msm.transition_matrix MSM)
                (msm.coarse_grained_stationary_probability pcca) = inr X
    /\ B = row_normalize B0
    /\ A = row_normalize (np_maximum X ((1 # 100) * (1 / inject_Z (msm.nstates MSM))))
    /\ report verbose B = inr tt.
Proof.
  unfold initial_matrices. intros H.
  inv_bind H. rename a into MSM, Ha into HMSM.
  inv_bind H. rename a into pcca, Ha into Hpcca.
  inv_bind H. rename a into eps, Ha into Heps.
  inv_bind H. rename a into B0, Ha into HB0.
  inv_bind H. rename a into X, Ha into HX.
  inv_bind H. destruct a. rename Ha into Hrep. injection H as <- <-.
  apply default_eps_inv in Heps. destruct Heps as [Hn0 ->].
  unfold expand_B in HB0. inv_bind HB0.
  apply np_full_inv in Ha. destruct Ha as (Hr & Hc & ->).
  exists MSM, pcca, B0, X.
  repeat split; try assumption; try reflexivity. lia.
Qed.

Lemma all_columns_assigned (c : nat) (js : list nat) :
  NoDup js -> List.length js = c -> Forall (fun j => (j < c)%nat) js ->
  forall j, (j < c)%nat -> In j js.
Proof.
  intros Hnd Hlen Hlt j Hj.
  assert (Hincl : incl (seq 0 c) js).
  { apply NoDup_length_incl; [exact Hnd | rewrite length_seq; lia |].
    intros x Hx. rewrite Forall_forall in Hlt. apply in_seq.
    specialize (Hlt x Hx). lia. }
  apply Hincl. apply in_seq. lia.
Qed.

(** X21: the expansion to the full symbol space is void when the estimated
    model is consistent.  If the active set lists [MSM.nstates] distinct
    symbols (the number of states is the size of the active set) and the
    matrices are computed, then, before renormalisation, every entry of [B]
    is an entry of the metastable distributions, column [active_set[k]] of
    [B] being column [k] of them: no entry holds the default [eps]. *)
Theorem consistent_active_set_leaves_no_floor
        est inv observations (nstates : Z) lag (reversible verbose : bool)
        (A B : matrix) :
  initial_matrices est inv observations nstates lag reversible verbose = inr (A, B) ->
  exists MSM pcca B0,
    msm.estimate_markov_model est observations lag true "largest" = inr MSM
    /\ msm.pcca est MSM nstates = inr pcca
    /\ B = row_normalize B0
    /\ let n := Z.to_nat (msm.nstates MSM) in
       let js := map (state_of n) (msm.active_set MSM) in
       NoDup js -> List.length (msm.active_set MSM) = n ->
       forall i j, (i < Z.to_nat nstates)%nat -> (j < n)%nat ->
                   exists k, nth_error js k = Some j
                             /\ entry B0 i j
                                = broadcast_get (msm.metastable_distributions pcca) i k.
Proof.
  intros H. apply initial_matrices_inv in H.
  destruct H as (MSM & pcca & B0 & X & HMSM & Hpcca & Hn & Hr & HB0 & _ & HB & _ & _).
  exists MSM, pcca, B0.
  split; [exact HMSM | split; [exact Hpcca | split; [exact HB |]]].
  cbv zeta. intros Hnd Hlen i j Hi Hj.
  destruct (assign_columns_spec _ _ _ _ _ HB0 (repeat_rows _ _ _))
    as (Hjs & _ & _ & _ & Hwritten).
  rewrite repeat_length in Hwritten.
  apply Hwritten; [exact Hi |].
  destruct (map_result_norm_index _ _ _ Hjs) as [_ Hlt].
  apply (all_columns_assigned (Z.to_nat (msm.nstates MSM))); try assumption.
  rewrite length_map. exact Hlen.
Qed.

Lemma consistent_active_set_leaves_no_floor_witness :
  exists A B,
    initial_matrices estimation2 inv2 observations2 2 (PyInt 1) true false = inr (A, B)
    /\ exists B0, B = row_normalize B0
                  /\ forall i j, (i < 2)%nat -> (j < 2)%nat ->
                                 exists k, nth_error [0%nat; 1%nat] k = Some j
                                           /\ entry B0 i j
                                              = broadcast_get [[1; 0]; [0; 1]] i k.
Proof.
  destruct (initial_matrices estimation2 inv2 observations2 2 (PyInt 1) true false)
    as [e | [A B]] eqn:H.
  - exfalso. vm_compute in H. discriminate H.
  - exists A, B. split; [reflexivity |].
    destruct (consistent_active_set_leaves_no_floor _ _ _ _ _ _ _ A B H)
      as (MSM & pcca & B0 & HMSM & Hpcca & HB & Hall).
    simpl in HMSM, Hpcca. injection HMSM as <-. injection Hpcca as <-.
    exists B0. split; [exact HB |].
    cbv zeta in Hall. apply Hall.
    + simpl. repeat constructor; simpl; intros Hin; repeat destruct Hin as [Hin | Hin];
        try discriminate Hin; exact Hin.
    + reflexivity.
Defined.

Lemma map_result_norm_index_fails (c : nat) (idx : list Z) :
  Exists (fun a => ~ valid_state c a) idx ->
  map_result (norm_index c) idx = inl (IndexError "index is out of bounds for axis").
Proof.
  induction idx as [| a idx IH]; intros Hex; [inversion Hex |].
  cbn [map_result].
  destruct (norm_index c a) as [e | j] eqn:Ha; cbn [bind].
  - apply norm_index_err in Ha. subst e. reflexivity.
  - apply norm_index_ok_valid in Ha.
    inversion Hex as [? ? Hbad | ? ? Hrest]; subst; [contradiction |].
    rewrite (IH Hrest). reflexivity.
Qed.

(** X22: [B] is allocated with [MSM.nstates] columns, so the symbols of
    the active set must be smaller than [MSM.nstates].  When the estimation
    and the decomposition succeed and the metastable distributions have the
    shape of the assignment, an active symbol outside [[-MSM.nstates,
    MSM.nstates)] makes the initialiser fail with an [IndexError]. *)
Theorem active_symbol_out_of_range_fails
        est inv observations (nstates : Z) lag (reversible verbose : bool) MSM pcca :
  msm.estimate_markov_model est observations lag true "largest" = inr MSM ->
  msm.pcca est MSM nstates = inr pcca ->
  (0 < msm.nstates MSM)%Z -> (0 <= nstates)%Z ->
  broadcasts_to (msm.metastable_distributions pcca)
                (Z.to_nat nstates) (List.length (msm.active_set MSM)) = true ->
  Exists (fun a => ~ valid_state (Z.to_nat (msm.nstates MSM)) a) (msm.active_set MSM) ->
  initial_matrices est inv observations nstates lag reversible verbose
  = inl (IndexError "index is out of bounds for axis").
Proof.
  intros HMSM Hpcca Hn Hr Hshape Hbad.
  unfold initial_matrices. rewrite HMSM. cbn [bind]. rewrite Hpcca. cbn [bind].
  unfold default_eps.
  replace (msm.nstates MSM =? 0)%Z with false by (symmetry; apply Z.eqb_neq; lia).
  cbn [bind ret]. unfold expand_B, np_full.
  replace ((nstates <? 0)%Z || (msm.nstates MSM <? 0)%Z) with false
    by (symmetry; apply orb_false_iff; split; apply Z.ltb_ge; lia).
  cbn [bind ret]. unfold assign_columns.
  rewrite repeat_length, Hshape.
  rewrite (map_result_norm_index_fails _ _ Hbad). reflexivity.
Qed.

(** Symbol 1 is disconnected: the active set is [{0, 2}] and the model has
    two states. *)
Lemma active_symbol_out_of_range_fails_witness :
  initial_matrices estimation_gap inv2 [[0; 0; 2; 2; 0; 2; 1]]%Z 2 (PyInt 1) true false
  = inl (IndexError "index is out of bounds for axis").
Proof.
  apply (active_symbol_out_of_range_fails estimation_gap inv2 _ 2 (PyInt 1) true false
                                          msm_gap pcca2);
    try reflexivity; try (simpl; lia).
  simpl. apply Exists_cons_tl. apply Exists_cons_hd.
  unfold valid_state. simpl. lia.
Defined.

Lemma expand_B_shape (nstates n : Z) (eps : Q) (active_set : list Z) (B_conn B0 : matrix) :
  expand_B nstates n eps active_set B_conn = inr B0 ->
  List.length B0 = Z.to_nat nstates
  /\ Forall (fun row => List.length row = Z.to_nat n) B0.
Proof.
  unfold expand_B. intros H. inv_bind H.
  apply np_full_inv in Ha. destruct Ha as (_ & _ & ->).
  destruct (assign_columns_spec _ _ _ _ _ H (repeat_rows _ _ _))
    as (_ & Hlen & Hrows & _).
  rewrite repeat_length in Hlen. split; assumption.
Qed.

(** X23: the verbose report prints the first two rows of [B], whatever the
    number of hidden states.  With two or more hidden states [verbose] does
    not change the result; with a single hidden state a run that computes
    the matrices silently fails with an [IndexError] when [verbose] is set. *)
Theorem verbose_report_needs_two_states
        est inv observations (nstates : Z) lag (reversible : bool) :
  ((2 <= nstates)%Z ->
   initial_matrices est inv observations nstates lag reversible true
   = initial_matrices est inv observations nstates lag reversible false)
  /\ (nstates = 1%Z ->
      is_ok (initial_matrices est inv observations nstates lag reversible false) = true ->
      initial_matrices est inv observations nstates lag reversible true
      = inl (IndexError "index 1 is out of bounds for axis 0")).
Proof.
  unfold initial_matrices.
  destruct (msm.estimate_markov_model est observations lag true "largest")
    as [e | MSM]; cbn [bind]; [split; [reflexivity | discriminate] |].
  destruct (msm.pcca est MSM nstates) as [e | pcca]; cbn [bind];
    [split; [reflexivity | discriminate] |].
  destruct (default_eps (msm.nstates MSM)) as [e | eps] eqn:Heps; cbn [bind];
    [split; [reflexivity | discriminate] |].
  destruct (expand_B nstates (msm.nstates MSM) eps (msm.active_set MSM)
                     (msm.metastable_distributions pcca)) as [e | B0] eqn:HB0;
    cbn [bind]; [split; [reflexivity | discriminate] |].
  destruct (coarse_X inv (msm.memberships pcca) (msm.transition_matrix MSM)
                     (msm.coarse_grained_stationary_probability pcca)) as [e | X];
    cbn [bind]; [split; [reflexivity | discriminate] |].
  destruct (expand_B_shape _ _ _ _ _ _ HB0) as [Hlen Hrows].
  destruct (row_normalize_shape B0 _ Hrows) as [HlenB HrowsB].
  unfold report. cbn [andb].
  split.
  - intros Hn.
    replace (List.length (row_normalize B0) <? 2)%nat with false
      by (symmetry; apply Nat.ltb_ge; lia).
    rewrite andb_false_r. reflexivity.
  - intros -> _.
    apply default_eps_inv in Heps. destruct Heps as [Hn0 _].
    pose proof HB0 as Hfull. unfold expand_B in Hfull. inv_bind Hfull.
    apply np_full_inv in Ha. destruct Ha as (_ & Hc & _).
    replace (List.length (row_normalize B0) <? 2)%nat with true
      by (symmetry; apply Nat.ltb_lt; lia).
    assert (Hcols : ncols (row_normalize B0) = Z.to_nat (msm.nstates MSM)).
    { unfold ncols. destruct (row_normalize B0) as [| row rest]; [simpl in HlenB; lia |].
      inversion HrowsB; subst. assumption. }
    rewrite Hcols.
    replace (Z.to_nat (msm.nstates MSM) =? 0)%nat with false
      by (symmetry; apply Nat.eqb_neq; lia).
    reflexivity.
Qed.

Lemma verbose_report_needs_two_states_witness :
  is_ok (initial_matrices estimation1 inv12 observations2 1 (PyInt 1) true false) = true
  /\ initial_matrices estimation1 inv12 observations2 1 (PyInt 1) true true
     = inl (IndexError "index 1 is out of bounds for axis 0")
  /\ initial_matrices estimation2 inv2 observations2 2 (PyInt 1) true true
     = initial_matrices estimation2 inv2 observations2 2 (PyInt 1) true false.
Proof.
  assert (Hok : is_ok (initial_matrices estimation1 inv12 observations2 1 (PyInt 1)
                                        true false) = true)
    by (vm_compute; reflexivity).
  split; [exact Hok | split].
  - apply (proj2 (verbose_report_needs_two_states estimation1 inv12 observations2 1
                    (PyInt 1) true) eq_refl Hok).
  - apply (proj1 (verbose_report_needs_two_states estimation2 inv2 observations2 2
                    (PyInt 1) true)). lia.
Defined.

(** ** The empirical confidence interval *)

Lemma insert_sorted_length x l : List.length (insert_sorted x l) = S (List.length l).
Proof.
  induction l as [| y l IH]; simpl; [reflexivity |].
  destruct (Qle_bool x y); simpl; [reflexivity | rewrite IH; reflexivity].
Qed.

Lemma np_sort_length l : List.length (np_sort l) = List.length l.
Proof.
  induction l as [| x l IH]; simpl; [reflexivity |].
  rewrite insert_sorted_length, IH. reflexivity.
Qed.

Lemma insert_sorted_In x l y : In y (insert_sorted x l) -> y = x \/ In y l.
Proof.
  induction l as [| z l IH]; simpl.
  - intros [H | H]; [left; symmetry; exact H | contradiction].
  - destruct (Qle_bool x z); simpl.
    + intros [H | H]; [left; symmetry; exact H | right; exact H].
    + intros [H | H]; [right; left; exact H |].
      destruct (IH H) as [H' | H']; [left; exact H' | right; right; exact H'].
Qed.

Lemma np_sort_In l y : In y (np_sort l) -> In y l.
Proof.
  induction l as [| x l IH]; simpl; [tauto |].
  intros H. apply insert_sorted_In in H.
  destruct H as [H | H]; [left; symmetry; exact H | right; apply IH; exact H].
Qed.

Lemma insert_sorted_sorted x l :
  StronglySorted Qle l -> StronglySorted Qle (insert_sorted x l).
Proof.
  induction l as [| y l IH]; intros Hs; simpl.
  - constructor; constructor.
  - inversion Hs as [| ? ? Hl Hy]; subst.
    destruct (Qle_bool x y) eqn:Hxy.
    + apply Qle_bool_iff in Hxy. constructor; [exact Hs |].
      constructor; [exact Hxy |].
      eapply Forall_impl; [| exact Hy]. intros z Hz. eapply Qle_trans; eassumption.
    + assert (Hyx : y <= x).
      { apply Qlt_le_weak. apply Qnot_le_lt. intros H.
        apply Qle_bool_iff in H. congruence. }
      constructor; [apply IH; exact Hl |].
      apply Forall_forall. intros z Hz. apply insert_sorted_In in Hz.
      destruct Hz as [-> | Hz]; [exact Hyx |].
      rewrite Forall_forall in Hy. apply Hy. exact Hz.
Qed.

Lemma np_sort_sorted l : StronglySorted Qle (np_sort l).
Proof.
  induction l as [| x l IH]; simpl; [constructor |].
  apply insert_sorted_sorted. exact IH.
Qed.

Lemma sorted_nth_le (l : list Q) :
  StronglySorted Qle l ->
  forall i j, (i <= j)%nat -> (j < List.length l)%nat -> nth i l 0 <= nth j l 0.
Proof.
  intros Hs. induction Hs as [| x l Hl IH Hx]; intros i j Hij Hj; simpl in Hj; [lia |].
  destruct i as [| i]; destruct j as [| j]; simpl; try lia.
  - apply Qle_refl.
  - rewrite Forall_forall in Hx. apply Hx. apply nth_In. lia.
  - apply IH; lia.
Qed.

Lemma np_round_bounds q : (Qfloor q <= np_round q <= Qfloor q + 1)%Z.
Proof.
  unfold np_round.
  destruct (Qcompare (q - inject_Z (Qfloor q)) (1 # 2)); [| lia | lia].
  destruct (Z.even (Qfloor q)); lia.
Qed.

Lemma np_round_comp q q' : q == q' -> np_round q = np_round q'.
Proof.
  intros H. unfold np_round. rewrite (Qfloor_comp _ _ H).
  assert (Hc : Qcompare (q - inject_Z (Qfloor q')) (1 # 2)
               = Qcompare (q' - inject_Z (Qfloor q')) (1 # 2))
    by (rewrite H; reflexivity).
  rewrite Hc. reflexivity.
Qed.

Lemma np_round_inject_Z z : np_round (inject_Z z) = z.
Proof.
  unfold np_round. rewrite Qfloor_Z.
  assert (Hlt : Qcompare (inject_Z z - inject_Z z) (1 # 2) = Lt)
    by (apply (proj1 (Qlt_alt (inject_Z z - inject_Z z) (1 # 2))); lra).
  rewrite Hlt. reflexivity.
Qed.

Lemma np_round_monotone q1 q2 : q1 <= q2 -> (np_round q1 <= np_round q2)%Z.
Proof.
  intros Hle.
  pose proof (Qfloor_resp_le _ _ Hle) as Hf.
  pose proof (np_round_bounds q1) as B1. pose proof (np_round_bounds q2) as B2.
  destruct (Z.eq_dec (Qfloor q1) (Qfloor q2)) as [Heq | Hne]; [| lia].
  unfold np_round. rewrite Heq.
  destruct (Qcompare_spec (q1 - inject_Z (Qfloor q2)) (1 # 2)) as [H1 | H1 | H1];
    destruct (Qcompare_spec (q2 - inject_Z (Qfloor q2)) (1 # 2)) as [H2 | H2 | H2];
    try (destruct (Z.even (Qfloor q2))); try lia; exfalso; lra.
Qed.

Lemma np_round_nonneg q : 0 <= q -> (0 <= np_round q)%Z.
Proof.
  intros Hq. pose proof (np_round_monotone 0 q Hq) as H.
  change 0 with (inject_Z 0) in H at 1. rewrite np_round_inject_Z in H. exact H.
Qed.

Lemma np_round_below_half q m : q < inject_Z m + (1 # 2) -> (np_round q <= m)%Z.
Proof.
  intros Hq.
  pose proof (np_round_bounds q) as B. pose proof (Qfloor_le q) as Hfl.
  destruct (Z_lt_le_dec (Qfloor q) m) as [Hlt | Hge]; [lia |].
  assert (Hfm : Qfloor q = m).
  { assert (Hlt : inject_Z (Qfloor q) < inject_Z (m + 1)).
    { rewrite inject_Z_plus. change (inject_Z 1) with 1. lra. }
    rewrite <- Zlt_Qlt in Hlt. lia. }
  unfold np_round. rewrite Hfm.
  assert (Hr : Qcompare (q - inject_Z m) (1 # 2) = Lt)
    by (apply (proj1 (Qlt_alt (q - inject_Z m) (1 # 2))); lra).
  rewrite Hr. lia.
Qed.

Lemma getitem_inv (a : list Q) (i : Z) (x : Q) :
  getitem a i = inr x ->
  (- Z.of_nat (List.length a) <= i < Z.of_nat (List.length a))%Z
  /\ x = nth (Z.to_nat (i mod Z.of_nat (List.length a))) a 0.
Proof.
  unfold getitem. intros H. inv_bind H. injection H as <-.
  pose proof (norm_index_ok_valid _ _ _ Ha) as Hv.
  apply norm_index_ok_inv in Ha. destruct Ha as [-> _].
  split; [exact Hv | reflexivity].
Qed.

Lemma getitem_fails (a : list Q) (i : Z) :
  (Z.of_nat (List.length a) <= i)%Z ->
  getitem a i = inl (IndexError "index is out of bounds for axis").
Proof.
  intros Hi. unfold getitem, norm_index.
  replace (i <? Z.of_nat (List.length a))%Z with false
    by (symmetry; apply Z.ltb_ge; exact Hi).
  rewrite andb_false_r. reflexivity.
Qed.

Lemma getitem_err (a : list Q) (i : Z) e :
  getitem a i = inl e -> e = IndexError "index is out of bounds for axis".
Proof.
  unfold getitem. intros H.
  destruct (norm_index (List.length a) i) as [e' | j] eqn:Hn; [| discriminate H].
  injection H as <-. eapply norm_index_err. exact Hn.
Qed.

(** X24: an interval of the full size cannot be computed: for
    [interval = 1] the upper index is the size of the sample, one past its
    last element, and [empirical_confidence_interval] fails with an
    [IndexError] on every sample. *)
Theorem full_confidence_interval_fails (sample : list Q) (interval : Q) :
  interval == 1 ->
  empirical_confidence_interval sample interval
  = inl (IndexError "index is out of bounds for axis").
Proof.
  intros Hint. unfold empirical_confidence_interval. cbv zeta.
  set (sorted := np_sort sample).
  set (N := Z.of_nat (List.length sorted)).
  assert (Hhigh : np_round (inject_Z (N - 1) * ((1 # 2) + interval / 2)) = (N - 1)%Z).
  { rewrite (np_round_comp _ (inject_Z (N - 1))); [apply np_round_inject_Z |].
    rewrite Hint. field. }
  rewrite Hhigh.
  destruct (getitem sorted
                    (np_round (inject_Z (N - 1) * ((1 # 2) - interval / 2)) + 1))
    as [e | low] eqn:Hlow; cbn [bind].
  - apply getitem_err in Hlow. subst e. reflexivity.
  - rewrite getitem_fails by (subst N; lia). reflexivity.
Qed.

Lemma full_confidence_interval_fails_witness :
  empirical_confidence_interval [3; 1; 2; 5; 4] 1
  = inl (IndexError "index is out of bounds for axis").
Proof.
  apply (full_confidence_interval_fails [3; 1; 2; 5; 4] 1). reflexivity.
Defined.

(** X25: for an interval size between 0 and 1, whenever
    [empirical_confidence_interval] returns, the two bounds are elements of
    the sample and the lower bound is not above the upper one. *)
Theorem confidence_interval_is_ordered (sample : list Q) (interval low high : Q) :
  0 <= interval -> interval <= 1 ->
  empirical_confidence_interval sample interval = inr (low, high) ->
  low <= high /\ In low sample /\ In high sample.
Proof.
  intros H0 H1. unfold empirical_confidence_interval. cbv zeta.
  unfold Qdiv. change (/ 2) with (1 # 2).
  set (sorted := np_sort sample).
  set (N := Z.of_nat (List.length sorted)).
  set (li := (np_round (inject_Z (N - 1) * ((1 # 2) - interval * (1 # 2))) + 1)%Z).
  set (hi := (np_round (inject_Z (N - 1) * ((1 # 2) + interval * (1 # 2))) + 1)%Z).
  intros H. inv_bind H. inv_bind H. injection H as <- <-.
  apply getitem_inv in Ha, Ha0. fold N in Ha, Ha0.
  destruct Ha as [Hli ->]. destruct Ha0 as [Hhi ->].
  assert (HN : (0 <= N - 1)%Z) by lia.
  assert (HNq : 0 <= inject_Z (N - 1)).
  { change 0 with (inject_Z 0). rewrite <- Zle_Qle. exact HN. }
  assert (Hli1 : (1 <= li)%Z).
  { subst li.
    assert (0 <= np_round (inject_Z (N - 1) * ((1 # 2) - interval * (1 # 2))))%Z;
      [| lia].
    apply np_round_nonneg. apply Qmult_le_0_compat; [exact HNq | lra]. }
  assert (Hlh : (li <= hi)%Z).
  { subst li hi.
    assert (np_round (inject_Z (N - 1) * ((1 # 2) - interval * (1 # 2)))
            <= np_round (inject_Z (N - 1) * ((1 # 2) + interval * (1 # 2))))%Z;
      [| lia].
    apply np_round_monotone.
    assert (Hd : 0 <= inject_Z (N - 1) * interval)
      by (apply Qmult_le_0_compat; assumption).
    lra. }
  rewrite !Z.mod_small by lia.
  split; [| split].
  - apply sorted_nth_le; [apply np_sort_sorted | lia | subst N; lia].
  - apply np_sort_In. apply nth_In. fold sorted. subst N. lia.
  - apply np_sort_In. apply nth_In. fold sorted. subst N. lia.
Qed.

Lemma confidence_interval_is_ordered_witness :
  exists low high,
    empirical_confidence_interval [3; 1; 2; 5; 4] (1 # 2) = inr (low, high)
    /\ low <= high /\ In low [3; 1; 2; 5; 4] /\ In high [3; 1; 2; 5; 4].
Proof.
  destruct (empirical_confidence_interval [3; 1; 2; 5; 4] (1 # 2))
    as [e | [low high]] eqn:H.
  - exfalso. vm_compute in H. discriminate H.
  - exists low, high. split; [reflexivity |].
    apply (confidence_interval_is_ordered [3; 1; 2; 5; 4] (1 # 2) low high);
      [lra | lra | exact H].
Defined.

Lemma small_sample_fails (sorted : list Q) (n : nat) :
  List.length sorted = n -> (n <= 21)%nat ->
  (low <- getitem sorted
            (np_round (inject_Z (Z.of_nat n - 1) * ((1 # 2) - (19 # 20) / 2)) + 1) ;;
   high <- getitem sorted
             (np_round (inject_Z (Z.of_nat n - 1) * ((1 # 2) + (19 # 20) / 2)) + 1) ;;
   ret (low, high))
  = inl (IndexError "index is out of bounds for axis").
Proof.
  intros Hlen Hn. unfold getitem. rewrite Hlen. clear Hlen.
  do 22 (destruct n as [| n]; [vm_compute; reflexivity |]).
  lia.
Qed.

(** X26: with the default interval size 0.95 the function needs at least
    22 samples: on a sample of up to 21 elements the upper index is past the
    end and the call fails with an [IndexError]; on a larger sample it
    returns (in exact arithmetic). *)
Theorem default_confidence_interval_needs_22_samples (sample : list Q) :
  ((List.length sample <= 21)%nat ->
   empirical_confidence_interval sample (19 # 20)
   = inl (IndexError "index is out of bounds for axis"))
  /\ ((22 <= List.length sample)%nat ->
      is_ok (empirical_confidence_interval sample (19 # 20)) = true).
Proof.
  unfold empirical_confidence_interval. cbv zeta. split.
  - intros Hn. apply small_sample_fails; [reflexivity |].
    rewrite np_sort_length. exact Hn.
  - intros Hn.
    set (sorted := np_sort sample).
    assert (Hlen : List.length sorted = List.length sample) by apply np_sort_length.
    set (N := Z.of_nat (List.length sorted)).
    assert (HN : (22 <= N)%Z) by (subst N; lia).
    assert (HNq : 21 <= inject_Z (N - 1)).
    { change 21 with (inject_Z 21). rewrite <- Zle_Qle. lia. }
    assert (Hm : inject_Z (N - 2) == inject_Z (N - 1) - 1).
    { replace (N - 2)%Z with ((N - 1) + (-1))%Z by lia.
      rewrite inject_Z_plus. change (inject_Z (-1)) with (- (1)). ring. }
    unfold Qdiv. change (/ 2) with (1 # 2).
    set (a := inject_Z (N - 1) * ((1 # 2) - (19 # 20) * (1 # 2))).
    set (b := inject_Z (N - 1) * ((1 # 2) + (19 # 20) * (1 # 2))).
    assert (Ha0 : (0 <= np_round a)%Z) by (apply np_round_nonneg; subst a; lra).
    assert (Hb0 : (0 <= np_round b)%Z) by (apply np_round_nonneg; subst b; lra).
    assert (Ha1 : (np_round a <= N - 2)%Z)
      by (apply np_round_below_half; rewrite Hm; subst a; lra).
    assert (Hb1 : (np_round b <= N - 2)%Z)
      by (apply np_round_below_half; rewrite Hm; subst b; lra).
    unfold getitem, norm_index. fold N.
    replace ((- N <=? np_round a + 1)%Z && (np_round a + 1 <? N)%Z) with true
      by (symmetry; apply andb_true_iff; split;
          [apply Z.leb_le | apply Z.ltb_lt]; lia).
    replace ((- N <=? np_round b + 1)%Z && (np_round b + 1 <? N)%Z) with true
      by (symmetry; apply andb_true_iff; split;
          [apply Z.leb_le | apply Z.ltb_lt]; lia).
    reflexivity.
Qed.

Lemma default_confidence_interval_needs_22_samples_witness :
  empirical_confidence_interval [3; 1; 2; 5; 4; 9; 8; 7; 6; 10] (19 # 20)
  = inl (IndexError "index is out of bounds for axis")
  /\ is_ok (empirical_confidence_interval
              (map inject_Z [1; 2; 3; 4; 5; 6; 7; 8; 9; 10; 11; 12; 13; 14; 15; 16;
                             17; 18; 19; 20; 21; 22]%Z)
              (19 # 20)) = true.
Proof.
  split.
  - apply (proj1 (default_confidence_interval_needs_22_samples
                    [3; 1; 2; 5; 4; 9; 8; 7; 6; 10])). simpl. lia.
  - apply (proj2 (default_confidence_interval_needs_22_samples
                    (map inject_Z [1; 2; 3; 4; 5; 6; 7; 8; 9; 10; 11; 12; 13; 14; 15;
                                   16; 17; 18; 19; 20; 21; 22]%Z))). simpl. lia.
Defined.
